(** * Steely memory devices and out-of-line lock entry points

    A shallow embedding of [kernel/steely/posix/memory.c] and
    [kernel/steely/lock.c].

    The C code is written against kernel services that live outside these
    two files (the vmalloc allocator, the xnheap allocator, the RTDM device
    layer, the per-process bookkeeping).  Those services are gathered in the
    [Host] interface below; every function of [memory.c] is then a
    computation over an explicit kernel state, in a small state-and-fault
    monad, and every service call is appended to a call log so that the
    order of calls can be stated. *)

From Stdlib Require Import ZArith List Lia Bool String.
From stdpp Require Import base gmap.
Import ListNotations.

Open Scope Z_scope.

(** ** Machine integers *)

(** [u32]: the value of an expression stored into a [u32] object. *)
Definition u32 (x : Z) : Z := x mod 2 ^ 32.

(** [int32]: the value of an expression stored into an [int], the counter
    type of [atomic_t]; the kernel's atomic operations wrap around. *)
Definition int32 (x : Z) : Z := (x + 2 ^ 31) mod 2 ^ 32 - 2 ^ 31.

Definition INT_MAX : Z := 2 ^ 31 - 1.
Definition INT_MIN : Z := - 2 ^ 31.

(** Error numbers, as in the kernel's errno tables. *)
Definition ENOMEM : Z := 12.
Definition EACCES : Z := 13.
Definition ENODEV : Z := 19.
Definition EINVAL : Z := 22.

(** Access modes of [open], as in the kernel's fcntl tables. *)
Definition O_RDONLY : Z := 0.
Definition O_WRONLY : Z := 1.
Definition O_RDWR : Z := 2.
Definition O_ACCMODE : Z := 3.

(** Minor numbers of the memory devices ([memory.c], lines 30-32). *)
Definition UMM_PRIVATE : Z := 0.
Definition UMM_SHARED : Z := 1.
Definition SYS_GLOBAL : Z := 2.

(** ** Objects the devices work on *)

(** A process descriptor is named by a natural number. *)
Definition pid := nat.

(** The two places a [struct steely_umm] lives at: inside the global
    [steely_kernel_ppd], or inside the [sys_ppd] of a process. *)
Inductive umm_ref : Type :=
| kernel_ppd_umm
| process_ppd_umm (p : pid).

(** A [struct steely_umm *]: [None] is the NULL pointer. *)
Definition umm_ptr := option umm_ref.

(** [struct rtdm_fd]: only the minor number of the device is read here. *)
Record rtdm_fd : Type := { minor : Z }.

(** The operation table a mapping is bound to. *)
Inductive vm_operations : Type := umm_vmops.

(** [struct vm_area_struct], with the fields [memory.c] reads or writes. *)
Record vm_area_struct : Type := {
  vm_start : Z;
  vm_end : Z;
  vm_page_prot : Z;
  vm_private_data : umm_ptr;
  vm_ops : option vm_operations
}.

(** [struct steely_memdev_stat]. *)
Record steely_memdev_stat : Type := { size : Z; free : Z }.

(** The three devices of [memory.c]: [umm_devices[UMM_PRIVATE]],
    [umm_devices[UMM_SHARED]] and [sysmem_device]. *)
Inductive rtdm_device : Type :=
| umm_device_private
| umm_device_shared
| sysmem_device.

(** A release handler is a function of the caller, named by a number. *)
Definition release_fn := nat.

(** ** The host interface *)

(** Everything [memory.c] calls and does not define.  The heap allocator is
    an abstract data type with its operations; the other services answer as
    a function of their arguments. *)
Class Host : Type := {
  (* delegated heap capability: struct xnheap and its operations *)
  xnheap : Type;
  xnheap_init : xnheap -> Z -> Z -> Z * xnheap;
  xnheap_destroy : xnheap -> xnheap;
  xnheap_alloc : xnheap -> Z -> Z * xnheap;
  xnheap_free : xnheap -> Z -> xnheap;
  xnheap_set_name : xnheap -> string -> xnheap;
  xnheap_get_size : xnheap -> Z;
  xnheap_get_free : xnheap -> Z;
  xnheap_get_membase : xnheap -> Z;
  (* host virtual memory *)
  BITS_PER_LONG : Z;
  PAGE_SHIFT : Z;
  PAGE_KERNEL : Z;
  pgprot_noncached : Z -> Z;
  xnarch_cache_aliasing : bool;
  __vmalloc : Z -> Z -> Z;
  rtdm_mmap_vmem : vm_area_struct -> Z -> Z;
  (* RTDM device layer *)
  rtdm_dev_register : rtdm_device -> Z;
  rtdm_safe_copy_to_user : option rtdm_fd -> Z -> steely_memdev_stat -> Z;
  MEMDEV_RTIOC_STAT : Z;
  (* configuration and the vDSO record *)
  CONFIG_STEELY_SHARED_HEAPSZ : Z;
  sizeof_xnvdso : Z;
  XNVDSO_FEATURES : Z
}.

(** Calls into the host, in the order they are made.  Atomic operations on a
    reference count are logged as well. *)
Inductive event : Type :=
| ev_vmalloc (sz : Z) (zeroed : bool) (prot : Z) (addr : Z)
| ev_vfree (addr : Z)
| ev_xnheap_init (r : umm_ref) (membase sz : Z) (ret : Z)
| ev_xnheap_destroy (r : umm_ref)
| ev_xnheap_alloc (r : umm_ref) (sz : Z) (addr : Z)
| ev_xnheap_free (r : umm_ref) (addr : Z)
| ev_xnheap_set_name (r : umm_ref)
| ev_release (f : release_fn) (r : umm_ref)
| ev_mmap_vmem (vma : vm_area_struct) (membase : Z) (ret : Z)
| ev_dev_register (d : rtdm_device) (ret : Z)
| ev_dev_unregister (d : rtdm_device)
| ev_xnlock_get (r : option umm_ref)
| ev_xnlock_put (r : option umm_ref)
| ev_copy_to_user (dst : Z) (st : steely_memdev_stat) (ret : Z)
| ev_atomic_set (r : umm_ref) (v : Z)
| ev_atomic_inc (r : umm_ref)
| ev_atomic_dec_and_test (r : umm_ref) (zero : bool)
| ev_smp_mb.

Section Memory.

Context `{H : Host}.

(** [struct steely_umm]. *)
Record steely_umm : Type := {
  heap : xnheap;
  refcount : Z;
  release : option release_fn
}.

Definition set_heap (h : xnheap) (u : steely_umm) : steely_umm :=
  {| heap := h; refcount := refcount u; release := release u |}.

Definition set_refcount (c : Z) (u : steely_umm) : steely_umm :=
  {| heap := heap u; refcount := c; release := release u |}.

Definition set_release (f : option release_fn) (u : steely_umm) : steely_umm :=
  {| heap := heap u; refcount := refcount u; release := f |}.

(** The kernel state the memory devices touch. [steely_heap] is the system
    heap, [nkvdso] the exported pointer, [calls] the log of host calls,
    oldest first.  [vm_areas] is the host's virtual memory as far as this
    code sees it: the blocks obtained from [__vmalloc] and not handed back
    yet, each with its size.  [words] holds the words this code has stored
    through a pointer into such a block, by address. *)
Record kernel : Type := {
  steely_kernel_ppd : steely_umm;
  sys_ppd : gmap pid steely_umm;
  steely_heap : xnheap;
  nkvdso : Z;
  vm_areas : gmap Z Z;
  words : gmap Z Z;
  calls : list event
}.

Definition load (r : umm_ref) (k : kernel) : option steely_umm :=
  match r with
  | kernel_ppd_umm => Some (steely_kernel_ppd k)
  | process_ppd_umm p => sys_ppd k !! p
  end.

Definition store (r : umm_ref) (u : steely_umm) (k : kernel) : kernel :=
  match r with
  | kernel_ppd_umm =>
      {| steely_kernel_ppd := u; sys_ppd := sys_ppd k;
         steely_heap := steely_heap k; nkvdso := nkvdso k;
         vm_areas := vm_areas k; words := words k; calls := calls k |}
  | process_ppd_umm p =>
      {| steely_kernel_ppd := steely_kernel_ppd k;
         sys_ppd := <[p := u]> (sys_ppd k);
         steely_heap := steely_heap k; nkvdso := nkvdso k;
         vm_areas := vm_areas k; words := words k; calls := calls k |}
  end.

Definition log (e : event) (k : kernel) : kernel :=
  {| steely_kernel_ppd := steely_kernel_ppd k; sys_ppd := sys_ppd k;
     steely_heap := steely_heap k; nkvdso := nkvdso k;
     vm_areas := vm_areas k; words := words k; calls := calls k ++ [e] |}.

Definition set_nkvdso (p : Z) (k : kernel) : kernel :=
  {| steely_kernel_ppd := steely_kernel_ppd k; sys_ppd := sys_ppd k;
     steely_heap := steely_heap k; nkvdso := p;
     vm_areas := vm_areas k; words := words k; calls := calls k |}.

(** The state with its host memory replaced. *)
Definition with_memory (areas ws : gmap Z Z) (k : kernel) : kernel :=
  {| steely_kernel_ppd := steely_kernel_ppd k; sys_ppd := sys_ppd k;
     steely_heap := steely_heap k; nkvdso := nkvdso k;
     vm_areas := areas; words := ws; calls := calls k |}.

(** Modelled from the spec: what a successful [__vmalloc] does to the
    host's memory, which is not part of these files
    ("allocateZeroedPages(size, cacheable) -> block").  A block of [sz]
    bytes at [base] comes into being. *)
Definition add_area (base sz : Z) (k : kernel) : kernel :=
  with_memory (<[base := sz]> (vm_areas k)) (words k) k.

(** Modelled from the spec: what [vfree] does to the host's memory, which
    is not part of these files ("freePages(block)").  The block at [base]
    goes back to the host, and every word inside it with it.  An address
    that is not the base of a block gives nothing back. *)
Definition drop_area (base : Z) (k : kernel) : kernel :=
  with_memory (delete base (vm_areas k))
    match vm_areas k !! base with
    | Some sz =>
        filter (fun aw : Z * Z => ~ (base <= aw.1 < base + sz)) (words k)
    | None => words k
    end k.

(** A word is stored at [addr]. *)
Definition put_word (addr v : Z) (k : kernel) : kernel :=
  with_memory (vm_areas k) (<[addr := v]> (words k)) k.

(** The storage of the record at [addr] goes back to its heap: what was
    stored there is no longer defined. *)
Definition drop_word (addr : Z) (k : kernel) : kernel :=
  with_memory (vm_areas k) (delete addr (words k)) k.

(** The reference count of the region at [r], when there is one. *)
Definition refcount_at (r : umm_ref) (k : kernel) : option Z :=
  refcount <$> load r k.

(** ** The kernel monad *)

(** A computation either returns a value and a new state, or stops on a
    fault (an access through a NULL or dangling pointer) in the state it
    had reached. *)
Inductive result (A : Type) : Type :=
| Ret (v : A) (k : kernel)
| Oops (k : kernel).

Arguments Ret {A} v k.
Arguments Oops {A} k.

Definition K (A : Type) : Type := kernel -> result A.

Definition pure {A} (v : A) : K A := fun k => Ret v k.

Definition bind {A B} (m : K A) (f : A -> K B) : K B :=
  fun k => match m k with
           | Ret v k' => f v k'
           | Oops k' => Oops k'
           end.

Definition final {A} (r : result A) : kernel :=
  match r with Ret _ k => k | Oops k => k end.

End Memory.

Arguments Ret {H A} v k.
Arguments Oops {H A} k.

Declare Scope kernel_scope.
Delimit Scope kernel_scope with kernel.
Notation "'let*' x ':=' m 'in' f" := (bind m (fun x => f))
  (at level 10, x name, m at level 100, f at level 200) : kernel_scope.
Notation "'run' m 'in' f" := (bind m (fun _ => f))
  (at level 10, m at level 100, f at level 200) : kernel_scope.

Section Devices.

Context `{H : Host}.

Open Scope kernel_scope.

(** *** Primitive steps *)

(** Reading the object a [struct steely_umm *] points to. *)
Definition deref (p : umm_ptr) : K (umm_ref * steely_umm) :=
  fun k =>
    match p with
    | None => Oops k
    | Some r =>
        match load r k with
        | Some u => Ret (r, u) k
        | None => Oops k
        end
    end.

Definition emit (e : event) : K unit := fun k => Ret tt (log e k).

Definition write (r : umm_ref) (u : steely_umm) : K unit :=
  fun k => Ret tt (store r u k).

Definition atomic_set (p : umm_ptr) (v : Z) : K unit :=
  let* o := deref p in
  run write (fst o) (set_refcount (int32 v) (snd o)) in
  emit (ev_atomic_set (fst o) (int32 v)).

Definition atomic_inc (p : umm_ptr) : K unit :=
  let* o := deref p in
  run write (fst o) (set_refcount (int32 (refcount (snd o) + 1)) (snd o)) in
  emit (ev_atomic_inc (fst o)).

Definition atomic_dec_and_test (p : umm_ptr) : K bool :=
  let* o := deref p in
  let c := int32 (refcount (snd o) - 1) in
  run write (fst o) (set_refcount c (snd o)) in
  run emit (ev_atomic_dec_and_test (fst o) (c =? 0)) in
  pure (c =? 0).

Definition call_xnheap_destroy (p : umm_ptr) : K unit :=
  let* o := deref p in
  run write (fst o) (set_heap (xnheap_destroy (heap (snd o))) (snd o)) in
  emit (ev_xnheap_destroy (fst o)).

Definition call_xnheap_init (p : umm_ptr) (membase sz : Z) : K Z :=
  let* o := deref p in
  let a := xnheap_init (heap (snd o)) membase sz in
  run write (fst o) (set_heap (snd a) (snd o)) in
  run emit (ev_xnheap_init (fst o) membase sz (fst a)) in
  pure (fst a).

(** [__vmalloc] answers NULL or the base of a new block. *)
Definition call_vmalloc (sz prot : Z) : K Z :=
  let a := __vmalloc sz prot in
  run (fun k => Ret tt (if a =? 0 then k else add_area a sz k)) in
  run emit (ev_vmalloc sz true prot a) in
  pure a.

Definition vfree (addr : Z) : K unit :=
  run (fun k => Ret tt (drop_area addr k)) in
  emit (ev_vfree addr).

Definition call_release (f : release_fn) (p : umm_ptr) : K unit :=
  let* o := deref p in emit (ev_release f (fst o)).

(** [steely_umm_alloc], [steely_umm_free] and [steely_umm_set_name] are the
    heap's [xnheap_alloc], [xnheap_free] and [xnheap_set_name] applied to
    [&umm->heap].  Freeing hands the storage of the record back to the
    heap, so what was stored in the record is no longer defined. *)
Definition steely_umm_alloc (p : umm_ptr) (sz : Z) : K Z :=
  let* o := deref p in
  let a := xnheap_alloc (heap (snd o)) sz in
  run write (fst o) (set_heap (snd a) (snd o)) in
  run emit (ev_xnheap_alloc (fst o) sz (fst a)) in
  pure (fst a).

Definition steely_umm_free (p : umm_ptr) (addr : Z) : K unit :=
  let* o := deref p in
  run write (fst o) (set_heap (xnheap_free (heap (snd o)) addr) (snd o)) in
  run (fun k => Ret tt (drop_word addr k)) in
  emit (ev_xnheap_free (fst o) addr).

Definition steely_umm_set_name (p : umm_ptr) (name : string) : K unit :=
  let* o := deref p in
  run write (fst o) (set_heap (xnheap_set_name (heap (snd o)) name) (snd o)) in
  emit (ev_xnheap_set_name (fst o)).

Definition call_rtdm_dev_register (d : rtdm_device) : K Z :=
  let a := rtdm_dev_register d in
  run emit (ev_dev_register d a) in
  pure a.

Definition rtdm_dev_unregister (d : rtdm_device) : K unit :=
  emit (ev_dev_unregister d).

Definition call_rtdm_mmap_vmem (vma : vm_area_struct) (membase : Z) : K Z :=
  let a := rtdm_mmap_vmem vma membase in
  run emit (ev_mmap_vmem vma membase a) in
  pure a.

Definition call_copy_to_user (fd : option rtdm_fd) (dst : Z)
    (st : steely_memdev_stat) : K Z :=
  let a := rtdm_safe_copy_to_user fd dst st in
  run emit (ev_copy_to_user dst st a) in
  pure a.

(** [rtdm_fd_minor(fd)] reads through [fd]. *)
Definition rtdm_fd_minor (fd : option rtdm_fd) : K Z :=
  fun k => match fd with
           | Some d => Ret (minor d) k
           | None => Oops k
           end.

Definition PAGE_SIZE : Z := 2 ^ PAGE_SHIFT.

(** Modelled from the spec: [PAGE_ALIGN], a macro of the kernel's memory
    headers that is not part of these files; "rounds size up to host page
    granularity".  The result is the least multiple of the page size that
    is not below [x], before it is stored back into a 32-bit object. *)
Definition PAGE_ALIGN (x : Z) : Z := (x + PAGE_SIZE - 1) / PAGE_SIZE * PAGE_SIZE.

(** The value of [vma->vm_end - vma->vm_start] stored into a [size_t]. *)
Definition vma_len (vma : vm_area_struct) : Z :=
  (vm_end vma - vm_start vma) mod 2 ^ BITS_PER_LONG.

(** *** Region life cycle ([memory.c], lines 314-352) *)

(** [secondary_mode_only()] is a check of the calling context and has no
    effect on the state modelled here. *)
Definition steely_umm_init (umm : umm_ptr) (size : Z)
    (release : option release_fn) : K Z :=
  let size := u32 (PAGE_ALIGN size) in
  let* basemem :=
    call_vmalloc size (if xnarch_cache_aliasing
                       then pgprot_noncached PAGE_KERNEL else PAGE_KERNEL) in
  if basemem =? 0 then pure (- ENOMEM)
  else
    let* r := call_xnheap_init umm basemem size in
    if negb (r =? 0) then
      run vfree basemem in
      pure r
    else
      let* o := deref umm in
      run write (fst o) (set_release release (snd o)) in
      run atomic_set umm 1 in
      run emit ev_smp_mb in
      pure 0.

Definition steely_umm_destroy (umm : umm_ptr) : K unit :=
  let* zero := atomic_dec_and_test umm in
  if zero then
    run call_xnheap_destroy umm in
    let* o := deref umm in
    run vfree (xnheap_get_membase (heap (snd o))) in
    match release (snd o) with
    | Some f => call_release f umm
    | None => pure tt
    end
  else pure tt.

(** *** Mapping life cycle ([memory.c], lines 37-96) *)

Definition umm_vmopen (vma : vm_area_struct) : K unit :=
  atomic_inc (vm_private_data vma).

Definition umm_vmclose (vma : vm_area_struct) : K unit :=
  steely_umm_destroy (vm_private_data vma).

(** The fields [umm_mmap] sets in the mapping before it asks the host to
    bind it (lines 84-87). *)
Definition bind_vma (umm : umm_ptr) (vma : vm_area_struct) : vm_area_struct :=
  {| vm_start := vm_start vma; vm_end := vm_end vma;
     vm_page_prot :=
       if xnarch_cache_aliasing
       then pgprot_noncached (vm_page_prot vma) else vm_page_prot vma;
     vm_private_data := umm; vm_ops := Some umm_vmops |}.

(** [current] is what [steely_current_process()] answers for the caller. *)
Definition umm_from_fd (current : option pid) (fd : option rtdm_fd) : K umm_ptr :=
  match current with
  | None => pure None
  | Some process =>
      let* m := rtdm_fd_minor fd in
      if m =? UMM_PRIVATE then pure (Some (process_ppd_umm process))
      else pure (Some kernel_ppd_umm)
  end.

Definition umm_mmap (current : option pid) (fd : option rtdm_fd)
    (vma : vm_area_struct) : K (Z * vm_area_struct) :=
  let* umm := umm_from_fd current fd in
  match fd with
  | None => pure (- ENODEV, vma)
  | Some _ =>
      let len := vma_len vma in
      let* o := deref umm in
      if negb (len =? xnheap_get_size (heap (snd o))) then pure (- EINVAL, vma)
      else
        let vma := bind_vma umm vma in
        let* r := call_rtdm_mmap_vmem vma (xnheap_get_membase (heap (snd o))) in
        if negb (r =? 0) then pure (r, vma)
        else
          run atomic_inc umm in
          pure (0, vma)
  end.

(** Without an MMU ([memory.c], lines 98-117).  The result is an
    [unsigned long], so the error code comes back converted to that type. *)
Definition umm_get_unmapped_area (current : option pid) (fd : option rtdm_fd)
    (len pgoff flags : Z) : K Z :=
  let* umm := umm_from_fd current fd in
  match umm with
  | None => pure ((- ENODEV) mod 2 ^ BITS_PER_LONG)
  | Some _ =>
      if pgoff =? 0 then
        let* o := deref umm in
        pure (xnheap_get_membase (heap (snd o)))
      else pure (Z.shiftl pgoff PAGE_SHIFT mod 2 ^ BITS_PER_LONG)
  end.

(** *** Requests ([memory.c], lines 119-206) *)

Definition stat_umm (current : option pid) (fd : option rtdm_fd)
    (u_stat : Z) : K Z :=
  let* umm := umm_from_fd current fd in
  match umm with
  | None => pure (- ENODEV)
  | Some r =>
      run emit (ev_xnlock_get (Some r)) in
      let* o := deref umm in
      let stat := {| size := xnheap_get_size (heap (snd o));
                     free := xnheap_get_free (heap (snd o)) |} in
      run emit (ev_xnlock_put (Some r)) in
      call_copy_to_user fd u_stat stat
  end.

Definition do_umm_ioctls (current : option pid) (fd : option rtdm_fd)
    (request : Z) (arg : Z) : K Z :=
  if request =? MEMDEV_RTIOC_STAT then stat_umm current fd arg
  else pure (- EINVAL).

Definition umm_ioctl_rt := do_umm_ioctls.
Definition umm_ioctl_nrt := do_umm_ioctls.

Definition sysmem_open (fd : option rtdm_fd) (oflags : Z) : Z :=
  if negb (Z.land oflags O_ACCMODE =? O_RDONLY) then - EACCES else 0.

Definition do_sysmem_ioctls (fd : option rtdm_fd) (request : Z) (arg : Z) : K Z :=
  if request =? MEMDEV_RTIOC_STAT then
    run emit (ev_xnlock_get None) in
    let* stat := (fun k => Ret {| size := xnheap_get_size (steely_heap k);
                                  free := xnheap_get_free (steely_heap k) |} k) in
    run emit (ev_xnlock_put None) in
    call_copy_to_user fd arg stat
  else pure (- EINVAL).

Definition sysmem_ioctl_rt := do_sysmem_ioctls.
Definition sysmem_ioctl_nrt := do_sysmem_ioctls.

(** *** Driver tables ([memory.c], lines 208-253) *)

(** The handlers a driver fills in; an absent handler is a NULL entry. *)
Record rtdm_fd_ops : Type := {
  ops_open : option (option rtdm_fd -> Z -> Z);
  ops_ioctl_rt : option (option rtdm_fd -> Z -> Z -> K Z);
  ops_ioctl_nrt : option (option rtdm_fd -> Z -> Z -> K Z);
  ops_mmap : option (option rtdm_fd -> vm_area_struct -> K (Z * vm_area_struct))
}.

Definition umm_driver_ops (current : option pid) : rtdm_fd_ops :=
  {| ops_open := None;
     ops_ioctl_rt := Some (umm_ioctl_rt current);
     ops_ioctl_nrt := Some (umm_ioctl_nrt current);
     ops_mmap := Some (umm_mmap current) |}.

Definition sysmem_driver_ops : rtdm_fd_ops :=
  {| ops_open := Some sysmem_open;
     ops_ioctl_rt := Some sysmem_ioctl_rt;
     ops_ioctl_nrt := Some sysmem_ioctl_nrt;
     ops_mmap := None |}.

Definition driver_ops (current : option pid) (d : rtdm_device) : rtdm_fd_ops :=
  match d with
  | umm_device_private | umm_device_shared => umm_driver_ops current
  | sysmem_device => sysmem_driver_ops
  end.

(** *** Start-up and tear-down ([memory.c], lines 255-312) *)

(** [nkvdso->features = XNVDSO_FEATURES]: a store through [nkvdso] into the
    record it points to. *)
Definition init_vdso : K unit :=
  fun k => if nkvdso k =? 0 then Oops k
           else Ret tt (put_word (nkvdso k) XNVDSO_FEATURES k).

(** The labels of [steely_memdev_init]; each falls through to the next. *)
Definition fail_vdso (ret : Z) : K Z :=
  run steely_umm_destroy (Some kernel_ppd_umm) in
  pure ret.

Definition fail_private (ret : Z) : K Z :=
  let* p := (fun k => Ret (nkvdso k) k) in
  run steely_umm_free (Some kernel_ppd_umm) p in
  fail_vdso ret.

Definition fail_shared (ret : Z) : K Z :=
  run rtdm_dev_unregister umm_device_private in
  fail_private ret.

Definition fail_sysmem (ret : Z) : K Z :=
  run rtdm_dev_unregister umm_device_shared in
  fail_shared ret.

Definition steely_memdev_init : K Z :=
  let* ret :=
    steely_umm_init (Some kernel_ppd_umm)
      (u32 (CONFIG_STEELY_SHARED_HEAPSZ * 1024)) None in
  if negb (ret =? 0) then pure ret
  else
    run steely_umm_set_name (Some kernel_ppd_umm) "shared heap" in
    let* p := steely_umm_alloc (Some kernel_ppd_umm) sizeof_xnvdso in
    run (fun k => Ret tt (set_nkvdso p k)) in
    if p =? 0 then fail_vdso (- ENOMEM)
    else
      run init_vdso in
      let* ret := call_rtdm_dev_register umm_device_private in
      if negb (ret =? 0) then fail_private ret
      else
        let* ret := call_rtdm_dev_register umm_device_shared in
        if negb (ret =? 0) then fail_shared ret
        else
          let* ret := call_rtdm_dev_register sysmem_device in
          if negb (ret =? 0) then fail_sysmem ret
          else pure 0.

Definition steely_memdev_cleanup : K unit :=
  run rtdm_dev_unregister sysmem_device in
  run rtdm_dev_unregister umm_device_shared in
  run rtdm_dev_unregister umm_device_private in
  let* p := (fun k => Ret (nkvdso k) k) in
  run steely_umm_free (Some kernel_ppd_umm) p in
  steely_umm_destroy (Some kernel_ppd_umm).

End Devices.

(** ** Out-of-line lock entry points ([lock.c], lines 27-39) *)

Module Lock.

(** The inline lock operations of the lock header, which [lock.c] calls and
    does not define.  [world] is the memory the locks live in together with
    the state of the calling CPU, [xnlock] a [struct xnlock *], and
    [dbg_context] what [XNLOCK_DBG_CONTEXT_ARGS] stands for: the file, line
    and function of the caller in a debug build, nothing otherwise. *)
Class XnlockInline : Type := {
  world : Type;
  xnlock : Type;
  dbg_context : Type;
  ____xnlock_get : xnlock -> dbg_context -> world -> Z * world;
  ____xnlock_put : xnlock -> dbg_context -> world -> world
}.

Section OutOfLine.

Context `{I : XnlockInline}.

Definition ___xnlock_get (lock : xnlock) (ctx : dbg_context) (w : world)
    : Z * world :=
  ____xnlock_get lock ctx w.

Definition ___xnlock_put (lock : xnlock) (ctx : dbg_context) (w : world)
    : world :=
  ____xnlock_put lock ctx w.

(** A caller's sequence of lock calls, run through either set of entry
    points; the result is what the acquires returned, in order, and the
    state reached. *)
Inductive lock_call : Type :=
| call_get (lock : xnlock) (ctx : dbg_context)
| call_put (lock : xnlock) (ctx : dbg_context).

Fixpoint run_inline (cs : list lock_call) (w : world) : list Z * world :=
  match cs with
  | [] => ([], w)
  | call_get lock ctx :: cs =>
      let a := ____xnlock_get lock ctx w in
      let b := run_inline cs (snd a) in
      (fst a :: fst b, snd b)
  | call_put lock ctx :: cs => run_inline cs (____xnlock_put lock ctx w)
  end.

Fixpoint run_out_of_line (cs : list lock_call) (w : world) : list Z * world :=
  match cs with
  | [] => ([], w)
  | call_get lock ctx :: cs =>
      let a := ___xnlock_get lock ctx w in
      let b := run_out_of_line cs (snd a) in
      (fst a :: fst b, snd b)
  | call_put lock ctx :: cs => run_out_of_line cs (___xnlock_put lock ctx w)
  end.

End OutOfLine.

End Lock.

(** ** A simulated host

    A small host to run the devices on: the heap is a bump allocator over
    its block, and the answers of the other services are read from a
    configuration record. *)

Record sim_heap : Type := {
  sim_membase : Z;
  sim_size : Z;
  sim_used : Z
}.

Record sim_config : Type := {
  cfg_page_shift : Z;
  cfg_cache_aliasing : bool;
  cfg_vmalloc : Z -> Z;
  cfg_heap_init : Z -> Z;
  cfg_mmap_vmem : Z;
  cfg_dev_register : rtdm_device -> Z;
  cfg_copy_to_user : Z;
  cfg_heapsz : Z
}.

Definition sim_host (c : sim_config) : Host :=
  {| xnheap := sim_heap;
     xnheap_init := fun h membase sz =>
       if cfg_heap_init c sz =? 0
       then (0, {| sim_membase := membase; sim_size := sz; sim_used := 0 |})
       else (cfg_heap_init c sz, h);
     xnheap_destroy := fun h => h;
     xnheap_alloc := fun h sz =>
       if sim_used h + sz <=? sim_size h
       then (sim_membase h + sim_used h,
             {| sim_membase := sim_membase h; sim_size := sim_size h;
                sim_used := sim_used h + sz |})
       else (0, h);
     xnheap_free := fun h _ => h;
     xnheap_set_name := fun h _ => h;
     xnheap_get_size := sim_size;
     xnheap_get_free := fun h => sim_size h - sim_used h;
     xnheap_get_membase := sim_membase;
     BITS_PER_LONG := 64;
     PAGE_SHIFT := cfg_page_shift c;
     PAGE_KERNEL := 0;
     pgprot_noncached := fun p => Z.lor p 1;
     xnarch_cache_aliasing := cfg_cache_aliasing c;
     __vmalloc := fun sz _ => cfg_vmalloc c sz;
     rtdm_mmap_vmem := fun _ _ => cfg_mmap_vmem c;
     rtdm_dev_register := cfg_dev_register c;
     rtdm_safe_copy_to_user := fun _ _ _ => cfg_copy_to_user c;
     MEMDEV_RTIOC_STAT := 0;
     CONFIG_STEELY_SHARED_HEAPSZ := cfg_heapsz c;
     sizeof_xnvdso := 8;
     XNVDSO_FEATURES := 1 |}.

(** A host on which every service succeeds: 4 KiB pages, blocks handed out
    at address [0x100000]. *)
Definition good_config : sim_config :=
  {| cfg_page_shift := 12;
     cfg_cache_aliasing := false;
     cfg_vmalloc := fun sz => if sz =? 0 then 0 else 1048576;
     cfg_heap_init := fun _ => 0;
     cfg_mmap_vmem := 0;
     cfg_dev_register := fun _ => 0;
     cfg_copy_to_user := 0;
     cfg_heapsz := 256 |}.

(** The same host with a heap that refuses blocks above 2 GiB with
    [-EINVAL]. *)
Definition picky_heap_config : sim_config :=
  {| cfg_page_shift := 12;
     cfg_cache_aliasing := false;
     cfg_vmalloc := fun sz => if sz =? 0 then 0 else 1048576;
     cfg_heap_init := fun sz => if 2147483648 <? sz then - EINVAL else 0;
     cfg_mmap_vmem := 0;
     cfg_dev_register := fun _ => 0;
     cfg_copy_to_user := 0;
     cfg_heapsz := 256 |}.

(** The same host with a caller whose buffer cannot be written:
    copying out fails with [-EFAULT] (14). *)
Definition bad_buffer_config : sim_config :=
  {| cfg_page_shift := 12;
     cfg_cache_aliasing := false;
     cfg_vmalloc := fun sz => if sz =? 0 then 0 else 1048576;
     cfg_heap_init := fun _ => 0;
     cfg_mmap_vmem := 0;
     cfg_dev_register := fun _ => 0;
     cfg_copy_to_user := -14;
     cfg_heapsz := 256 |}.

(** The same host with a device layer that refuses to register the shared
    device, with [-EBUSY] (16). *)
Definition no_shared_device_config : sim_config :=
  {| cfg_page_shift := 12;
     cfg_cache_aliasing := false;
     cfg_vmalloc := fun sz => if sz =? 0 then 0 else 1048576;
     cfg_heap_init := fun _ => 0;
     cfg_mmap_vmem := 0;
     cfg_dev_register :=
       fun d => match d with umm_device_shared => -16 | _ => 0 end;
     cfg_copy_to_user := 0;
     cfg_heapsz := 256 |}.

(** The same host with a mapping facility that refuses to bind, with
    [-EAGAIN] (11). *)
Definition no_bind_config : sim_config :=
  {| cfg_page_shift := 12;
     cfg_cache_aliasing := true;
     cfg_vmalloc := fun sz => if sz =? 0 then 0 else 1048576;
     cfg_heap_init := fun _ => 0;
     cfg_mmap_vmem := -11;
     cfg_dev_register := fun _ => 0;
     cfg_copy_to_user := 0;
     cfg_heapsz := 256 |}.

Definition good_host : Host := sim_host good_config.
Definition no_bind_host : Host := sim_host no_bind_config.
Definition no_shared_device_host : Host := sim_host no_shared_device_config.
Definition bad_buffer_host : Host := sim_host bad_buffer_config.
Definition picky_heap_host : Host := sim_host picky_heap_config.

Definition blank_heap : sim_heap :=
  {| sim_membase := 0; sim_size := 0; sim_used := 0 |}.

(** A region of one page with its single registry reference. *)
Definition one_page_umm (c : sim_config) (count : Z) : @steely_umm (sim_host c) :=
  @Build_steely_umm (sim_host c)
    {| sim_membase := 1048576; sim_size := 4096; sim_used := 0 |} count None.

(** The fresh private region of a process, one page over a block of its
    own. *)
Definition private_page_umm (c : sim_config) : @steely_umm (sim_host c) :=
  @Build_steely_umm (sim_host c)
    {| sim_membase := 3145728; sim_size := 4096; sim_used := 0 |} 1 None.

(** A kernel before start-up: no region is live, no block is held, nothing
    has been called. *)
Definition boot_kernel (c : sim_config) : @kernel (sim_host c) :=
  @Build_kernel (sim_host c)
    (@Build_steely_umm (sim_host c) blank_heap 0 None)
    ∅ blank_heap 0 ∅ ∅ [].

(** A kernel whose shared region is live with [count] references, and with
    one attached process, number 7, whose private region is fresh; each
    region has its block. *)
Definition live_kernel (c : sim_config) (count : Z) : @kernel (sim_host c) :=
  @Build_kernel (sim_host c)
    (one_page_umm c count)
    {[ 7%nat := private_page_umm c ]}
    {| sim_membase := 2097152; sim_size := 8192; sim_used := 100 |}
    0 {[ 1048576 := 4096; 3145728 := 4096 ]} ∅ [].

Definition one_page_vma : vm_area_struct :=
  {| vm_start := 65536; vm_end := 69632; vm_page_prot := 0;
     vm_private_data := None; vm_ops := None |}.

Definition two_page_vma : vm_area_struct :=
  {| vm_start := 65536; vm_end := 73728; vm_page_prot := 0;
     vm_private_data := None; vm_ops := None |}.

Definition shared_fd : rtdm_fd := {| minor := UMM_SHARED |}.
Definition private_fd : rtdm_fd := {| minor := UMM_PRIVATE |}.

(** ** Vocabulary of the properties *)

Section Vocabulary.

Context `{H : Host}.

Open Scope kernel_scope.

(** Appending a run of calls to the log. *)
Definition logs (es : list event) (k : kernel) : kernel :=
  fold_left (fun k e => log e k) es k.

(** *** Mapping sessions *)

(** A session is opened either by mapping the device ([umm_mmap]) or by
    duplicating an existing view ([umm_vmopen]). *)
Inductive open_request : Type :=
| open_mmap (current : option pid) (fd : option rtdm_fd) (vma : vm_area_struct)
| open_dup (vma : vm_area_struct).

(** Opening yields the view that now holds a reference, if the request
    went through. *)
Definition open_session (q : open_request) : K (option vm_area_struct) :=
  match q with
  | open_mmap current fd vma =>
      let* a := umm_mmap current fd vma in
      pure (if fst a =? 0 then Some (snd a) else None)
  | open_dup vma =>
      run umm_vmopen vma in
      pure (Some vma)
  end.

Fixpoint open_sessions (qs : list open_request) : K (list vm_area_struct) :=
  match qs with
  | [] => pure []
  | q :: qs =>
      let* v := open_session q in
      let* vs := open_sessions qs in
      pure (match v with Some v => v :: vs | None => vs end)
  end.

Fixpoint close_sessions (vs : list vm_area_struct) : K unit :=
  match vs with
  | [] => pure tt
  | v :: vs =>
      run umm_vmclose v in
      close_sessions vs
  end.

(** *** Start-up steps *)

Inductive step : Type :=
| init_shared_region
| publish_vdso
| register_private
| register_shared
| register_sysmem.

Definition startup_steps : list step :=
  [init_shared_region; publish_vdso; register_private; register_shared;
   register_sysmem].

(** The region a descriptor of the memory devices stands for, seen from
    process [p]: minor [UMM_PRIVATE] is the private region of [p], any
    other minor the shared region. *)
Definition fd_target (p : pid) (d : rtdm_fd) : umm_ref :=
  if minor d =? UMM_PRIVATE then process_ppd_umm p else kernel_ppd_umm.

(** The protection [steely_umm_init] asks for. *)
Definition umm_prot : Z :=
  if xnarch_cache_aliasing then pgprot_noncached PAGE_KERNEL else PAGE_KERNEL.

(** [sz] is [size] rounded up to page granularity. *)
Definition rounded_up (size sz : Z) : Prop :=
  size <= sz < size + PAGE_SIZE /\ sz mod PAGE_SIZE = 0.

(** *** The calls of start-up and tear-down *)

(** What [steely_memdev_init] asks of the host when it starts in the state
    [k], and what the host answers: the size of the shared heap, its block,
    the answer of the heap to its initialisation over that block, and the
    allocation of the vDSO record from the heap once it is named. *)
Definition shared_size : Z :=
  u32 (PAGE_ALIGN (u32 (CONFIG_STEELY_SHARED_HEAPSZ * 1024))).

Definition shared_base : Z := __vmalloc shared_size umm_prot.

Definition shared_init (k : kernel) : Z * xnheap :=
  xnheap_init (heap (steely_kernel_ppd k)) shared_base shared_size.

Definition vdso_alloc (k : kernel) : Z * xnheap :=
  xnheap_alloc (xnheap_set_name (snd (shared_init k)) "shared heap")
    sizeof_xnvdso.

(** The shared heap at the time unwinding reaches the shared region, when
    [n] steps had completed: the vDSO record has been handed back to it if
    the record had been published. *)
Definition unwound_heap (k : kernel) (n : nat) : xnheap :=
  if (2 <=? n)%nat
  then xnheap_free (snd (vdso_alloc k)) (fst (vdso_alloc k))
  else snd (vdso_alloc k).

(** The calls by which a step completes ([memory.c], lines 264-289). *)
Definition calls_done (k : kernel) (s : step) : list event :=
  match s with
  | init_shared_region =>
      [ev_vmalloc shared_size true umm_prot shared_base;
       ev_xnheap_init kernel_ppd_umm shared_base shared_size 0;
       ev_atomic_set kernel_ppd_umm 1; ev_smp_mb;
       ev_xnheap_set_name kernel_ppd_umm]
  | publish_vdso =>
      [ev_xnheap_alloc kernel_ppd_umm sizeof_xnvdso (fst (vdso_alloc k))]
  | register_private => [ev_dev_register umm_device_private 0]
  | register_shared => [ev_dev_register umm_device_shared 0]
  | register_sysmem => [ev_dev_register sysmem_device 0]
  end.

(** The calls by which a step is taken back when [n] steps had completed
    ([memory.c], lines 293-300 and 307-311): a device is unregistered, the
    vDSO record is handed back to the shared heap, and the one reference to
    the shared region is dropped, which destroys the heap and hands its
    block back to the host. *)
Definition calls_undone (k : kernel) (n : nat) (s : step) : list event :=
  match s with
  | init_shared_region =>
      [ev_atomic_dec_and_test kernel_ppd_umm true;
       ev_xnheap_destroy kernel_ppd_umm;
       ev_vfree (xnheap_get_membase (xnheap_destroy (unwound_heap k n)))]
  | publish_vdso => [ev_xnheap_free kernel_ppd_umm (fst (vdso_alloc k))]
  | register_private => [ev_dev_unregister umm_device_private]
  | register_shared => [ev_dev_unregister umm_device_shared]
  | register_sysmem => [ev_dev_unregister sysmem_device]
  end.

(** The calls of the step that fails with [ret] after [n] steps had
    completed.  The first step hands back the block it had obtained when
    the heap refuses it. *)
Definition calls_failed (k : kernel) (n : nat) (ret : Z) : list event :=
  match n with
  | 0%nat =>
      if shared_base =? 0
      then [ev_vmalloc shared_size true umm_prot 0]
      else [ev_vmalloc shared_size true umm_prot shared_base;
            ev_xnheap_init kernel_ppd_umm shared_base shared_size ret;
            ev_vfree shared_base]
  | 1%nat => [ev_xnheap_alloc kernel_ppd_umm sizeof_xnvdso 0]
  | 2%nat => [ev_dev_register umm_device_private ret]
  | 3%nat => [ev_dev_register umm_device_shared ret]
  | _ => [ev_dev_register sysmem_device ret]
  end.

(** The calls of a start-up that completes [n] steps and returns [ret]:
    the completed steps in order and, on a failure, the failing step and
    then the completed steps taken back, latest first. *)
Definition startup_calls (k : kernel) (n : nat) (ret : Z) : list event :=
  concat (map (calls_done k) (firstn n startup_steps)) ++
  (if ret =? 0 then []
   else calls_failed k n ret ++
        concat (map (calls_undone k n) (rev (firstn n startup_steps)))).

(** The calls of a tear-down that follows a complete start-up from [k]. *)
Definition teardown_calls (k : kernel) : list event :=
  concat (map (calls_undone k 5) (rev startup_steps)).

(** The shared region once start-up has made it live over the heap [h], and
    once it has been destroyed. *)
Definition live_shared (h : xnheap) : steely_umm :=
  {| heap := h; refcount := 1; release := None |}.

Definition dead_shared (h : xnheap) : steely_umm :=
  {| heap := xnheap_destroy h; refcount := 0; release := None |}.

(** *** Requests on the system memory device *)

(** What a session can ask of the device; a request code comes from a
    real-time or from a regular context. *)
Inductive sysmem_ask : Type :=
| ask_open (oflags : Z)
| ask_ioctl (rt : bool) (request arg : Z)
| ask_mmap (vma : vm_area_struct)
| ask_allocate (size : Z).

(** Modelled from the spec: the answer of the device layer, which is not
    part of these files, to a request on the system memory device that the
    driver has no handler for.  The system region "exposes only the
    stat-query capability", and "allocation and mapping requests on it fail
    with PermissionDenied". *)
Definition sysmem_unhandled : K Z := pure (- EACCES).

(** Modelled from the spec: the dispatch of the device layer, which is not
    part of these files.  A request goes to the handler [sysmem_driver] has
    filled in for it ([memory.c], lines 243-247): [sysmem_open] for an
    open, [sysmem_ioctl_rt] or [sysmem_ioctl_nrt] for a request code.  The
    table has no handler for a mapping, and a handler table has no entry
    for an allocation. *)
Definition sysmem_request (fd : option rtdm_fd) (q : sysmem_ask) : K Z :=
  match q with
  | ask_open oflags =>
      match ops_open sysmem_driver_ops with
      | Some handler => pure (handler fd oflags)
      | None => sysmem_unhandled
      end
  | ask_ioctl rt request arg =>
      match (if rt then ops_ioctl_rt else ops_ioctl_nrt) sysmem_driver_ops with
      | Some handler => handler fd request arg
      | None => sysmem_unhandled
      end
  | ask_mmap vma =>
      match ops_mmap sysmem_driver_ops with
      | Some handler => let* r := handler fd vma in pure (fst r)
      | None => sysmem_unhandled
      end
  | ask_allocate _ => sysmem_unhandled
  end.

End Vocabulary.

(** Two mappings and a duplicate of the first on the shared region. *)
Definition three_requests : list open_request :=
  [open_mmap (Some 7%nat) (Some shared_fd) one_page_vma;
   open_mmap (Some 7%nat) (Some shared_fd) one_page_vma;
   open_dup (bind_vma (H:=good_host) (Some kernel_ppd_umm) one_page_vma)].

(** ** Vocabulary of the further properties *)

Section Ledger.

Context `{H : Host}.

Open Scope kernel_scope.

Definition umm_ref_eqb (a b : umm_ref) : bool :=
  match a, b with
  | kernel_ppd_umm, kernel_ppd_umm => true
  | process_ppd_umm p, process_ppd_umm q => Nat.eqb p q
  | _, _ => false
  end.

(** [v] is a view of the region at [r]. *)
Definition bound_to (r : umm_ref) (v : vm_area_struct) : bool :=
  match vm_private_data v with
  | Some r' => umm_ref_eqb r r'
  | None => false
  end.

(** How many of the views [vs] are views of the region at [r]. *)
Fixpoint sessions_on (r : umm_ref) (vs : list vm_area_struct) : nat :=
  match vs with
  | [] => 0%nat
  | v :: vs => ((if bound_to r v then 1 else 0) + sessions_on r vs)%nat
  end.

(** How often the heap of the region at [r] was destroyed in a log. *)
Fixpoint destroy_calls (r : umm_ref) (es : list event) : nat :=
  match es with
  | [] => 0%nat
  | ev_xnheap_destroy r' :: es =>
      ((if umm_ref_eqb r r' then 1 else 0) + destroy_calls r es)%nat
  | _ :: es => destroy_calls r es
  end.

(** Blocks obtained from the host and not handed back, over a log: each
    successful [__vmalloc] counts one up, each [vfree] one down. *)
Fixpoint blocks_held (es : list event) : Z :=
  match es with
  | [] => 0
  | ev_vmalloc _ _ _ addr :: es =>
      (if addr =? 0 then 0 else 1) + blocks_held es
  | ev_vfree _ :: es => blocks_held es - 1
  | _ :: es => blocks_held es
  end.

Definition lock_eqb (a b : option umm_ref) : bool :=
  match a, b with
  | None, None => true
  | Some r, Some r' => umm_ref_eqb r r'
  | _, _ => false
  end.

(** A log keeps the lock discipline, starting with the locks [held] taken
    (latest first), when every release is of the lock taken last, nothing
    is copied to the caller with a lock held, and no lock is held at the
    end.  [None] names the lock of the system heap, [Some r] the lock of
    the heap of the region at [r]. *)
Fixpoint locks_balanced (held : list (option umm_ref)) (es : list event)
    : bool :=
  match es with
  | [] => match held with [] => true | _ :: _ => false end
  | ev_xnlock_get l :: es => locks_balanced (l :: held) es
  | ev_xnlock_put l :: es =>
      match held with
      | l' :: held => lock_eqb l l' && locks_balanced held es
      | [] => false
      end
  | ev_copy_to_user _ _ _ :: es =>
      match held with
      | [] => locks_balanced [] es
      | _ :: _ => false
      end
  | _ :: es => locks_balanced held es
  end.

(** The mapping facility at work: it opens sessions and closes sessions it
    has open, in any interleaving.  [session_close i] closes the [i]-th
    open session; there is nothing to close when [i] is out of range. *)
Inductive session_op : Type :=
| session_open (q : open_request)
| session_close (i : nat).

Fixpoint run_sessions (ops : list session_op) (opened : list vm_area_struct)
    : K (list vm_area_struct) :=
  match ops with
  | [] => pure opened
  | session_open q :: ops =>
      let* v := open_session q in
      run_sessions ops (match v with Some v => opened ++ [v] | None => opened end)
  | session_close i :: ops =>
      match opened !! i with
      | Some v =>
          run umm_vmclose v in
          run_sessions ops (delete i opened)
      | None => run_sessions ops opened
      end
  end.

Definition rtdm_device_eqb (a b : rtdm_device) : bool :=
  match a, b with
  | umm_device_private, umm_device_private => true
  | umm_device_shared, umm_device_shared => true
  | sysmem_device, sysmem_device => true
  | _, _ => false
  end.

(** The devices registered after a run of calls that starts with the
    devices [ds] registered, latest first: a registration that succeeds adds
    its device, an unregistration takes its device away. *)
Fixpoint registered (ds : list rtdm_device) (es : list event)
    : list rtdm_device :=
  match es with
  | [] => ds
  | ev_dev_register d r :: es =>
      registered (if r =? 0 then d :: ds else ds) es
  | ev_dev_unregister d :: es =>
      registered (List.filter (fun d' => negb (rtdm_device_eqb d d')) ds) es
  | _ :: es => registered ds es
  end.

(** [n] calls of [steely_umm_destroy] in a row. *)
Fixpoint destroy_times (n : nat) (umm : umm_ptr) : K unit :=
  match n with
  | O => pure tt
  | S n =>
      run steely_umm_destroy umm in
      destroy_times n umm
  end.

End Ledger.

(** Sessions on the shared and on a private region, opened and closed in
    turn; the last request asks for the wrong length and the last close
    names a session that is not there. *)
Definition interleaved_ops : list session_op :=
  [session_open (open_mmap (Some 7%nat) (Some shared_fd) one_page_vma);
   session_open (open_mmap (Some 7%nat) (Some private_fd) one_page_vma);
   session_open
     (open_dup (bind_vma (H:=good_host) (Some kernel_ppd_umm) one_page_vma));
   session_close 0;
   session_close 5;
   session_open (open_mmap (Some 7%nat) (Some shared_fd) two_page_vma)].

(** ** Properties *)

(** *** Machine arithmetic *)

Lemma int32_small (x : Z) : INT_MIN <= x <= INT_MAX -> int32 x = x.
Proof.
  unfold int32, INT_MIN, INT_MAX. intros Hx.
  rewrite Z.mod_small by lia. lia.
Qed.

Lemma int32_add_l (x y : Z) : int32 (int32 x + y) = int32 (x + y).
Proof.
  unfold int32.
  replace ((x + 2 ^ 31) mod 2 ^ 32 - 2 ^ 31 + y + 2 ^ 31)
    with ((x + 2 ^ 31) mod 2 ^ 32 + y) by lia.
  rewrite Zplus_mod_idemp_l. f_equal. f_equal. lia.
Qed.

Lemma int32_add_l_sub (x y : Z) : int32 (int32 x - y) = int32 (x - y).
Proof. apply (int32_add_l x (- y)). Qed.

Lemma int32_range (x : Z) : INT_MIN <= int32 x <= INT_MAX.
Proof.
  unfold int32, INT_MIN, INT_MAX.
  pose proof (Z.mod_pos_bound (x + 2 ^ 31) (2 ^ 32) ltac:(lia)). lia.
Qed.

Section Basics.

Context `{H : Host}.

Lemma load_store_same r u k : load r (store r u k) = Some u.
Proof. destruct r; simpl; [reflexivity | apply lookup_insert_eq]. Qed.

Lemma load_store_other r r' u k : r <> r' -> load r' (store r u k) = load r' k.
Proof.
  intros Hne. destruct r, r'; simpl; try reflexivity; try congruence.
  apply lookup_insert_ne. congruence.
Qed.

Lemma load_log r e k : load r (log e k) = load r k.
Proof. destruct r; reflexivity. Qed.

Lemma load_logs r es k : load r (logs es k) = load r k.
Proof.
  revert k. induction es as [|e es IH]; intros k; [reflexivity|].
  change (logs (e :: es) k) with (logs es (log e k)).
  rewrite IH. apply load_log.
Qed.

Lemma calls_logs es k : calls (logs es k) = calls k ++ es.
Proof.
  revert k. induction es as [|e es IH]; intros k.
  - simpl. symmetry. apply app_nil_r.
  - change (logs (e :: es) k) with (logs es (log e k)).
    rewrite IH. simpl. rewrite <- app_assoc. reflexivity.
Qed.

Lemma calls_store r u k : calls (store r u k) = calls k.
Proof. destruct r; reflexivity. Qed.

Lemma store_log r u e k : store r u (log e k) = log e (store r u k).
Proof. destruct r; reflexivity. Qed.

Lemma store_store r u u' k : store r u' (store r u k) = store r u' k.
Proof.
  destruct r; simpl; [reflexivity|].
  unfold store; simpl. f_equal. apply insert_insert_eq.
Qed.

(** The host's memory is apart from the regions and from the log. *)
Lemma load_with_memory r a w k : load r (with_memory a w k) = load r k.
Proof. destruct r; reflexivity. Qed.

Lemma load_add_area r base sz k : load r (add_area base sz k) = load r k.
Proof. apply load_with_memory. Qed.

Lemma load_drop_area r base k : load r (drop_area base k) = load r k.
Proof. apply load_with_memory. Qed.

Lemma drop_area_store base r u k :
  drop_area base (store r u k) = store r u (drop_area base k).
Proof. destruct r; reflexivity. Qed.

Lemma drop_word_store a r u k :
  drop_word a (store r u k) = store r u (drop_word a k).
Proof. destruct r; reflexivity. Qed.

Lemma drop_area_log base e k :
  drop_area base (log e k) = log e (drop_area base k).
Proof. reflexivity. Qed.

Lemma calls_drop_area base k : calls (drop_area base k) = calls k.
Proof. reflexivity. Qed.

Lemma calls_add_area base sz k : calls (add_area base sz k) = calls k.
Proof. reflexivity. Qed.

Lemma calls_drop_word a k : calls (drop_word a k) = calls k.
Proof. reflexivity. Qed.

(** Logging leaves everything but the log as it is. *)
Lemma logs_frame es k :
  steely_kernel_ppd (logs es k) = steely_kernel_ppd k /\
  sys_ppd (logs es k) = sys_ppd k /\
  steely_heap (logs es k) = steely_heap k /\
  nkvdso (logs es k) = nkvdso k /\
  vm_areas (logs es k) = vm_areas k /\
  words (logs es k) = words k.
Proof.
  revert k. induction es as [|e es IH]; intros k; [repeat split|].
  change (logs (e :: es) k) with (logs es (log e k)).
  destruct (IH (log e k)) as (-> & -> & -> & -> & -> & ->). repeat split.
Qed.

Lemma refcount_at_store_same r u k : refcount_at r (store r u k) = Some (refcount u).
Proof. unfold refcount_at. rewrite load_store_same. reflexivity. Qed.

Lemma refcount_at_store_other r r' u k :
  r <> r' -> refcount_at r' (store r u k) = refcount_at r' k.
Proof. intros Hne. unfold refcount_at. rewrite load_store_other by assumption. reflexivity. Qed.

Lemma refcount_at_logs r es k : refcount_at r (logs es k) = refcount_at r k.
Proof. unfold refcount_at. rewrite load_logs. reflexivity. Qed.

Lemma refcount_at_drop_area r base k :
  refcount_at r (drop_area base k) = refcount_at r k.
Proof. unfold refcount_at. rewrite load_drop_area. reflexivity. Qed.

Lemma deref_some r u k : load r k = Some u -> deref (Some r) k = Ret (r, u) k.
Proof. intros Hl. unfold deref. rewrite Hl. reflexivity. Qed.

End Basics.

(** *** Equations of the primitive steps *)

Section Steps.

Context `{H : Host}.

Open Scope kernel_scope.

Lemma bind_ret {A B} (m : K A) (f : A -> K B) k v k' :
  m k = Ret v k' -> bind m f k = f v k'.
Proof. intros Hm. unfold bind. rewrite Hm. reflexivity. Qed.

Lemma bind_oops {A B} (m : K A) (f : A -> K B) k k' :
  m k = Oops k' -> bind m f k = Oops k'.
Proof. intros Hm. unfold bind. rewrite Hm. reflexivity. Qed.

Lemma Ret_eq {A} (v v' : A) k k' :
  Ret v k = Ret v' k' -> v = v' /\ k = k'.
Proof. intros Heq. injection Heq as -> ->. split; reflexivity. Qed.

Lemma atomic_set_eq r u v k :
  load r k = Some u ->
  atomic_set (Some r) v k =
    Ret tt (log (ev_atomic_set r (int32 v)) (store r (set_refcount (int32 v) u) k)).
Proof.
  intros Hl. unfold atomic_set.
  rewrite (bind_ret _ _ _ _ _ (deref_some _ _ _ Hl)). reflexivity.
Qed.

Lemma atomic_inc_eq r u k :
  load r k = Some u ->
  atomic_inc (Some r) k =
    Ret tt (log (ev_atomic_inc r)
              (store r (set_refcount (int32 (refcount u + 1)) u) k)).
Proof.
  intros Hl. unfold atomic_inc.
  rewrite (bind_ret _ _ _ _ _ (deref_some _ _ _ Hl)). reflexivity.
Qed.

Lemma atomic_dec_and_test_eq r u k :
  load r k = Some u ->
  atomic_dec_and_test (Some r) k =
    Ret (int32 (refcount u - 1) =? 0)
      (log (ev_atomic_dec_and_test r (int32 (refcount u - 1) =? 0))
         (store r (set_refcount (int32 (refcount u - 1)) u) k)).
Proof.
  intros Hl. unfold atomic_dec_and_test.
  rewrite (bind_ret _ _ _ _ _ (deref_some _ _ _ Hl)). reflexivity.
Qed.

Lemma call_xnheap_destroy_eq r u k :
  load r k = Some u ->
  call_xnheap_destroy (Some r) k =
    Ret tt (log (ev_xnheap_destroy r)
              (store r (set_heap (xnheap_destroy (heap u)) u) k)).
Proof.
  intros Hl. unfold call_xnheap_destroy.
  rewrite (bind_ret _ _ _ _ _ (deref_some _ _ _ Hl)). reflexivity.
Qed.

Lemma call_xnheap_init_eq r u membase sz k :
  load r k = Some u ->
  call_xnheap_init (Some r) membase sz k =
    Ret (fst (xnheap_init (heap u) membase sz))
      (log (ev_xnheap_init r membase sz (fst (xnheap_init (heap u) membase sz)))
         (store r (set_heap (snd (xnheap_init (heap u) membase sz)) u) k)).
Proof.
  intros Hl. unfold call_xnheap_init.
  rewrite (bind_ret _ _ _ _ _ (deref_some _ _ _ Hl)). reflexivity.
Qed.

Lemma steely_umm_alloc_eq r u sz k :
  load r k = Some u ->
  steely_umm_alloc (Some r) sz k =
    Ret (fst (xnheap_alloc (heap u) sz))
      (log (ev_xnheap_alloc r sz (fst (xnheap_alloc (heap u) sz)))
         (store r (set_heap (snd (xnheap_alloc (heap u) sz)) u) k)).
Proof.
  intros Hl. unfold steely_umm_alloc.
  rewrite (bind_ret _ _ _ _ _ (deref_some _ _ _ Hl)). reflexivity.
Qed.

Lemma steely_umm_free_eq r u addr k :
  load r k = Some u ->
  steely_umm_free (Some r) addr k =
    Ret tt (log (ev_xnheap_free r addr)
              (store r (set_heap (xnheap_free (heap u) addr) u)
                 (drop_word addr k))).
Proof.
  intros Hl. unfold steely_umm_free.
  rewrite (bind_ret _ _ _ _ _ (deref_some _ _ _ Hl)).
  unfold write, bind, emit. cbn [fst snd]. rewrite drop_word_store.
  reflexivity.
Qed.

Lemma steely_umm_set_name_eq r u name k :
  load r k = Some u ->
  steely_umm_set_name (Some r) name k =
    Ret tt (log (ev_xnheap_set_name r)
              (store r (set_heap (xnheap_set_name (heap u) name) u) k)).
Proof.
  intros Hl. unfold steely_umm_set_name.
  rewrite (bind_ret _ _ _ _ _ (deref_some _ _ _ Hl)). reflexivity.
Qed.

Lemma load_log_store r u e k : load r (log e (store r u k)) = Some u.
Proof. rewrite load_log. apply load_store_same. Qed.

(** What [steely_umm_destroy] does, in one equation. *)
Lemma steely_umm_destroy_eq r u k :
  load r k = Some u ->
  steely_umm_destroy (Some r) k =
    Ret tt
      (if int32 (refcount u - 1) =? 0
       then logs ([ev_atomic_dec_and_test r true; ev_xnheap_destroy r;
                   ev_vfree (xnheap_get_membase (xnheap_destroy (heap u)))]
                  ++ match release u with
                     | Some f => [ev_release f r]
                     | None => []
                     end)
              (store r (set_heap (xnheap_destroy (heap u))
                          (set_refcount (int32 (refcount u - 1)) u))
                 (drop_area (xnheap_get_membase (xnheap_destroy (heap u))) k))
       else logs [ev_atomic_dec_and_test r false]
              (store r (set_refcount (int32 (refcount u - 1)) u) k)).
Proof.
  intros Hl. unfold steely_umm_destroy.
  rewrite (bind_ret _ _ _ _ _ (atomic_dec_and_test_eq _ _ _ Hl)).
  destruct (int32 (refcount u - 1) =? 0) eqn:Hz; [|reflexivity].
  rewrite (bind_ret _ _ _ _ _
             (call_xnheap_destroy_eq _ _ _ (load_log_store _ _ _ _))).
  rewrite store_log, store_store.
  erewrite bind_ret
    by (apply deref_some; rewrite !load_log; apply load_store_same).
  cbn [fst snd heap release set_heap set_refcount].
  unfold vfree. unfold bind at 1. unfold bind at 1. unfold emit at 1.
  rewrite !drop_area_log, drop_area_store.
  destruct (release u) as [f|].
  - unfold call_release.
    erewrite bind_ret
      by (apply deref_some; rewrite !load_log; apply load_store_same).
    reflexivity.
  - reflexivity.
Qed.

End Steps.

(** *** Region life cycle *)

Section Region.

Context `{H : Host}.

Open Scope kernel_scope.

(** What [steely_umm_init] does on a valid region pointer, in one
    equation. *)
Lemma steely_umm_init_eq r u size rel k :
  load r k = Some u ->
  steely_umm_init (Some r) size rel k =
    let sz := u32 (PAGE_ALIGN size) in
    let base := __vmalloc sz umm_prot in
    let a := xnheap_init (heap u) base sz in
    if base =? 0 then Ret (- ENOMEM) (logs [ev_vmalloc sz true umm_prot base] k)
    else if negb (fst a =? 0) then
      Ret (fst a)
        (logs [ev_vmalloc sz true umm_prot base;
               ev_xnheap_init r base sz (fst a); ev_vfree base]
           (store r (set_heap (snd a) u)
              (drop_area base (add_area base sz k))))
    else
      Ret 0
        (logs [ev_vmalloc sz true umm_prot base;
               ev_xnheap_init r base sz (fst a);
               ev_atomic_set r 1; ev_smp_mb]
           (store r {| heap := snd a; refcount := 1; release := rel |}
              (add_area base sz k))).
Proof.
  intros Hl. unfold steely_umm_init. cbv zeta. fold umm_prot.
  set (sz := u32 (PAGE_ALIGN size)).
  unfold call_vmalloc. unfold bind at 1. unfold bind at 1. unfold bind at 1.
  unfold emit at 1, pure at 1.
  destruct (__vmalloc sz umm_prot =? 0) eqn:Hb; [reflexivity|].
  erewrite bind_ret
    by (apply call_xnheap_init_eq; rewrite load_log, load_add_area; exact Hl).
  destruct (negb (fst (xnheap_init (heap u) (__vmalloc sz umm_prot) sz) =? 0))
    eqn:Hr.
  - unfold vfree, bind, emit, pure.
    rewrite drop_area_log, drop_area_store, drop_area_log, !store_log.
    reflexivity.
  - erewrite bind_ret
      by (apply deref_some; rewrite !load_log; apply load_store_same).
    unfold write at 1. unfold bind at 1. cbn [fst snd].
    rewrite !store_log, store_store.
    erewrite bind_ret
      by (apply atomic_set_eq; rewrite !load_log; apply load_store_same).
    unfold bind, emit, pure. rewrite !store_log, !store_store.
    change (int32 1) with 1. reflexivity.
Qed.

(** C2. Dropping a reference decrements the count of the region, in the
    32-bit arithmetic of [atomic_t] (by one as integers whenever the count
    is above [INT_MIN]).  When the new count is zero, and only then, the
    destructive path runs once, in this order: the heap is destroyed, the
    backing block is handed back to the host with [vfree], and the release
    handler is called if one is registered.  When the new count is not
    zero the decrement is the only step.  No other region is touched. *)
Theorem steely_umm_destroy_zero_transition r u k :
  load r k = Some u ->
  exists k',
    steely_umm_destroy (Some r) k = Ret tt k' /\
    refcount_at r k' = Some (int32 (refcount u - 1)) /\
    (INT_MIN < refcount u <= INT_MAX ->
     refcount_at r k' = Some (refcount u - 1)) /\
    (forall r', r' <> r -> load r' k' = load r' k) /\
    (int32 (refcount u - 1) = 0 ->
     calls k' =
       calls k ++
       [ev_atomic_dec_and_test r true; ev_xnheap_destroy r;
        ev_vfree (xnheap_get_membase (xnheap_destroy (heap u)))] ++
       match release u with
       | Some f => [ev_release f r]
       | None => []
       end /\
     load r k' =
       Some (set_heap (xnheap_destroy (heap u)) (set_refcount 0 u))) /\
    (int32 (refcount u - 1) <> 0 ->
     calls k' = calls k ++ [ev_atomic_dec_and_test r false] /\
     load r k' = Some (set_refcount (int32 (refcount u - 1)) u)).
Proof.
  intros Hl. eexists. split; [apply steely_umm_destroy_eq; exact Hl|].
  assert (Hc : forall es v k0,
             refcount_at r (logs es (store r v k0)) = Some (refcount v)).
  { intros es v k0. rewrite refcount_at_logs. apply refcount_at_store_same. }
  destruct (int32 (refcount u - 1) =? 0) eqn:Hz.
  - apply Z.eqb_eq in Hz.
    split; [apply Hc|]. split.
    { intros Hrange. rewrite Hc. cbn [refcount set_heap set_refcount].
      rewrite int32_small; [reflexivity | unfold INT_MIN, INT_MAX in *; lia]. }
    split.
    { intros r' Hne. rewrite load_logs, load_store_other by congruence.
      apply load_drop_area. }
    split; [|intros Hnz; contradiction].
    intros _. split.
    + rewrite calls_logs, calls_store. reflexivity.
    + rewrite load_logs, load_store_same, Hz. reflexivity.
  - apply Z.eqb_neq in Hz.
    split; [apply Hc|]. split.
    { intros Hrange. rewrite Hc. cbn [refcount set_refcount].
      rewrite int32_small; [reflexivity | unfold INT_MIN, INT_MAX in *; lia]. }
    split.
    { intros r' Hne. rewrite load_logs. apply load_store_other. congruence. }
    split; [intros Hnz; contradiction|].
    intros _. split.
    + rewrite calls_logs, calls_store. reflexivity.
    + rewrite load_logs. apply load_store_same.
Qed.

End Region.

Lemma steely_umm_destroy_zero_transition_witness :
  load (H:=good_host) kernel_ppd_umm (live_kernel good_config 1)
    = Some (one_page_umm good_config 1) /\
  exists k',
    steely_umm_destroy (H:=good_host) (Some kernel_ppd_umm)
      (live_kernel good_config 1) = Ret tt k' /\
    refcount_at kernel_ppd_umm k' = Some 0 /\
    calls k' =
      [ev_atomic_dec_and_test kernel_ppd_umm true;
       ev_xnheap_destroy kernel_ppd_umm; ev_vfree 1048576].
Proof.
  split; [reflexivity|].
  destruct (steely_umm_destroy_zero_transition (H:=good_host) kernel_ppd_umm
              (one_page_umm good_config 1) (live_kernel good_config 1)
              eq_refl)
    as (k' & Hrun & Hcount & _ & _ & Hzero & _).
  exists k'. split; [exact Hrun|]. split; [exact Hcount|].
  exact (proj1 (Hzero eq_refl)).
Defined.

Section Creation.

Context `{H : Host}.

Lemma PAGE_SIZE_pos : 0 <= PAGE_SHIFT -> 0 < PAGE_SIZE.
Proof. intros Hs. unfold PAGE_SIZE. apply Z.pow_pos_nonneg; lia. Qed.

Lemma PAGE_ALIGN_rounded_up size :
  0 <= PAGE_SHIFT -> rounded_up size (PAGE_ALIGN size).
Proof.
  intros Hs. pose proof (PAGE_SIZE_pos Hs) as Hp.
  unfold rounded_up, PAGE_ALIGN.
  generalize dependent PAGE_SIZE. intros P Hp.
  pose proof (Z.div_mod (size + P - 1) P ltac:(lia)) as Hdm.
  pose proof (Z.mod_pos_bound (size + P - 1) P Hp) as Hb.
  split; [|apply Z_mod_mult].
  set (q := (size + P - 1) / P) in *. set (m := (size + P - 1) mod P) in *.
  replace (q * P) with (P * q) by apply Z.mul_comm. lia.
Qed.

Lemma u32_small x : 0 <= x < 2 ^ 32 -> u32 x = x.
Proof. intros Hx. unfold u32. apply Z.mod_small. exact Hx. Qed.

(** C5, as the code has it. When the host hands out a block and the heap
    then refuses it, [steely_umm_init] gives the block back with [vfree]
    before it returns, and what it returns is the heap's own error code,
    passed on as it is; the reference count is not touched. *)
Theorem steely_umm_init_heap_failure r u size rel k :
  load r k = Some u ->
  let sz := u32 (PAGE_ALIGN size) in
  let base := __vmalloc sz umm_prot in
  let err := fst (xnheap_init (heap u) base sz) in
  base <> 0 -> err <> 0 ->
  exists k',
    steely_umm_init (Some r) size rel k = Ret err k' /\
    calls k' =
      calls k ++ [ev_vmalloc sz true umm_prot base;
                  ev_xnheap_init r base sz err; ev_vfree base] /\
    refcount_at r k' = Some (refcount u).
Proof.
  intros Hl sz base err Hbase Herr.
  rewrite (steely_umm_init_eq _ _ _ _ _ Hl). cbv zeta.
  fold sz. fold base. fold err.
  apply Z.eqb_neq in Hbase. apply Z.eqb_neq in Herr.
  rewrite Hbase, Herr. cbn [negb].
  eexists. split; [reflexivity|]. split.
  - rewrite calls_logs, calls_store. reflexivity.
  - rewrite refcount_at_logs, refcount_at_store_same. reflexivity.
Qed.

(** C6, as the code has it. For a size whose page-rounded value still
    fits the 32-bit size parameter, [steely_umm_init] rounds the size up to
    page granularity and asks the host for a zero-filled block of the
    rounded size.  If the host has no block, it returns [-ENOMEM] and does
    nothing else.  If the host has one and the heap accepts it, the heap is
    set up over that block with the rounded size, the release handler is
    recorded, and the reference count is exactly 1. *)
Theorem steely_umm_init_rounds_and_counts r u size rel k :
  load r k = Some u ->
  0 <= PAGE_SHIFT -> 0 <= size -> PAGE_ALIGN size < 2 ^ 32 ->
  let sz := PAGE_ALIGN size in
  let base := __vmalloc sz umm_prot in
  let a := xnheap_init (heap u) base sz in
  rounded_up size sz /\
  (base = 0 ->
   steely_umm_init (Some r) size rel k =
     Ret (- ENOMEM) (logs [ev_vmalloc sz true umm_prot 0] k)) /\
  (base <> 0 -> fst a = 0 ->
   exists k',
     steely_umm_init (Some r) size rel k = Ret 0 k' /\
     calls k' =
       calls k ++ [ev_vmalloc sz true umm_prot base;
                   ev_xnheap_init r base sz 0;
                   ev_atomic_set r 1; ev_smp_mb] /\
     load r k' = Some {| heap := snd a; refcount := 1; release := rel |} /\
     refcount_at r k' = Some 1).
Proof.
  intros Hl Hs Hsize Hfit sz base a.
  pose proof (PAGE_ALIGN_rounded_up size Hs) as Hround. fold sz in Hround.
  assert (Hsz : u32 (PAGE_ALIGN size) = sz).
  { apply u32_small. destruct Hround as [[Hlo _] _]. fold sz in Hfit. lia. }
  split; [exact Hround|].
  rewrite (steely_umm_init_eq _ _ _ _ _ Hl). cbv zeta. rewrite Hsz.
  fold base. fold a. split.
  - intros Hz. rewrite Hz. reflexivity.
  - intros Hnz Hok. apply Z.eqb_neq in Hnz. rewrite Hnz, Hok.
    cbn [negb Z.eqb]. eexists. split; [reflexivity|].
    split; [rewrite calls_logs, calls_store; reflexivity|].
    split.
    + rewrite load_logs. apply load_store_same.
    + rewrite refcount_at_logs. apply refcount_at_store_same.
Qed.

End Creation.

Lemma steely_umm_init_heap_failure_witness :
  load (H:=picky_heap_host) kernel_ppd_umm (boot_kernel picky_heap_config)
    = Some (steely_kernel_ppd (boot_kernel picky_heap_config)) /\
  exists k',
    steely_umm_init (H:=picky_heap_host) (Some kernel_ppd_umm) 3221225472 None
      (boot_kernel picky_heap_config) = Ret (- EINVAL) k' /\
    calls k' =
      [ev_vmalloc 3221225472 true 0 1048576;
       ev_xnheap_init kernel_ppd_umm 1048576 3221225472 (- EINVAL);
       ev_vfree 1048576] /\
    refcount_at kernel_ppd_umm k' = Some 0.
Proof.
  split; [reflexivity|].
  apply (steely_umm_init_heap_failure (H:=picky_heap_host) kernel_ppd_umm
           (steely_kernel_ppd (boot_kernel picky_heap_config))
           3221225472 None (boot_kernel picky_heap_config) eq_refl);
    vm_compute; discriminate.
Defined.

(** The claim C5 as written fails: with a heap that refuses the block with
    [-EINVAL], the block is given back and creation reports [-EINVAL], not
    [-ENOMEM]. *)
Lemma steely_umm_init_heap_failure_not_enomem :
  let res :=
    steely_umm_init (H:=picky_heap_host) (Some kernel_ppd_umm) 3221225472 None
      (boot_kernel picky_heap_config) in
  calls (final res) =
    [ev_vmalloc 3221225472 true 0 1048576;
     ev_xnheap_init kernel_ppd_umm 1048576 3221225472 (- EINVAL);
     ev_vfree 1048576] /\
  (exists k', res = Ret (- EINVAL) k') /\
  ~ (exists k', res = Ret (- ENOMEM) k').
Proof.
  vm_compute. split; [reflexivity|]. split.
  - eexists. reflexivity.
  - intros [k' Hk]. discriminate Hk.
Qed.

Lemma steely_umm_init_rounds_and_counts_witness :
  (load (H:=good_host) kernel_ppd_umm (boot_kernel good_config)
     = Some (steely_kernel_ppd (boot_kernel good_config)) /\
   0 <= PAGE_SHIFT (Host:=good_host) /\ 0 <= 5000 /\
   PAGE_ALIGN (H:=good_host) 5000 < 2 ^ 32) /\
  rounded_up (H:=good_host) 5000 8192 /\
  exists k',
    steely_umm_init (H:=good_host) (Some kernel_ppd_umm) 5000 (Some 3%nat)
      (boot_kernel good_config) = Ret 0 k' /\
    calls k' =
      [ev_vmalloc 8192 true 0 1048576;
       ev_xnheap_init kernel_ppd_umm 1048576 8192 0;
       ev_atomic_set kernel_ppd_umm 1; ev_smp_mb] /\
    refcount_at kernel_ppd_umm k' = Some 1.
Proof.
  assert (Hhyp : load (H:=good_host) kernel_ppd_umm (boot_kernel good_config)
                   = Some (steely_kernel_ppd (boot_kernel good_config)) /\
                 0 <= PAGE_SHIFT (Host:=good_host) /\ 0 <= 5000 /\
                 PAGE_ALIGN (H:=good_host) 5000 < 2 ^ 32).
  { repeat split; vm_compute; congruence. }
  split; [exact Hhyp|].
  destruct Hhyp as (Hl & Hs & Hsize & Hfit).
  destruct (steely_umm_init_rounds_and_counts (H:=good_host) kernel_ppd_umm
              _ 5000 (Some 3%nat) (boot_kernel good_config) Hl Hs Hsize Hfit)
    as (Hround & _ & Hok).
  split; [exact Hround|].
  destruct Hok as (k' & Hrun & Hcalls & _ & Hcount).
  - vm_compute. discriminate.
  - reflexivity.
  - exists k'. split; [exact Hrun|]. split; [exact Hcalls | exact Hcount].
Defined.

(** The claim C6 as written fails at the top of the 32-bit range: for the
    size [2^32 - 1] the rounded size wraps to 0, so the block asked of the
    host has size 0, which is not the size rounded up. *)
Lemma steely_umm_init_size_wraps :
  let res :=
    steely_umm_init (H:=good_host) (Some kernel_ppd_umm) 4294967295 None
      (boot_kernel good_config) in
  calls (final res) = [ev_vmalloc 0 true 0 0] /\
  ~ rounded_up (H:=good_host) 4294967295 0.
Proof.
  split; [vm_compute; reflexivity|].
  unfold rounded_up. intros [[Hlo _] _]. lia.
Qed.

(** *** Mapping life cycle *)

Section Mapping.

Context `{H : Host}.

Open Scope kernel_scope.

Lemma umm_from_fd_attached p d k :
  umm_from_fd (Some p) (Some d) k = Ret (Some (fd_target p d)) k.
Proof.
  unfold umm_from_fd, fd_target, rtdm_fd_minor, bind, pure.
  destruct (minor d =? UMM_PRIVATE); reflexivity.
Qed.

Lemma umm_from_fd_detached fd k : umm_from_fd None fd k = Ret None k.
Proof. reflexivity. Qed.

(** A region resolves only for an attached caller with a descriptor. *)
Lemma umm_from_fd_resolved current fd k r k' :
  umm_from_fd current fd k = Ret (Some r) k' ->
  exists p d, current = Some p /\ fd = Some d /\ r = fd_target p d.
Proof.
  destruct current as [p|]; [|discriminate].
  destruct fd as [d|]; [|discriminate].
  rewrite umm_from_fd_attached. intros Heq. exists p, d.
  repeat split. congruence.
Qed.

(** What [umm_mmap] does once a region has resolved, in one equation. *)
Lemma umm_mmap_eq p d vma u k :
  load (fd_target p d) k = Some u ->
  umm_mmap (Some p) (Some d) vma k =
    let r := fd_target p d in
    let vma' := bind_vma (Some r) vma in
    let membase := xnheap_get_membase (heap u) in
    let e := rtdm_mmap_vmem vma' membase in
    if negb (vma_len vma =? xnheap_get_size (heap u))
    then Ret (- EINVAL, vma) k
    else if negb (e =? 0)
    then Ret (e, vma') (logs [ev_mmap_vmem vma' membase e] k)
    else Ret (0, vma')
           (logs [ev_mmap_vmem vma' membase e; ev_atomic_inc r]
              (store r (set_refcount (int32 (refcount u + 1)) u) k)).
Proof.
  intros Hl. unfold umm_mmap.
  rewrite (bind_ret _ _ _ _ _ (umm_from_fd_attached p d k)).
  rewrite (bind_ret _ _ _ _ _ (deref_some _ _ _ Hl)).
  cbv zeta. cbn [fst snd].
  destruct (negb (vma_len vma =? xnheap_get_size (heap u))); [reflexivity|].
  unfold call_rtdm_mmap_vmem.
  unfold bind at 1. unfold bind at 1, emit at 1, pure at 1.
  destruct (negb (rtdm_mmap_vmem (bind_vma (Some (fd_target p d)) vma)
                    (xnheap_get_membase (heap u)) =? 0)); [reflexivity|].
  erewrite bind_ret by (apply atomic_inc_eq; rewrite load_log; exact Hl).
  unfold pure. rewrite store_log. reflexivity.
Qed.

(** Every run of [umm_mmap] is of one of two kinds.  Either it does not
    return 0, and then no region has changed; or it returns 0, and then a
    region had resolved, the length was the size of its heap, the host had
    bound the mapping, and the state differs by the bind call followed by
    one increment of that region's count. *)
Lemma umm_mmap_cases current fd vma k :
  ((forall v k', umm_mmap current fd vma k <> Ret (0, v) k') /\
   (forall r, load r (final (umm_mmap current fd vma k)) = load r k))
  \/
  (exists r u,
     umm_from_fd current fd k = Ret (Some r) k /\
     load r k = Some u /\
     vma_len vma = xnheap_get_size (heap u) /\
     rtdm_mmap_vmem (bind_vma (Some r) vma) (xnheap_get_membase (heap u)) = 0 /\
     umm_mmap current fd vma k =
       Ret (0, bind_vma (Some r) vma)
         (logs [ev_mmap_vmem (bind_vma (Some r) vma)
                  (xnheap_get_membase (heap u)) 0;
                ev_atomic_inc r]
            (store r (set_refcount (int32 (refcount u + 1)) u) k))).
Proof.
  destruct current as [p|], fd as [d|].
  - destruct (load (fd_target p d) k) as [u|] eqn:Hl.
    + rewrite (umm_mmap_eq _ _ _ _ _ Hl). cbv zeta.
      destruct (vma_len vma =? xnheap_get_size (heap u)) eqn:Hlen; cbn [negb].
      * destruct (rtdm_mmap_vmem (bind_vma (Some (fd_target p d)) vma)
                    (xnheap_get_membase (heap u)) =? 0) eqn:He; cbn [negb].
        -- right. exists (fd_target p d), u.
           apply Z.eqb_eq in Hlen. apply Z.eqb_eq in He.
           split; [apply umm_from_fd_attached|].
           split; [exact Hl|]. split; [exact Hlen|]. split; [exact He|].
           rewrite He. reflexivity.
        -- left. apply Z.eqb_neq in He. split.
           ++ intros v k' Heq. injection Heq as Hz _ _. contradiction.
           ++ intros r. cbn [final]. apply load_logs.
      * left. split; [intros v k' Heq; discriminate Heq | reflexivity].
    + left. unfold umm_mmap.
      rewrite (bind_ret _ _ _ _ _ (umm_from_fd_attached p d k)).
      unfold bind, deref. rewrite Hl.
      split; [intros v k' Heq; discriminate Heq | reflexivity].
  - left. split; [intros v k' Heq; discriminate Heq | reflexivity].
  - left. split; [intros v k' Heq; discriminate Heq | reflexivity].
  - left. split; [intros v k' Heq; discriminate Heq | reflexivity].
Qed.

(** The sibling that gets detached callers right: [stat_umm] answers
    [-ENODEV] and leaves the state as it was. *)
Lemma stat_umm_detached fd u_stat k :
  stat_umm None fd u_stat k = Ret (- ENODEV) k.
Proof. reflexivity. Qed.

Lemma umm_get_unmapped_area_detached fd len pgoff flags k :
  umm_get_unmapped_area None fd len pgoff flags k
    = Ret ((- ENODEV) mod 2 ^ BITS_PER_LONG) k.
Proof. reflexivity. Qed.

Lemma do_umm_ioctls_stat_detached fd arg k :
  do_umm_ioctls None fd MEMDEV_RTIOC_STAT arg k = Ret (- ENODEV) k.
Proof.
  unfold do_umm_ioctls. rewrite Z.eqb_refl. apply stat_umm_detached.
Qed.

(** C1, on the code. For a caller with no process attached, no region
    resolves.  The stat request then answers [-ENODEV] and changes
    nothing, but [umm_mmap] on a valid descriptor tests the descriptor
    where it should test the region: it does not answer [-ENODEV], it goes
    on to read the heap size through the NULL region pointer and faults. *)
Theorem umm_mmap_detached_faults d vma u_stat k :
  umm_from_fd None (Some d) k = Ret None k /\
  stat_umm None (Some d) u_stat k = Ret (- ENODEV) k /\
  umm_mmap None (Some d) vma k = Oops k /\
  umm_mmap None (Some d) vma k <> Ret (- ENODEV, vma) k.
Proof.
  split; [reflexivity|]. split; [reflexivity|].
  split; [reflexivity|]. discriminate.
Qed.

(** C3. When a region resolves for the request: a length other than the
    size of the region's heap is refused with [-EINVAL] and the state,
    reference count included, is as before; with the right length and a
    successful bind the request returns 0 and the count of the region has
    been incremented once, in the 32-bit arithmetic of [atomic_t] (by one
    as integers whenever the count is below [INT_MAX]), no other region
    being touched. *)
Theorem umm_mmap_length_check current fd vma k r u :
  umm_from_fd current fd k = Ret (Some r) k ->
  load r k = Some u ->
  (vma_len vma <> xnheap_get_size (heap u) ->
   umm_mmap current fd vma k = Ret (- EINVAL, vma) k) /\
  (vma_len vma = xnheap_get_size (heap u) ->
   rtdm_mmap_vmem (bind_vma (Some r) vma) (xnheap_get_membase (heap u)) = 0 ->
   exists k',
     umm_mmap current fd vma k = Ret (0, bind_vma (Some r) vma) k' /\
     refcount_at r k' = Some (int32 (refcount u + 1)) /\
     (refcount u < INT_MAX -> INT_MIN <= refcount u ->
      refcount_at r k' = Some (refcount u + 1)) /\
     (forall r', r' <> r -> load r' k' = load r' k)).
Proof.
  intros Hres Hl.
  destruct (umm_from_fd_resolved _ _ _ _ _ Hres) as (p & d & -> & -> & ->).
  rewrite (umm_mmap_eq _ _ _ _ _ Hl). cbv zeta. split.
  - intros Hne. apply Z.eqb_neq in Hne. rewrite Hne. reflexivity.
  - intros Hlen He. apply Z.eqb_eq in Hlen. rewrite Hlen, He.
    cbn [negb Z.eqb]. eexists. split; [reflexivity|].
    assert (Hc : refcount_at (fd_target p d)
                   (logs [ev_mmap_vmem (bind_vma (Some (fd_target p d)) vma)
                            (xnheap_get_membase (heap u)) 0;
                          ev_atomic_inc (fd_target p d)]
                      (store (fd_target p d)
                         (set_refcount (int32 (refcount u + 1)) u) k))
                 = Some (int32 (refcount u + 1))).
    { rewrite refcount_at_logs. apply refcount_at_store_same. }
    split; [exact Hc|]. split.
    + intros Hhi Hlo. rewrite Hc. rewrite int32_small; [reflexivity|].
      unfold INT_MAX, INT_MIN in *. lia.
    + intros r' Hne. rewrite load_logs. apply load_store_other. congruence.
Qed.

(** C9. Whatever the caller, descriptor and mapping: either [umm_mmap]
    does not return 0 (it returned an error or faulted), and then the
    reference count of every region is what it was; or it returns 0, and
    then the region had resolved, the length check had passed, the host's
    bind had succeeded, and the calls made are the bind followed by a
    single increment of that region's count, every other count being what
    it was. *)
Theorem umm_mmap_refcount_frame current fd vma k :
  ((forall v k', umm_mmap current fd vma k <> Ret (0, v) k') /\
   (forall r, refcount_at r (final (umm_mmap current fd vma k))
              = refcount_at r k))
  \/
  (exists r u k',
     umm_mmap current fd vma k = Ret (0, bind_vma (Some r) vma) k' /\
     umm_from_fd current fd k = Ret (Some r) k /\
     load r k = Some u /\
     vma_len vma = xnheap_get_size (heap u) /\
     rtdm_mmap_vmem (bind_vma (Some r) vma) (xnheap_get_membase (heap u)) = 0 /\
     calls k' =
       calls k ++ [ev_mmap_vmem (bind_vma (Some r) vma)
                     (xnheap_get_membase (heap u)) 0;
                   ev_atomic_inc r] /\
     refcount_at r k' = Some (int32 (refcount u + 1)) /\
     (forall r', r' <> r -> refcount_at r' k' = refcount_at r' k)).
Proof.
  destruct (umm_mmap_cases current fd vma k)
    as [[Hfail Hsame] | (r & u & Hres & Hl & Hlen & He & Hrun)].
  - left. split; [exact Hfail|].
    intros r. unfold refcount_at. rewrite Hsame. reflexivity.
  - right. exists r, u. eexists. split; [exact Hrun|].
    split; [exact Hres|]. split; [exact Hl|].
    split; [exact Hlen|]. split; [exact He|].
    split; [rewrite calls_logs, calls_store; reflexivity|].
    split.
    + rewrite refcount_at_logs. apply refcount_at_store_same.
    + intros r' Hne. rewrite refcount_at_logs.
      apply refcount_at_store_other. congruence.
Qed.

End Mapping.

Lemma umm_mmap_length_check_witness :
  let k := live_kernel good_config 1 in
  (umm_from_fd (H:=good_host) (Some 7%nat) (Some shared_fd) k
     = Ret (Some kernel_ppd_umm) k /\
   load kernel_ppd_umm k = Some (one_page_umm good_config 1)) /\
  umm_mmap (H:=good_host) (Some 7%nat) (Some shared_fd) two_page_vma k
    = Ret (- EINVAL, two_page_vma) k /\
  exists k',
    umm_mmap (H:=good_host) (Some 7%nat) (Some shared_fd) one_page_vma k
      = Ret (0, bind_vma (H:=good_host) (Some kernel_ppd_umm) one_page_vma)
          k' /\
    refcount_at kernel_ppd_umm k' = Some 2.
Proof.
  intros k.
  assert (Hres : umm_from_fd (H:=good_host) (Some 7%nat) (Some shared_fd) k
                   = Ret (Some kernel_ppd_umm) k) by reflexivity.
  assert (Hl : load (H:=good_host) kernel_ppd_umm k
                 = Some (one_page_umm good_config 1)) by reflexivity.
  split; [split; [exact Hres | exact Hl]|].
  split.
  - apply (proj1 (umm_mmap_length_check (H:=good_host) (Some 7%nat)
                    (Some shared_fd) two_page_vma k kernel_ppd_umm
                    (one_page_umm good_config 1) Hres Hl)).
    vm_compute. discriminate.
  - destruct (proj2 (umm_mmap_length_check (H:=good_host) (Some 7%nat)
                       (Some shared_fd) one_page_vma k kernel_ppd_umm
                       (one_page_umm good_config 1) Hres Hl)
                eq_refl eq_refl)
      as (k' & Hrun & Hcount & _).
    exists k'. split; [exact Hrun | exact Hcount].
Defined.

(** The failing request on the simulated host: a detached caller maps the
    private device and the kernel faults; attached as process 7, the same
    request binds the mapping to the private region of the process and
    takes one reference on it, the shared region keeping its count. *)
Example umm_mmap_detached_on_good_host :
  umm_mmap (H:=good_host) None (Some private_fd) one_page_vma
    (live_kernel good_config 1) = Oops (live_kernel good_config 1).
Proof. reflexivity. Qed.

Example umm_mmap_attached_on_good_host :
  exists k',
    umm_mmap (H:=good_host) (Some 7%nat) (Some private_fd) one_page_vma
      (live_kernel good_config 1)
      = Ret (0, bind_vma (H:=good_host) (Some (process_ppd_umm 7%nat))
                  one_page_vma) k' /\
    refcount_at (process_ppd_umm 7%nat) k' = Some 2 /\
    refcount_at kernel_ppd_umm k' = Some 1.
Proof. eexists. vm_compute. repeat split; reflexivity. Qed.

(** When the host refuses to bind, the mapping has been prepared and the
    bind attempted, the error of the host comes back, and the count of the
    region is what it was. *)
Example umm_mmap_bind_refused :
  exists k',
    umm_mmap (H:=no_bind_host) (Some 7%nat) (Some shared_fd) one_page_vma
      (live_kernel no_bind_config 1)
      = Ret (-11, {| vm_start := 65536; vm_end := 69632; vm_page_prot := 1;
                     vm_private_data := Some kernel_ppd_umm;
                     vm_ops := Some umm_vmops |}) k' /\
    calls k' =
      [ev_mmap_vmem {| vm_start := 65536; vm_end := 69632; vm_page_prot := 1;
                       vm_private_data := Some kernel_ppd_umm;
                       vm_ops := Some umm_vmops |} 1048576 (-11)] /\
    refcount_at kernel_ppd_umm k' = Some 1.
Proof. eexists. vm_compute. repeat split; reflexivity. Qed.

(** *** Sessions *)

Section Sessions.

Context `{H : Host}.

Open Scope kernel_scope.

Lemma refcount_at_load r k c :
  refcount_at r k = Some c -> exists u, load r k = Some u /\ refcount u = c.
Proof.
  unfold refcount_at. destruct (load r k) as [u|]; [|discriminate].
  intros Heq. exists u. split; [reflexivity|]. cbn in Heq. congruence.
Qed.

Lemma umm_vmopen_eq vma r u k :
  vm_private_data vma = Some r -> load r k = Some u ->
  umm_vmopen vma k =
    Ret tt (log (ev_atomic_inc r)
              (store r (set_refcount (int32 (refcount u + 1)) u) k)).
Proof.
  intros Hv Hl. unfold umm_vmopen. rewrite Hv. apply atomic_inc_eq. exact Hl.
Qed.

Lemma umm_vmclose_count vma r c k :
  vm_private_data vma = Some r -> refcount_at r k = Some c ->
  exists k', umm_vmclose vma k = Ret tt k' /\
             refcount_at r k' = Some (int32 (c - 1)).
Proof.
  intros Hv Hc. destruct (refcount_at_load _ _ _ Hc) as (u & Hl & <-).
  unfold umm_vmclose. rewrite Hv. rewrite (steely_umm_destroy_eq _ _ _ Hl).
  eexists. split; [reflexivity|].
  destruct (int32 (refcount u - 1) =? 0);
    rewrite refcount_at_logs, refcount_at_store_same; reflexivity.
Qed.

Lemma open_session_count r q k v k' c :
  refcount_at r k = Some c ->
  open_session q k = Ret v k' ->
  (forall v', v = Some v' -> vm_private_data v' = Some r) ->
  refcount_at r k' = Some (match v with Some _ => int32 (c + 1) | None => c end).
Proof.
  intros Hc Hrun Hbound. destruct q as [current fd vma | vma]; cbn in Hrun.
  - unfold bind, pure in Hrun.
    destruct (umm_mmap_cases current fd vma k)
      as [[Hfail Hsame] | (r0 & u & _ & Hl & _ & _ & Hok)].
    + destruct (umm_mmap current fd vma k) as [[e v0] k0|] eqn:Hm;
        [|discriminate].
      cbn [fst snd] in Hrun.
      destruct (e =? 0) eqn:He.
      * apply Z.eqb_eq in He. subst e. exfalso. exact (Hfail v0 k0 eq_refl).
      * injection Hrun as <- <-. unfold refcount_at.
        specialize (Hsame r). cbn [final] in Hsame. rewrite Hsame. exact Hc.
    + rewrite Hok in Hrun. cbn in Hrun. injection Hrun as <- <-.
      specialize (Hbound _ eq_refl). cbn in Hbound.
      injection Hbound as ->.
      destruct (refcount_at_load _ _ _ Hc) as (u' & Hl' & <-).
      assert (u' = u) by congruence. subst u'.
      unfold refcount_at.
      rewrite ?load_logs, ?load_log, load_store_same. reflexivity.
  - unfold bind, pure in Hrun.
    destruct (umm_vmopen vma k) as [[] k0|] eqn:Hm; [|discriminate].
    injection Hrun as <- <-.
    specialize (Hbound _ eq_refl).
    destruct (refcount_at_load _ _ _ Hc) as (u & Hl & <-).
    rewrite (umm_vmopen_eq _ _ _ _ Hbound Hl) in Hm. injection Hm as <-.
    unfold refcount_at. rewrite load_log, load_store_same. reflexivity.
Qed.

Lemma open_sessions_count r qs :
  forall k vmas k1 c,
    INT_MIN <= c <= INT_MAX ->
    refcount_at r k = Some c ->
    open_sessions qs k = Ret vmas k1 ->
    Forall (fun v => vm_private_data v = Some r) vmas ->
    refcount_at r k1 = Some (int32 (c + Z.of_nat (length vmas))).
Proof.
  induction qs as [|q qs IH]; intros k vmas k1 c Hrange Hc Hrun Hall.
  - cbn in Hrun. injection Hrun as <- <-. cbn.
    rewrite Z.add_0_r, int32_small by exact Hrange. exact Hc.
  - cbn in Hrun. unfold bind, pure in Hrun.
    destruct (open_session q k) as [v k0|] eqn:Hq; [|discriminate].
    destruct (open_sessions qs k0) as [vs k0'|] eqn:Hqs; [|discriminate].
    injection Hrun as <- <-.
    destruct v as [v|].
    + inversion Hall as [|? ? Hv Hvs]; subst.
      pose proof (open_session_count r q k (Some v) k0 c Hc Hq) as Hstep.
      cbn in Hstep.
      rewrite (IH k0 vs k0' (int32 (c + 1)) (int32_range _)
                 (Hstep ltac:(intros v' [= <-]; exact Hv)) Hqs Hvs).
      rewrite int32_add_l. f_equal. f_equal. cbn [length]. lia.
    + pose proof (open_session_count r q k None k0 c Hc Hq) as Hstep.
      cbn in Hstep.
      exact (IH k0 vs k0' c Hrange (Hstep ltac:(discriminate)) Hqs Hall).
Qed.

Lemma close_sessions_count r vs :
  forall k c,
    INT_MIN <= c <= INT_MAX ->
    refcount_at r k = Some c ->
    Forall (fun v => vm_private_data v = Some r) vs ->
    exists k2, close_sessions vs k = Ret tt k2 /\
               refcount_at r k2 = Some (int32 (c - Z.of_nat (length vs))).
Proof.
  induction vs as [|v vs IH]; intros k c Hrange Hc Hall.
  - exists k. split; [reflexivity|]. cbn.
    rewrite Z.sub_0_r, int32_small by exact Hrange. exact Hc.
  - inversion Hall as [|? ? Hv Hvs]; subst.
    destruct (umm_vmclose_count v r c k Hv Hc) as (k0 & Hrun & Hc0).
    destruct (IH k0 (int32 (c - 1)) (int32_range _) Hc0 Hvs)
      as (k2 & Hrest & Hc2).
    exists k2. split.
    + cbn. rewrite (bind_ret _ _ _ _ _ Hrun). exact Hrest.
    + rewrite Hc2, int32_add_l_sub. f_equal. f_equal. cbn [length]. lia.
Qed.

End Sessions.

Section SessionBalance.

Context `{H : Host}.

(** Any number of sessions can be opened: when a region resolves for the
    request, the length is right and the host binds the mapping, the same
    request repeated [n] times opens [n] sessions on that region. *)
Lemma open_sessions_any_number p d vma n :
  forall k u,
    load (fd_target p d) k = Some u ->
    vma_len vma = xnheap_get_size (heap u) ->
    rtdm_mmap_vmem (bind_vma (Some (fd_target p d)) vma)
      (xnheap_get_membase (heap u)) = 0 ->
    exists k1,
      open_sessions (repeat (open_mmap (Some p) (Some d) vma) n) k
        = Ret (repeat (bind_vma (Some (fd_target p d)) vma) n) k1.
Proof.
  induction n as [|n IH]; intros k u Hl Hlen He.
  - exists k. reflexivity.
  - cbn [repeat open_sessions open_session].
    pose proof (umm_mmap_eq p d vma u k Hl) as Hm. cbv zeta in Hm.
    apply Z.eqb_eq in Hlen. rewrite Hlen, He in Hm. cbn [negb Z.eqb] in Hm.
    destruct (IH (logs [ev_mmap_vmem (bind_vma (Some (fd_target p d)) vma)
                          (xnheap_get_membase (heap u)) 0;
                        ev_atomic_inc (fd_target p d)]
                    (store (fd_target p d)
                       (set_refcount (int32 (refcount u + 1)) u) k))
                (set_refcount (int32 (refcount u + 1)) u))
      as (k1 & Hrest).
    + rewrite load_logs. apply load_store_same.
    + apply Z.eqb_eq. exact Hlen.
    + exact He.
    + exists k1. unfold bind at 1. unfold bind at 1. rewrite Hm.
      unfold pure at 1. cbn [fst snd Z.eqb].
      unfold bind. rewrite Hrest. reflexivity.
Qed.

(** C7. Duplicating a view of a live region never fails and increments
    the count of the region once, in the 32-bit arithmetic of [atomic_t]
    (by one as integers whenever the count is below [INT_MAX]).  And for
    any run of open requests on a region whose count is 1, with [vmas] the
    sessions it opened on that region: the count afterwards is 1 plus their
    number, and closing them all, in any order, succeeds and leaves the
    count at 1 again. *)
Theorem sessions_restore_refcount r :
  (forall vma u k,
     vm_private_data vma = Some r -> load r k = Some u ->
     exists k',
       umm_vmopen vma k = Ret tt k' /\
       calls k' = calls k ++ [ev_atomic_inc r] /\
       refcount_at r k' = Some (int32 (refcount u + 1)) /\
       (INT_MIN <= refcount u < INT_MAX ->
        refcount_at r k' = Some (refcount u + 1)) /\
       (forall r', r' <> r -> load r' k' = load r' k)) /\
  (forall qs k vmas k1 order,
     refcount_at r k = Some 1 ->
     open_sessions qs k = Ret vmas k1 ->
     Forall (fun v => vm_private_data v = Some r) vmas ->
     Permutation order vmas ->
     refcount_at r k1 = Some (int32 (1 + Z.of_nat (length vmas))) /\
     exists k2,
       close_sessions order k1 = Ret tt k2 /\ refcount_at r k2 = Some 1).
Proof.
  split.
  - intros vma u k Hv Hl. eexists.
    split; [apply (umm_vmopen_eq _ _ _ _ Hv Hl)|].
    split; [cbn; rewrite calls_store; reflexivity|].
    assert (Hc : refcount_at r
                   (log (ev_atomic_inc r)
                      (store r (set_refcount (int32 (refcount u + 1)) u) k))
                 = Some (int32 (refcount u + 1))).
    { unfold refcount_at. rewrite load_log, load_store_same. reflexivity. }
    split; [exact Hc|]. split.
    + intros Hrange. rewrite Hc, int32_small; [reflexivity|].
      unfold INT_MIN, INT_MAX in *. lia.
    + intros r' Hne. rewrite load_log. apply load_store_other. congruence.
  - intros qs k vmas k1 order Hfresh Hopen Hall Hperm.
    assert (Hone : INT_MIN <= 1 <= INT_MAX) by (unfold INT_MIN, INT_MAX; lia).
    pose proof (open_sessions_count r qs k vmas k1 1 Hone Hfresh Hopen Hall)
      as Hc1.
    split; [exact Hc1|].
    assert (Hall' : Forall (fun v => vm_private_data v = Some r) order).
    { apply (Permutation_Forall (Permutation_sym Hperm)). exact Hall. }
    destruct (close_sessions_count r order k1 _ (int32_range _) Hc1 Hall')
      as (k2 & Hclose & Hc2).
    exists k2. split; [exact Hclose|].
    rewrite Hc2, int32_add_l_sub, (Permutation_length Hperm).
    f_equal. replace (1 + Z.of_nat (length vmas) - Z.of_nat (length vmas))
      with 1 by lia.
    reflexivity.
Qed.

End SessionBalance.

Lemma sessions_restore_refcount_witness :
  let v := bind_vma (H:=good_host) (Some kernel_ppd_umm) one_page_vma in
  exists k1 k2,
    refcount_at (H:=good_host) kernel_ppd_umm (live_kernel good_config 1)
      = Some 1 /\
    open_sessions (H:=good_host) three_requests (live_kernel good_config 1)
      = Ret [v; v; v] k1 /\
    refcount_at kernel_ppd_umm k1 = Some 4 /\
    close_sessions [v; v; v] k1 = Ret tt k2 /\
    refcount_at kernel_ppd_umm k2 = Some 1.
Proof.
  intros v.
  destruct (open_sessions (H:=good_host) three_requests
              (live_kernel good_config 1)) as [vmas k1|] eqn:Hopen;
    [|vm_compute in Hopen; discriminate].
  assert (Hv : vmas = [v; v; v]).
  { vm_compute in Hopen. injection Hopen as <- _. reflexivity. }
  subst vmas.
  assert (Hall : Forall (fun x => vm_private_data x = Some kernel_ppd_umm)
                   [v; v; v]).
  { repeat constructor. }
  destruct (proj2 (sessions_restore_refcount (H:=good_host) kernel_ppd_umm)
              three_requests (live_kernel good_config 1) [v; v; v] k1
              [v; v; v] eq_refl Hopen Hall (Permutation_refl _))
    as (Hc1 & k2 & Hclose & Hc2).
  exists k1, k2. split; [reflexivity|]. split; [reflexivity|].
  split; [exact Hc1|]. split; [exact Hclose | exact Hc2].
Defined.

(** *** Start-up and tear-down *)

Section Startup.

Context `{H : Host}.

Open Scope kernel_scope.

(** Dropping the one reference to the live shared region destroys it. *)
Lemma steely_umm_destroy_live_shared h k :
  steely_kernel_ppd k = live_shared h ->
  steely_umm_destroy (Some kernel_ppd_umm) k =
    Ret tt
      (logs [ev_atomic_dec_and_test kernel_ppd_umm true;
             ev_xnheap_destroy kernel_ppd_umm;
             ev_vfree (xnheap_get_membase (xnheap_destroy h))]
         (store kernel_ppd_umm (dead_shared h)
            (drop_area (xnheap_get_membase (xnheap_destroy h)) k))).
Proof.
  intros Hk.
  rewrite (steely_umm_destroy_eq kernel_ppd_umm (live_shared h))
    by (cbn [load]; rewrite Hk; reflexivity).
  reflexivity.
Qed.

(** The unwinding labels of [steely_memdev_init], each in one equation. *)
Lemma fail_vdso_eq ret h k :
  steely_kernel_ppd k = live_shared h ->
  fail_vdso ret k =
    Ret ret
      (logs [ev_atomic_dec_and_test kernel_ppd_umm true;
             ev_xnheap_destroy kernel_ppd_umm;
             ev_vfree (xnheap_get_membase (xnheap_destroy h))]
         (store kernel_ppd_umm (dead_shared h)
            (drop_area (xnheap_get_membase (xnheap_destroy h)) k))).
Proof.
  intros Hk. unfold fail_vdso.
  rewrite (bind_ret _ _ _ _ _ (steely_umm_destroy_live_shared h k Hk)).
  reflexivity.
Qed.

Lemma fail_private_eq ret h k :
  steely_kernel_ppd k = live_shared h ->
  fail_private ret k =
    Ret ret
      (logs [ev_xnheap_free kernel_ppd_umm (nkvdso k);
             ev_atomic_dec_and_test kernel_ppd_umm true;
             ev_xnheap_destroy kernel_ppd_umm;
             ev_vfree
               (xnheap_get_membase
                  (xnheap_destroy (xnheap_free h (nkvdso k))))]
         (store kernel_ppd_umm (dead_shared (xnheap_free h (nkvdso k)))
            (drop_area
               (xnheap_get_membase
                  (xnheap_destroy (xnheap_free h (nkvdso k))))
               (drop_word (nkvdso k) k)))).
Proof.
  intros Hk. unfold fail_private. unfold bind at 1.
  erewrite bind_ret by (apply steely_umm_free_eq; reflexivity).
  rewrite (fail_vdso_eq ret (xnheap_free h (nkvdso k)))
    by (cbn; rewrite Hk; reflexivity).
  reflexivity.
Qed.

Lemma fail_shared_eq ret h k :
  steely_kernel_ppd k = live_shared h ->
  fail_shared ret k =
    Ret ret
      (logs [ev_dev_unregister umm_device_private;
             ev_xnheap_free kernel_ppd_umm (nkvdso k);
             ev_atomic_dec_and_test kernel_ppd_umm true;
             ev_xnheap_destroy kernel_ppd_umm;
             ev_vfree
               (xnheap_get_membase
                  (xnheap_destroy (xnheap_free h (nkvdso k))))]
         (store kernel_ppd_umm (dead_shared (xnheap_free h (nkvdso k)))
            (drop_area
               (xnheap_get_membase
                  (xnheap_destroy (xnheap_free h (nkvdso k))))
               (drop_word (nkvdso k) k)))).
Proof.
  intros Hk. unfold fail_shared, rtdm_dev_unregister.
  unfold bind at 1, emit at 1.
  rewrite (fail_private_eq ret h) by exact Hk.
  reflexivity.
Qed.

Lemma fail_sysmem_eq ret h k :
  steely_kernel_ppd k = live_shared h ->
  fail_sysmem ret k =
    Ret ret
      (logs [ev_dev_unregister umm_device_shared;
             ev_dev_unregister umm_device_private;
             ev_xnheap_free kernel_ppd_umm (nkvdso k);
             ev_atomic_dec_and_test kernel_ppd_umm true;
             ev_xnheap_destroy kernel_ppd_umm;
             ev_vfree
               (xnheap_get_membase
                  (xnheap_destroy (xnheap_free h (nkvdso k))))]
         (store kernel_ppd_umm (dead_shared (xnheap_free h (nkvdso k)))
            (drop_area
               (xnheap_get_membase
                  (xnheap_destroy (xnheap_free h (nkvdso k))))
               (drop_word (nkvdso k) k)))).
Proof.
  intros Hk. unfold fail_sysmem, rtdm_dev_unregister.
  unfold bind at 1, emit at 1.
  rewrite (fail_shared_eq ret h) by exact Hk.
  reflexivity.
Qed.

(** Tear-down when the registry holds the only reference to the shared
    region. *)
Lemma steely_memdev_cleanup_live h k :
  steely_kernel_ppd k = live_shared h ->
  steely_memdev_cleanup k =
    Ret tt
      (logs [ev_dev_unregister sysmem_device;
             ev_dev_unregister umm_device_shared;
             ev_dev_unregister umm_device_private;
             ev_xnheap_free kernel_ppd_umm (nkvdso k);
             ev_atomic_dec_and_test kernel_ppd_umm true;
             ev_xnheap_destroy kernel_ppd_umm;
             ev_vfree
               (xnheap_get_membase
                  (xnheap_destroy (xnheap_free h (nkvdso k))))]
         (store kernel_ppd_umm (dead_shared (xnheap_free h (nkvdso k)))
            (drop_area
               (xnheap_get_membase
                  (xnheap_destroy (xnheap_free h (nkvdso k))))
               (drop_word (nkvdso k) k)))).
Proof.
  intros Hk. unfold steely_memdev_cleanup, rtdm_dev_unregister.
  do 3 (unfold bind at 1, emit at 1). unfold bind at 1.
  erewrite bind_ret by (apply steely_umm_free_eq; reflexivity).
  rewrite (steely_umm_destroy_live_shared (xnheap_free h (nkvdso k)))
    by (cbn; rewrite Hk; reflexivity).
  reflexivity.
Qed.

(** Start-up in one equation: what it returns, the calls it makes and the
    state it leaves, for every answer of the host. *)
Lemma steely_memdev_init_eq k :
  steely_memdev_init k =
    let a := shared_init k in
    let p := fst (vdso_alloc k) in
    let r1 := rtdm_dev_register umm_device_private in
    let r2 := rtdm_dev_register umm_device_shared in
    let r3 := rtdm_dev_register sysmem_device in
    let made := add_area shared_base shared_size k in
    let published := put_word p XNVDSO_FEATURES (set_nkvdso p made) in
    let unwound n :=
      store kernel_ppd_umm (dead_shared (unwound_heap k n))
        (drop_area (xnheap_get_membase (xnheap_destroy (unwound_heap k n)))
           (drop_word p published)) in
    if shared_base =? 0 then
      Ret (- ENOMEM) (logs (startup_calls k 0 (- ENOMEM)) k)
    else if negb (fst a =? 0) then
      Ret (fst a)
        (logs (startup_calls k 0 (fst a))
           (store kernel_ppd_umm (set_heap (snd a) (steely_kernel_ppd k))
              (drop_area shared_base made)))
    else if p =? 0 then
      Ret (- ENOMEM)
        (logs (startup_calls k 1 (- ENOMEM))
           (store kernel_ppd_umm (dead_shared (unwound_heap k 1))
              (drop_area
                 (xnheap_get_membase (xnheap_destroy (unwound_heap k 1)))
                 (set_nkvdso p made))))
    else if negb (r1 =? 0) then Ret r1 (logs (startup_calls k 2 r1) (unwound 2%nat))
    else if negb (r2 =? 0) then Ret r2 (logs (startup_calls k 3 r2) (unwound 3%nat))
    else if negb (r3 =? 0) then Ret r3 (logs (startup_calls k 4 r3) (unwound 4%nat))
    else
      Ret 0
        (logs (startup_calls k 5 0)
           (store kernel_ppd_umm (live_shared (snd (vdso_alloc k))) published)).
Proof.
  unfold steely_memdev_init. unfold bind at 1.
  rewrite (steely_umm_init_eq kernel_ppd_umm (steely_kernel_ppd k))
    by reflexivity.
  cbv zeta. fold shared_size. fold shared_base. fold (shared_init k).
  unfold startup_calls, calls_failed.
  destruct (shared_base =? 0) eqn:Hb.
  { apply Z.eqb_eq in Hb. rewrite Hb. reflexivity. }
  destruct (fst (shared_init k) =? 0) eqn:Ha; cbn [negb].
  2:{ rewrite Ha. reflexivity. }
  apply Z.eqb_eq in Ha.
  cbn [Z.eqb negb].
  erewrite bind_ret
    by (apply (steely_umm_set_name_eq kernel_ppd_umm
                 (live_shared (snd (shared_init k)))); reflexivity).
  erewrite bind_ret
    by (apply (steely_umm_alloc_eq kernel_ppd_umm
                 (live_shared
                    (xnheap_set_name (snd (shared_init k)) "shared heap")));
        reflexivity).
  change (xnheap_alloc _ sizeof_xnvdso) with (vdso_alloc k).
  unfold bind at 1.
  destruct (fst (vdso_alloc k) =? 0) eqn:Hp.
  { rewrite (fail_vdso_eq (- ENOMEM) (snd (vdso_alloc k))) by reflexivity.
    apply Z.eqb_eq in Hp. rewrite Ha, Hp. reflexivity. }
  unfold bind at 1, init_vdso at 1. cbn [nkvdso set_nkvdso]. rewrite Hp.
  unfold call_rtdm_dev_register.
  unfold bind at 1. unfold bind at 1, emit at 1, pure at 1.
  destruct (rtdm_dev_register umm_device_private =? 0) eqn:Hr1; cbn [negb].
  2:{ rewrite (fail_private_eq _ (snd (vdso_alloc k))) by reflexivity.
      rewrite ?Ha, ?Hr1. reflexivity. }
  unfold bind at 1. unfold bind at 1, emit at 1, pure at 1.
  destruct (rtdm_dev_register umm_device_shared =? 0) eqn:Hr2; cbn [negb].
  2:{ rewrite (fail_shared_eq _ (snd (vdso_alloc k))) by reflexivity.
      apply Z.eqb_eq in Hr1. rewrite ?Ha, ?Hr1, ?Hr2. reflexivity. }
  unfold bind at 1. unfold bind at 1, emit at 1, pure at 1.
  destruct (rtdm_dev_register sysmem_device =? 0) eqn:Hr3; cbn [negb].
  2:{ rewrite (fail_sysmem_eq _ (snd (vdso_alloc k))) by reflexivity.
      apply Z.eqb_eq in Hr1, Hr2. rewrite ?Ha, ?Hr1, ?Hr2, ?Hr3. reflexivity. }
  apply Z.eqb_eq in Hr1, Hr2, Hr3. rewrite ?Ha, ?Hr1, ?Hr2, ?Hr3.
  reflexivity.
Qed.

(** A start-up that returns 0 has completed the five steps. *)
Lemma steely_memdev_init_ok k k1 :
  steely_memdev_init k = Ret 0 k1 ->
  shared_base <> 0 /\ fst (vdso_alloc k) <> 0 /\
  k1 = logs (startup_calls k 5 0)
         (store kernel_ppd_umm (live_shared (snd (vdso_alloc k)))
            (put_word (fst (vdso_alloc k)) XNVDSO_FEATURES
               (set_nkvdso (fst (vdso_alloc k))
                  (add_area shared_base shared_size k)))).
Proof.
  rewrite steely_memdev_init_eq. cbv zeta.
  destruct (shared_base =? 0) eqn:Hb; [discriminate|].
  destruct (fst (shared_init k) =? 0) eqn:Ha; cbn [negb].
  2:{ intros Heq. apply Ret_eq in Heq. destruct Heq as [Hr _].
      rewrite Hr in Ha. discriminate. }
  destruct (fst (vdso_alloc k) =? 0) eqn:Hp; [discriminate|].
  destruct (rtdm_dev_register umm_device_private =? 0) eqn:Hr1; cbn [negb].
  2:{ intros Heq. apply Ret_eq in Heq. destruct Heq as [Hr _].
      rewrite Hr in Hr1. discriminate. }
  destruct (rtdm_dev_register umm_device_shared =? 0) eqn:Hr2; cbn [negb].
  2:{ intros Heq. apply Ret_eq in Heq. destruct Heq as [Hr _].
      rewrite Hr in Hr2. discriminate. }
  destruct (rtdm_dev_register sysmem_device =? 0) eqn:Hr3; cbn [negb].
  2:{ intros Heq. apply Ret_eq in Heq. destruct Heq as [Hr _].
      rewrite Hr in Hr3. discriminate. }
  intros Heq. apply Ret_eq in Heq. destruct Heq as [_ <-].
  apply Z.eqb_neq in Hb, Hp. repeat split; assumption.
Qed.

(** C4. Start-up always returns.  The calls it makes are the calls of the
    steps it completes, in the order of the five-step sequence, and, when
    it fails, the calls of the failing step followed by the calls that take
    back exactly the completed steps, latest first: each registered device
    is unregistered, the vDSO record is handed back to the shared heap at
    the address the heap had given, and the one reference to the shared
    region is dropped, which reaches zero, destroys the heap and hands the
    block the heap reports back to the host.  It returns 0 exactly when all
    five steps completed; when it fails after the shared region was made,
    the region is left destroyed with count 0.  A tear-down that follows a
    complete start-up makes the calls that take back the five steps, latest
    first, and leaves the shared region destroyed with count 0. *)
Theorem startup_unwinds_in_reverse k :
  (exists ret k' n,
     steely_memdev_init k = Ret ret k' /\
     (n <= 5)%nat /\ (ret = 0 <-> n = 5%nat) /\
     calls k' = calls k ++ startup_calls k n ret /\
     ((1 <= n < 5)%nat ->
      steely_kernel_ppd k' = dead_shared (unwound_heap k n))) /\
  (forall k1,
     steely_memdev_init k = Ret 0 k1 ->
     exists k2,
       steely_memdev_cleanup k1 = Ret tt k2 /\
       calls k2 = calls k1 ++ teardown_calls k /\
       steely_kernel_ppd k2 = dead_shared (unwound_heap k 5)).
Proof.
  split.
  - rewrite steely_memdev_init_eq. cbv zeta.
    destruct (shared_base =? 0) eqn:Hb.
    { exists (- ENOMEM), (logs (startup_calls k 0 (- ENOMEM)) k), 0%nat.
      split; [reflexivity|]. split; [lia|].
      split; [split; [discriminate | lia]|].
      split; [apply calls_logs | lia]. }
    destruct (fst (shared_init k) =? 0) eqn:Ha; cbn [negb].
    2:{ eexists (fst (shared_init k)), _, 0%nat.
        split; [reflexivity|]. split; [lia|].
        split; [split; [intros Hr; rewrite Hr in Ha; discriminate | lia]|].
        split; [rewrite calls_logs; reflexivity | lia]. }
    destruct (fst (vdso_alloc k) =? 0) eqn:Hp.
    { eexists (- ENOMEM), _, 1%nat.
      split; [reflexivity|]. split; [lia|].
      split; [split; [discriminate | lia]|].
      split; [rewrite calls_logs; reflexivity|].
        intros _. rewrite (proj1 (logs_frame _ _)). reflexivity. }
    destruct (rtdm_dev_register umm_device_private =? 0) eqn:Hr1; cbn [negb].
    2:{ eexists _, _, 2%nat.
        split; [reflexivity|]. split; [lia|].
        split; [split; [intros Hr; rewrite Hr in Hr1; discriminate | lia]|].
        split; [rewrite calls_logs; reflexivity|].
        intros _. rewrite (proj1 (logs_frame _ _)). reflexivity. }
    destruct (rtdm_dev_register umm_device_shared =? 0) eqn:Hr2; cbn [negb].
    2:{ eexists _, _, 3%nat.
        split; [reflexivity|]. split; [lia|].
        split; [split; [intros Hr; rewrite Hr in Hr2; discriminate | lia]|].
        split; [rewrite calls_logs; reflexivity|].
        intros _. rewrite (proj1 (logs_frame _ _)). reflexivity. }
    destruct (rtdm_dev_register sysmem_device =? 0) eqn:Hr3; cbn [negb].
    2:{ eexists _, _, 4%nat.
        split; [reflexivity|]. split; [lia|].
        split; [split; [intros Hr; rewrite Hr in Hr3; discriminate | lia]|].
        split; [rewrite calls_logs; reflexivity|].
        intros _. rewrite (proj1 (logs_frame _ _)). reflexivity. }
    eexists 0, _, 5%nat.
    split; [reflexivity|]. split; [lia|].
    split; [split; reflexivity|].
    split; [rewrite calls_logs; reflexivity | lia].
  - intros k1 Hinit.
    destruct (steely_memdev_init_ok k k1 Hinit) as (_ & _ & ->).
    set (k1 := logs _ _).
    assert (Hppd : steely_kernel_ppd k1 = live_shared (snd (vdso_alloc k))).
    { subst k1. rewrite (proj1 (logs_frame _ _)). reflexivity. }
    assert (Hn : nkvdso k1 = fst (vdso_alloc k)).
    { subst k1. destruct (logs_frame (startup_calls k 5 0)
                            (store kernel_ppd_umm
                               (live_shared (snd (vdso_alloc k)))
                               (put_word (fst (vdso_alloc k)) XNVDSO_FEATURES
                                  (set_nkvdso (fst (vdso_alloc k))
                                     (add_area shared_base shared_size k)))))
        as (_ & _ & _ & -> & _). reflexivity. }
    clearbody k1.
    rewrite (steely_memdev_cleanup_live _ _ Hppd), Hn.
    eexists. split; [reflexivity|]. split.
    + rewrite calls_logs. reflexivity.
    + rewrite (proj1 (logs_frame _ _)). reflexivity.
Qed.

End Startup.

(** Start-up on a host where everything succeeds, followed by tear-down:
    the five steps in order, then taken back latest first. *)
Lemma startup_unwinds_in_reverse_witness :
  exists k1 k2,
    steely_memdev_init (H:=good_host) (boot_kernel good_config) = Ret 0 k1 /\
    calls k1 =
      [ev_vmalloc 262144 true 0 1048576;
       ev_xnheap_init kernel_ppd_umm 1048576 262144 0;
       ev_atomic_set kernel_ppd_umm 1; ev_smp_mb;
       ev_xnheap_set_name kernel_ppd_umm;
       ev_xnheap_alloc kernel_ppd_umm 8 1048576;
       ev_dev_register umm_device_private 0;
       ev_dev_register umm_device_shared 0;
       ev_dev_register sysmem_device 0] /\
    steely_memdev_cleanup k1 = Ret tt k2 /\
    calls k2 =
      calls k1 ++
      [ev_dev_unregister sysmem_device;
       ev_dev_unregister umm_device_shared;
       ev_dev_unregister umm_device_private;
       ev_xnheap_free kernel_ppd_umm 1048576;
       ev_atomic_dec_and_test kernel_ppd_umm true;
       ev_xnheap_destroy kernel_ppd_umm;
       ev_vfree 1048576] /\
    refcount_at kernel_ppd_umm k2 = Some 0.
Proof.
  destruct (startup_unwinds_in_reverse (H:=good_host)
              (boot_kernel good_config)) as (_ & Htear).
  destruct (steely_memdev_init (H:=good_host) (boot_kernel good_config))
    as [ret k1|] eqn:Hinit; [|vm_compute in Hinit; discriminate].
  assert (Hret : ret = 0) by (vm_compute in Hinit; congruence).
  subst ret.
  destruct (Htear k1 eq_refl) as (k2 & Hrun & Hcalls & Hdead).
  exists k1, k2. split; [reflexivity|].
  split; [vm_compute in Hinit; injection Hinit as <-; reflexivity|].
  split; [exact Hrun|]. split; [exact Hcalls|].
  unfold refcount_at. cbn [load]. rewrite Hdead. reflexivity.
Defined.

(** Start-up on a host where everything succeeds: the five steps, in
    order; the feature word is in the record [nkvdso] points to. *)
Example startup_on_good_host :
  exists k',
    steely_memdev_init (H:=good_host) (boot_kernel good_config) = Ret 0 k' /\
    calls k' =
      [ev_vmalloc 262144 true 0 1048576;
       ev_xnheap_init kernel_ppd_umm 1048576 262144 0;
       ev_atomic_set kernel_ppd_umm 1; ev_smp_mb;
       ev_xnheap_set_name kernel_ppd_umm;
       ev_xnheap_alloc kernel_ppd_umm 8 1048576;
       ev_dev_register umm_device_private 0;
       ev_dev_register umm_device_shared 0;
       ev_dev_register sysmem_device 0] /\
    nkvdso k' = 1048576 /\ words k' !! 1048576 = Some 1 /\
    vm_areas k' !! 1048576 = Some 262144 /\
    refcount_at kernel_ppd_umm k' = Some 1.
Proof. eexists. vm_compute. repeat split; reflexivity. Qed.

(** Start-up on a host that refuses the shared device: the private device
    is unregistered, the vDSO record freed, and the shared region dropped
    and destroyed, in that order, before [-EBUSY] is returned; the block is
    back with the host and the feature word is gone with its record. *)
Example startup_without_shared_device :
  exists k',
    steely_memdev_init (H:=no_shared_device_host)
      (boot_kernel no_shared_device_config) = Ret (-16) k' /\
    calls k' =
      [ev_vmalloc 262144 true 0 1048576;
       ev_xnheap_init kernel_ppd_umm 1048576 262144 0;
       ev_atomic_set kernel_ppd_umm 1; ev_smp_mb;
       ev_xnheap_set_name kernel_ppd_umm;
       ev_xnheap_alloc kernel_ppd_umm 8 1048576;
       ev_dev_register umm_device_private 0;
       ev_dev_register umm_device_shared (-16);
       ev_dev_unregister umm_device_private;
       ev_xnheap_free kernel_ppd_umm 1048576;
       ev_atomic_dec_and_test kernel_ppd_umm true;
       ev_xnheap_destroy kernel_ppd_umm;
       ev_vfree 1048576] /\
    vm_areas k' = ∅ /\ words k' = ∅ /\
    refcount_at kernel_ppd_umm k' = Some 0.
Proof. eexists. vm_compute. repeat split; reflexivity. Qed.

(** *** The system memory device *)

Section Sysmem.

Context `{H : Host}.

Open Scope kernel_scope.

(** C8, as the code has it.  On the system memory device, a stat request
    copies the two-field record holding the size and the free bytes of the
    system heap to the caller and returns what the copy returned: it
    succeeds when the copy succeeds and fails with the copy's error
    otherwise.  An open whose access mode is not read-only is refused with
    [-EACCES], and so is every mapping and every allocation request, which
    the driver has no handler for; none of these changes the state.  The
    open and the request codes are answered by [sysmem_open] and
    [do_sysmem_ioctls]. *)
Theorem sysmem_device_requests fd k :
  (forall rt arg,
     let st := {| size := xnheap_get_size (steely_heap k);
                  free := xnheap_get_free (steely_heap k) |} in
     let e := rtdm_safe_copy_to_user fd arg st in
     sysmem_request fd (ask_ioctl rt MEMDEV_RTIOC_STAT arg) k =
       Ret e (logs [ev_xnlock_get None; ev_xnlock_put None;
                    ev_copy_to_user arg st e] k)) /\
  (forall oflags,
     Z.land oflags O_ACCMODE <> O_RDONLY ->
     sysmem_request fd (ask_open oflags) k = Ret (- EACCES) k) /\
  (forall vma, sysmem_request fd (ask_mmap vma) k = Ret (- EACCES) k) /\
  (forall size, sysmem_request fd (ask_allocate size) k = Ret (- EACCES) k) /\
  (forall oflags,
     sysmem_request fd (ask_open oflags) k = Ret (sysmem_open fd oflags) k) /\
  (forall rt request arg,
     sysmem_request fd (ask_ioctl rt request arg) k
       = do_sysmem_ioctls fd request arg k).
Proof.
  split; [|split; [|split; [|split; [|split]]]].
  - intros rt arg. destruct rt;
      cbn [sysmem_request sysmem_driver_ops ops_ioctl_nrt ops_ioctl_rt];
      unfold sysmem_ioctl_nrt, sysmem_ioctl_rt, do_sysmem_ioctls;
      rewrite Z.eqb_refl; reflexivity.
  - intros oflags Hne. cbn [sysmem_request sysmem_driver_ops ops_open].
    unfold sysmem_open. apply Z.eqb_neq in Hne. rewrite Hne. reflexivity.
  - reflexivity.
  - reflexivity.
  - reflexivity.
  - intros [] request arg; reflexivity.
Qed.

End Sysmem.

Lemma sysmem_device_requests_witness :
  let k := live_kernel good_config 1 in
  sysmem_request (H:=good_host) (Some shared_fd) (ask_ioctl false 0 4096) k =
    Ret 0 (logs [ev_xnlock_get None; ev_xnlock_put None;
                 ev_copy_to_user 4096 {| size := 8192; free := 8092 |} 0] k) /\
  sysmem_request (H:=good_host) (Some shared_fd) (ask_open O_RDWR) k
    = Ret (- EACCES) k /\
  sysmem_request (H:=good_host) (Some shared_fd) (ask_open O_WRONLY) k
    = Ret (- EACCES) k /\
  sysmem_request (H:=good_host) (Some shared_fd) (ask_mmap one_page_vma) k
    = Ret (- EACCES) k /\
  sysmem_request (H:=good_host) (Some shared_fd) (ask_allocate 64) k
    = Ret (- EACCES) k.
Proof.
  intros k.
  destruct (sysmem_device_requests (H:=good_host) (Some shared_fd) k)
    as (Hstat & Hopen & Hmap & Halloc & _).
  split; [exact (Hstat false 4096)|].
  split; [apply Hopen; discriminate|].
  split; [apply Hopen; discriminate|].
  split; [apply Hmap | apply Halloc].
Defined.

(** The claim C8 as written fails on a stat request whose record cannot be
    copied to the caller: the request fails with the copy's error. *)
Lemma sysmem_stat_copy_fails :
  exists k',
    do_sysmem_ioctls (H:=bad_buffer_host) (Some shared_fd)
      (MEMDEV_RTIOC_STAT (Host:=bad_buffer_host)) 4096
      (live_kernel bad_buffer_config 1) = Ret (-14) k' /\
    -14 <> 0.
Proof. eexists. split; [reflexivity | discriminate]. Qed.

(** *** Out-of-line lock entry points *)

Section LockEntryPoints.

Import Lock.

Context `{I : XnlockInline}.

(** C10. For every lock, caller context and state, the out-of-line
    acquire returns what the inline acquire returns and leaves the state
    the inline acquire leaves, and the out-of-line release leaves the state
    the inline release leaves; hence any sequence of lock calls gives the
    same results and the same final state through either set of entry
    points. *)
Theorem outofline_xnlock_is_inline (lock : xnlock) (ctx : dbg_context)
    (w : world) :
  ___xnlock_get lock ctx w = ____xnlock_get lock ctx w /\
  ___xnlock_put lock ctx w = ____xnlock_put lock ctx w /\
  forall cs, run_out_of_line cs w = run_inline cs w.
Proof.
  split; [reflexivity|]. split; [reflexivity|].
  intros cs. revert w. induction cs as [|c cs IH]; intros w; [reflexivity|].
  destruct c as [l c | l c]; cbn [run_out_of_line run_inline].
  - unfold ___xnlock_get at 1 2. rewrite IH. reflexivity.
  - unfold ___xnlock_put. apply IH.
Qed.

End LockEntryPoints.

(** ** Further properties of the memory devices *)

(** *** Requests *)

Section Requests.

Context `{H : Host}.

Open Scope kernel_scope.

Lemma land_accmode oflags : Z.land oflags O_ACCMODE = oflags mod 4.
Proof. apply (Z.land_ones oflags 2). lia. Qed.

(** X1. [sysmem_open] looks at the two access-mode bits only: it accepts
    the open exactly when both are clear, whatever the other flags, and
    refuses every other open with [-EACCES]. *)
Theorem sysmem_open_access_mode fd oflags :
  (sysmem_open fd oflags = 0 <-> oflags mod 4 = 0) /\
  (sysmem_open fd oflags = - EACCES <-> oflags mod 4 <> 0) /\
  (forall n, sysmem_open fd (oflags + 4 * n) = sysmem_open fd oflags).
Proof.
  assert (Hval : sysmem_open fd oflags =
                   if oflags mod 4 =? 0 then 0 else - EACCES).
  { unfold sysmem_open. rewrite land_accmode.
    change O_RDONLY with 0. destruct (oflags mod 4 =? 0); reflexivity. }
  split; [|split].
  - rewrite Hval. destruct (oflags mod 4 =? 0) eqn:Hm.
    + apply Z.eqb_eq in Hm. tauto.
    + apply Z.eqb_neq in Hm. split; [discriminate | contradiction].
  - rewrite Hval. destruct (oflags mod 4 =? 0) eqn:Hm.
    + apply Z.eqb_eq in Hm. split; [discriminate | contradiction].
    + apply Z.eqb_neq in Hm. tauto.
  - intros n. unfold sysmem_open. rewrite !land_accmode.
    rewrite Z.mul_comm, Z_mod_plus_full. reflexivity.
Qed.

(** What [stat_umm] does for an attached caller, in one equation. *)
Lemma stat_umm_eq p d u_stat u k :
  load (fd_target p d) k = Some u ->
  stat_umm (Some p) (Some d) u_stat k =
    let r := fd_target p d in
    let st := {| size := xnheap_get_size (heap u);
                 free := xnheap_get_free (heap u) |} in
    let e := rtdm_safe_copy_to_user (Some d) u_stat st in
    Ret e (logs [ev_xnlock_get (Some r); ev_xnlock_put (Some r);
                 ev_copy_to_user u_stat st e] k).
Proof.
  intros Hl. unfold stat_umm.
  rewrite (bind_ret _ _ _ _ _ (umm_from_fd_attached p d k)).
  unfold bind at 1, emit at 1.
  erewrite bind_ret by (apply deref_some; rewrite load_log; exact Hl).
  reflexivity.
Qed.

(** X2. A stat request on a memory device, from an attached caller whose
    region is live, takes and releases the lock of the heap of the region
    the descriptor stands for (the caller's private region for minor
    [UMM_PRIVATE], the shared region otherwise), then copies to the caller
    the record holding the size and the free bytes of that heap, and
    returns what the copy returned; the state is otherwise unchanged.
    Every other request code is refused with [-EINVAL] and nothing is
    called. *)
Theorem do_umm_ioctls_stat p d request arg u k :
  load (fd_target p d) k = Some u ->
  let r := fd_target p d in
  let st := {| size := xnheap_get_size (heap u);
               free := xnheap_get_free (heap u) |} in
  let e := rtdm_safe_copy_to_user (Some d) arg st in
  (request = MEMDEV_RTIOC_STAT ->
   do_umm_ioctls (Some p) (Some d) request arg k =
     Ret e (logs [ev_xnlock_get (Some r); ev_xnlock_put (Some r);
                  ev_copy_to_user arg st e] k)) /\
  (request <> MEMDEV_RTIOC_STAT ->
   do_umm_ioctls (Some p) (Some d) request arg k = Ret (- EINVAL) k).
Proof.
  intros Hl r st e. unfold do_umm_ioctls. split.
  - intros ->. rewrite Z.eqb_refl. apply (stat_umm_eq _ _ _ _ _ Hl).
  - intros Hne. apply Z.eqb_neq in Hne. rewrite Hne. reflexivity.
Qed.

(** The calls of a request that returns: none, or the lock of one heap
    taken and released, then the copy to the caller. *)
Lemma do_umm_ioctls_outcome current fd request arg k :
  exists es,
    (do_umm_ioctls current fd request arg k
       = Oops (logs es k) \/
     exists e, do_umm_ioctls current fd request arg k = Ret e (logs es k) /\
               (es = [] \/
                exists l st, es = [ev_xnlock_get l; ev_xnlock_put l;
                                   ev_copy_to_user arg st e])).
Proof.
  unfold do_umm_ioctls.
  destruct (request =? MEMDEV_RTIOC_STAT);
    [|exists []; right; exists (- EINVAL); split; [reflexivity | left; reflexivity]].
  destruct current as [p|];
    [|exists []; right; exists (- ENODEV); split; [reflexivity | left; reflexivity]].
  destruct fd as [d|]; [|exists []; left; reflexivity].
  destruct (load (fd_target p d) k) as [u|] eqn:Hl.
  - rewrite (stat_umm_eq _ _ _ _ _ Hl). cbv zeta.
    eexists. right. eexists. split; [reflexivity|].
    right. do 2 eexists. reflexivity.
  - exists [ev_xnlock_get (Some (fd_target p d))]. left.
    unfold stat_umm.
    rewrite (bind_ret _ _ _ _ _ (umm_from_fd_attached p d k)).
    unfold bind at 1, emit at 1. unfold bind, deref.
    rewrite load_log, Hl. reflexivity.
Qed.

Lemma do_sysmem_ioctls_outcome fd request arg k :
  exists es e,
    do_sysmem_ioctls fd request arg k = Ret e (logs es k) /\
    (es = [] \/
     exists l st, es = [ev_xnlock_get l; ev_xnlock_put l;
                        ev_copy_to_user arg st e]).
Proof.
  unfold do_sysmem_ioctls. destruct (request =? MEMDEV_RTIOC_STAT).
  - set (st := {| size := xnheap_get_size (steely_heap k);
                  free := xnheap_get_free (steely_heap k) |}).
    exists [ev_xnlock_get None; ev_xnlock_put None;
            ev_copy_to_user arg st (rtdm_safe_copy_to_user fd arg st)],
           (rtdm_safe_copy_to_user fd arg st).
    split; [reflexivity|]. right. exists None, st. reflexivity.
  - exists [], (- EINVAL). split; [reflexivity | left; reflexivity].
Qed.

Lemma lock_eqb_refl l : lock_eqb l l = true.
Proof.
  destruct l as [[|p]|]; cbn; [reflexivity | apply Nat.eqb_refl | reflexivity].
Qed.

(** The discipline tells the locks apart: releasing another lock than the
    one taken breaks it, and so does copying with the lock held. *)
Example locks_balanced_names_the_lock st :
  locks_balanced [] [ev_xnlock_get (Some kernel_ppd_umm); ev_xnlock_put None;
                     ev_copy_to_user 0 st 0] = false /\
  locks_balanced [] [ev_xnlock_get None; ev_xnlock_put None;
                     ev_copy_to_user 0 st 0] = true /\
  locks_balanced [] [ev_xnlock_get None; ev_copy_to_user 0 st 0;
                     ev_xnlock_put None] = false.
Proof. repeat split. Qed.

(** X3. Requests are read-only and keep the lock discipline.  Whatever
    the caller, descriptor, request code and argument, a request on either
    device leaves every region, the system heap, the vDSO pointer and the
    host's memory as they were, also when it faults: it only adds calls to
    the log.  A request that returns has made no call at all, or has taken
    one lock, released that very lock, and then copied to the caller: the
    lock it released is the lock it took, and it copied with no lock
    held. *)
Theorem requests_are_read_only current fd request arg k :
  (forall k',
     k' = final (do_umm_ioctls current fd request arg k) \/
     k' = final (do_sysmem_ioctls fd request arg k) ->
     steely_kernel_ppd k' = steely_kernel_ppd k /\
     sys_ppd k' = sys_ppd k /\
     steely_heap k' = steely_heap k /\
     nkvdso k' = nkvdso k /\
     vm_areas k' = vm_areas k /\
     words k' = words k) /\
  (forall e k',
     do_umm_ioctls current fd request arg k = Ret e k' \/
     do_sysmem_ioctls fd request arg k = Ret e k' ->
     exists es,
       calls k' = calls k ++ es /\
       (es = [] \/
        exists l st, es = [ev_xnlock_get l; ev_xnlock_put l;
                           ev_copy_to_user arg st e]) /\
       locks_balanced [] es = true).
Proof.
  assert (Hbal : forall e es,
             es = [] \/
             (exists l st, es = [ev_xnlock_get l; ev_xnlock_put l;
                                 ev_copy_to_user arg st e]) ->
             locks_balanced [] es = true).
  { intros e es [-> | (l & st & ->)]; [reflexivity|].
    cbn. rewrite lock_eqb_refl. reflexivity. }
  destruct (do_sysmem_ioctls_outcome fd request arg k)
    as (es2 & e2 & Hsys & Hd2).
  destruct (do_umm_ioctls_outcome current fd request arg k)
    as (es1 & [Hu | (e1 & Hu & Hd1)]).
  - split.
    + intros k' [-> | ->]; [rewrite Hu | rewrite Hsys]; apply logs_frame.
    + intros e k' [Hr | Hr].
      * rewrite Hu in Hr. discriminate Hr.
      * rewrite Hsys in Hr. apply Ret_eq in Hr. destruct Hr as [<- <-].
        exists es2. split; [apply calls_logs|].
        split; [exact Hd2 | exact (Hbal _ _ Hd2)].
  - split.
    + intros k' [-> | ->]; [rewrite Hu | rewrite Hsys]; apply logs_frame.
    + intros e k' [Hr | Hr].
      * rewrite Hu in Hr. apply Ret_eq in Hr. destruct Hr as [<- <-].
        exists es1. split; [apply calls_logs|].
        split; [exact Hd1 | exact (Hbal _ _ Hd1)].
      * rewrite Hsys in Hr. apply Ret_eq in Hr. destruct Hr as [<- <-].
        exists es2. split; [apply calls_logs|].
        split; [exact Hd2 | exact (Hbal _ _ Hd2)].
Qed.

(** X4. Without an MMU, [umm_get_unmapped_area] never changes the state.
    A detached caller gets the error [-ENODEV] as an unsigned long.  An
    attached caller asking for page offset 0 of a live region gets the
    base address of the region's heap; asking for any other page offset it
    gets that offset in bytes, truncated to an unsigned long: a multiple
    of the page size that depends neither on the region nor on the
    length asked for. *)
Theorem umm_get_unmapped_area_answers current fd len pgoff flags k :
  0 <= PAGE_SHIFT <= BITS_PER_LONG ->
  final (umm_get_unmapped_area current fd len pgoff flags k) = k /\
  (current = None ->
   umm_get_unmapped_area current fd len pgoff flags k
     = Ret ((- ENODEV) mod 2 ^ BITS_PER_LONG) k) /\
  (forall p d u,
     current = Some p -> fd = Some d -> load (fd_target p d) k = Some u ->
     pgoff = 0 ->
     umm_get_unmapped_area current fd len pgoff flags k
       = Ret (xnheap_get_membase (heap u)) k) /\
  (forall p d,
     current = Some p -> fd = Some d -> pgoff <> 0 ->
     exists a,
       umm_get_unmapped_area current fd len pgoff flags k = Ret a k /\
       a = (pgoff * PAGE_SIZE) mod 2 ^ BITS_PER_LONG /\
       a mod PAGE_SIZE = 0 /\ 0 <= a < 2 ^ BITS_PER_LONG).
Proof.
  intros Hshift. split; [|split; [|split]].
  - unfold umm_get_unmapped_area.
    destruct current as [p|]; [|reflexivity].
    destruct fd as [d|]; [|reflexivity].
    rewrite (bind_ret _ _ _ _ _ (umm_from_fd_attached p d k)).
    destruct (pgoff =? 0); [|reflexivity].
    unfold bind, deref. destruct (load (fd_target p d) k); reflexivity.
  - intros ->. reflexivity.
  - intros p d u -> -> Hl ->. unfold umm_get_unmapped_area.
    rewrite (bind_ret _ _ _ _ _ (umm_from_fd_attached p d k)).
    cbn [Z.eqb].
    rewrite (bind_ret _ _ _ _ _ (deref_some _ _ _ Hl)). reflexivity.
  - intros p d -> -> Hne. unfold umm_get_unmapped_area.
    rewrite (bind_ret _ _ _ _ _ (umm_from_fd_attached p d k)).
    apply Z.eqb_neq in Hne. rewrite Hne.
    eexists. split; [reflexivity|].
    rewrite Z.shiftl_mul_pow2 by lia. fold PAGE_SIZE.
    split; [reflexivity|].
    assert (Hp : 0 < PAGE_SIZE) by (apply PAGE_SIZE_pos; lia).
    assert (Hb : 2 ^ BITS_PER_LONG =
                 PAGE_SIZE * 2 ^ (BITS_PER_LONG - PAGE_SHIFT)).
    { unfold PAGE_SIZE. rewrite <- Z.pow_add_r by lia. f_equal. lia. }
    assert (Hq : 0 < 2 ^ (BITS_PER_LONG - PAGE_SHIFT))
      by (apply Z.pow_pos_nonneg; lia).
    split.
    + rewrite Hb. rewrite (Z.mul_comm pgoff PAGE_SIZE).
      rewrite Z.mul_mod_distr_l by lia.
      rewrite Z.mul_comm. apply Z_mod_mult.
    + apply Z.mod_pos_bound. rewrite Hb. nia.
Qed.

End Requests.

Lemma do_umm_ioctls_stat_witness :
  let k := live_kernel good_config 1 in
  load (H:=good_host) (fd_target 7%nat private_fd) k
    = Some (private_page_umm good_config) /\
  do_umm_ioctls (H:=good_host) (Some 7%nat) (Some private_fd) 0 4096 k =
    Ret 0 (logs [ev_xnlock_get (Some (process_ppd_umm 7%nat));
                 ev_xnlock_put (Some (process_ppd_umm 7%nat));
                 ev_copy_to_user 4096 {| size := 4096; free := 4096 |} 0] k) /\
  do_umm_ioctls (H:=good_host) (Some 7%nat) (Some private_fd) 5 4096 k
    = Ret (- EINVAL) k.
Proof.
  intros k.
  assert (Hl : load (H:=good_host) (fd_target 7%nat private_fd) k
                 = Some (private_page_umm good_config)) by reflexivity.
  split; [exact Hl|]. split.
  - exact (proj1 (do_umm_ioctls_stat (H:=good_host) 7%nat private_fd 0 4096
                    _ k Hl) eq_refl).
  - apply (proj2 (do_umm_ioctls_stat (H:=good_host) 7%nat private_fd 5 4096
                    _ k Hl)).
    discriminate.
Defined.

Lemma umm_get_unmapped_area_answers_witness :
  0 <= PAGE_SHIFT (Host:=good_host) <= BITS_PER_LONG (Host:=good_host) /\
  umm_get_unmapped_area (H:=good_host) (Some 7%nat) (Some shared_fd) 4096 0 0
    (live_kernel good_config 1) = Ret 1048576 (live_kernel good_config 1) /\
  exists a,
    umm_get_unmapped_area (H:=good_host) (Some 7%nat) (Some shared_fd) 4096 3 0
      (live_kernel good_config 1) = Ret a (live_kernel good_config 1) /\
    a = 12288.
Proof.
  assert (Hs : 0 <= PAGE_SHIFT (Host:=good_host)
               <= BITS_PER_LONG (Host:=good_host)) by (cbn; lia).
  split; [exact Hs|].
  destruct (umm_get_unmapped_area_answers (H:=good_host) (Some 7%nat)
              (Some shared_fd) 4096 0 0 (live_kernel good_config 1) Hs)
    as (_ & _ & Hzero & _).
  destruct (umm_get_unmapped_area_answers (H:=good_host) (Some 7%nat)
              (Some shared_fd) 4096 3 0 (live_kernel good_config 1) Hs)
    as (_ & _ & _ & Hoff).
  split.
  - exact (Hzero 7%nat shared_fd (one_page_umm good_config 1)
             eq_refl eq_refl eq_refl eq_refl).
  - destruct (Hoff 7%nat shared_fd eq_refl eq_refl ltac:(discriminate))
      as (a & Hrun & Ha & _).
    exists a. split; [exact Hrun | exact Ha].
Defined.

(** *** Sessions, further *)

Section Ledgers.

Context `{H : Host}.

Open Scope kernel_scope.

Lemma umm_ref_eqb_eq a b : umm_ref_eqb a b = true <-> a = b.
Proof.
  destruct a as [|p], b as [|q]; cbn; split; intros Heq;
    try reflexivity; try discriminate.
  - apply Nat.eqb_eq in Heq. congruence.
  - injection Heq as ->. apply Nat.eqb_refl.
Qed.

Lemma umm_ref_eqb_refl a : umm_ref_eqb a a = true.
Proof. apply umm_ref_eqb_eq. reflexivity. Qed.

Lemma umm_ref_eqb_neq a b : umm_ref_eqb a b = false <-> a <> b.
Proof.
  split.
  - intros Hf Heq. apply umm_ref_eqb_eq in Heq. congruence.
  - intros Hne. destruct (umm_ref_eqb a b) eqn:He; [|reflexivity].
    apply umm_ref_eqb_eq in He. contradiction.
Qed.

Lemma bound_to_eq r v : bound_to r v = true <-> vm_private_data v = Some r.
Proof.
  unfold bound_to. destruct (vm_private_data v) as [r'|].
  - rewrite umm_ref_eqb_eq. split; congruence.
  - split; discriminate.
Qed.

Lemma store_load_id r u k : load r k = Some u -> store r u k = k.
Proof.
  destruct r as [|p], k; cbn; intros Hl.
  - injection Hl as ->. reflexivity.
  - unfold store; cbn. f_equal. apply insert_id. exact Hl.
Qed.

Lemma set_refcount_set_refcount c c' u :
  set_refcount c (set_refcount c' u) = set_refcount c u.
Proof. reflexivity. Qed.

Lemma set_refcount_id u : set_refcount (refcount u) u = u.
Proof. destruct u. reflexivity. Qed.

Lemma destroy_calls_app r es es' :
  destroy_calls r (es ++ es') = (destroy_calls r es + destroy_calls r es')%nat.
Proof.
  induction es as [|e es IH]; [reflexivity|].
  destruct e; cbn; rewrite ?IH; lia.
Qed.

Lemma blocks_held_app es es' :
  blocks_held (es ++ es') = blocks_held es + blocks_held es'.
Proof.
  induction es as [|e es IH]; [reflexivity|].
  destruct e; cbn; rewrite ?IH; lia.
Qed.

Lemma logs_app es es' k : logs (es ++ es') k = logs es' (logs es k).
Proof. unfold logs. apply fold_left_app. Qed.

Lemma drop_area_logs base es k :
  drop_area base (logs es k) = logs es (drop_area base k).
Proof.
  revert k. induction es as [|e es IH]; intros k; [reflexivity|].
  change (logs (e :: es) k) with (logs es (log e k)).
  rewrite IH, drop_area_log. reflexivity.
Qed.

Lemma store_logs r u es k : store r u (logs es k) = logs es (store r u k).
Proof.
  revert k. induction es as [|e es IH]; intros k; [reflexivity|].
  change (logs (e :: es) k) with (logs es (log e k)).
  rewrite IH, store_log. reflexivity.
Qed.

(** Every run of [umm_mmap], with the calls it made: a run that does not
    return 0 has left the state as it was apart from an attempt to bind. *)
Lemma umm_mmap_outcomes current fd vma k :
  (exists es,
     final (umm_mmap current fd vma k) = logs es k /\
     (forall r, destroy_calls r es = 0%nat) /\ blocks_held es = 0 /\
     forall v k', umm_mmap current fd vma k <> Ret (0, v) k')
  \/
  (exists r u,
     umm_from_fd current fd k = Ret (Some r) k /\
     load r k = Some u /\
     umm_mmap current fd vma k =
       Ret (0, bind_vma (Some r) vma)
         (logs [ev_mmap_vmem (bind_vma (Some r) vma)
                  (xnheap_get_membase (heap u)) 0;
                ev_atomic_inc r]
            (store r (set_refcount (int32 (refcount u + 1)) u) k))).
Proof.
  destruct (umm_mmap_cases current fd vma k)
    as [[Hfail _] | (r & u & Hres & Hl & _ & _ & Hrun)].
  - left. destruct current as [p|], fd as [d|];
      try (exists []; repeat split; try exact Hfail; reflexivity).
    destruct (load (fd_target p d) k) as [u|] eqn:Hl.
    + pose proof (umm_mmap_eq p d vma u k Hl) as Heq. cbv zeta in Heq.
      destruct (negb (vma_len vma =? xnheap_get_size (heap u))).
      * exists []. rewrite Heq. repeat split; try reflexivity.
        rewrite <- Heq. exact Hfail.
      * destruct (negb (rtdm_mmap_vmem (bind_vma (Some (fd_target p d)) vma)
                          (xnheap_get_membase (heap u)) =? 0)) eqn:He.
        -- eexists. rewrite Heq. cbn [final].
           split; [reflexivity|]. split; [reflexivity|].
           split; [reflexivity|]. rewrite <- Heq. exact Hfail.
        -- exfalso. apply negb_false_iff, Z.eqb_eq in He.
           rewrite He in Heq. cbn [Z.eqb negb] in Heq.
           eapply Hfail. exact Heq.
    + exists []. split; [|repeat split; try exact Hfail].
      unfold umm_mmap.
      rewrite (bind_ret _ _ _ _ _ (umm_from_fd_attached p d k)).
      unfold bind, deref. rewrite Hl. reflexivity.
  - right. exists r, u. repeat split; assumption.
Qed.

(** What opening a session leaves behind. *)
Lemma open_session_effect q k v k1 :
  open_session q k = Ret v k1 ->
  exists es,
    (forall r, destroy_calls r es = 0%nat) /\ blocks_held es = 0 /\
    match v with
    | None => k1 = logs es k
    | Some v' =>
        exists r u,
          vm_private_data v' = Some r /\ load r k = Some u /\
          k1 = logs es (store r (set_refcount (int32 (refcount u + 1)) u) k)
    end.
Proof.
  intros Hrun. destruct q as [current fd vma | vma]; cbn in Hrun.
  - unfold bind, pure in Hrun.
    destruct (umm_mmap_outcomes current fd vma k)
      as [(es & Hfin & Hd & Hb & Hfail) | (r & u & _ & Hl & Hok)].
    + destruct (umm_mmap current fd vma k) as [[e v0] k0|] eqn:Hm;
        [|discriminate].
      cbn [fst snd] in Hrun. destruct (e =? 0) eqn:He.
      * apply Z.eqb_eq in He. subst e. exfalso. exact (Hfail v0 k0 eq_refl).
      * injection Hrun as <- <-. exists es. cbn [final] in Hfin.
        split; [exact Hd|]. split; [exact Hb | exact Hfin].
    + rewrite Hok in Hrun. cbn [fst snd Z.eqb] in Hrun.
      injection Hrun as <- <-.
      exists [ev_mmap_vmem (bind_vma (Some r) vma)
                (xnheap_get_membase (heap u)) 0; ev_atomic_inc r].
      split; [intros r0; reflexivity|]. split; [reflexivity|].
      exists r, u. split; [reflexivity|]. split; [exact Hl | reflexivity].
  - unfold bind, pure, umm_vmopen in Hrun.
    destruct (vm_private_data vma) as [r|] eqn:Hv; [|discriminate].
    destruct (load r k) as [u|] eqn:Hl.
    + rewrite (atomic_inc_eq _ _ _ Hl) in Hrun. injection Hrun as <- <-.
      exists [ev_atomic_inc r]. split; [intros r0; reflexivity|].
      split; [reflexivity|]. exists r, u.
      split; [exact Hv|]. split; [exact Hl | reflexivity].
    + unfold atomic_inc, bind, deref in Hrun. rewrite Hl in Hrun.
      discriminate.
Qed.

(** What closing a view leaves behind. *)
Lemma umm_vmclose_effect v k k1 :
  umm_vmclose v k = Ret tt k1 ->
  exists r u,
    vm_private_data v = Some r /\ load r k = Some u /\
    k1 =
      if int32 (refcount u - 1) =? 0
      then logs ([ev_atomic_dec_and_test r true; ev_xnheap_destroy r;
                  ev_vfree (xnheap_get_membase (xnheap_destroy (heap u)))]
                 ++ match release u with
                    | Some f => [ev_release f r]
                    | None => []
                    end)
             (store r (set_heap (xnheap_destroy (heap u))
                         (set_refcount (int32 (refcount u - 1)) u))
                (drop_area (xnheap_get_membase (xnheap_destroy (heap u))) k))
      else logs [ev_atomic_dec_and_test r false]
             (store r (set_refcount (int32 (refcount u - 1)) u) k).
Proof.
  unfold umm_vmclose. intros Hrun.
  destruct (vm_private_data v) as [r|] eqn:Hv; [|discriminate].
  destruct (load r k) as [u|] eqn:Hl.
  - rewrite (steely_umm_destroy_eq _ _ _ Hl) in Hrun. injection Hrun as <-.
    exists r, u. repeat split. exact Hl.
  - unfold steely_umm_destroy, atomic_dec_and_test, bind, deref in Hrun.
    rewrite Hl in Hrun. discriminate.
Qed.

(** X5. Regions are isolated by [umm_mmap].  A request of process [p],
    whatever its outcome, never changes the private region of another
    process; on a descriptor with minor [UMM_PRIVATE] it never changes the
    shared region; on any other descriptor it never changes a private
    region at all. *)
Theorem umm_mmap_isolation p d vma k :
  let k' := final (umm_mmap (Some p) (Some d) vma k) in
  (forall q, q <> p -> load (process_ppd_umm q) k' = load (process_ppd_umm q) k) /\
  (minor d = UMM_PRIVATE -> load kernel_ppd_umm k' = load kernel_ppd_umm k) /\
  (minor d <> UMM_PRIVATE ->
   forall q, load (process_ppd_umm q) k' = load (process_ppd_umm q) k).
Proof.
  intros k'. subst k'.
  destruct (umm_mmap_cases (Some p) (Some d) vma k)
    as [[_ Hsame] | (r & u & Hres & Hl & _ & _ & Hrun)].
  - repeat split; intros; apply Hsame.
  - rewrite umm_from_fd_attached in Hres. injection Hres as <-.
    rewrite Hrun. cbn [final]. unfold fd_target in *.
    split; [|split].
    + intros q Hne. rewrite load_logs. apply load_store_other.
      destruct (minor d =? UMM_PRIVATE); congruence.
    + intros Hm. apply Z.eqb_eq in Hm. rewrite Hm in *.
      rewrite load_logs. apply load_store_other. discriminate.
    + intros Hm q. apply Z.eqb_neq in Hm. rewrite Hm in *.
      rewrite load_logs. apply load_store_other. discriminate.
Qed.

(** X6. Opening a session and closing the view it returned is a round
    trip.  If a request opens a view of a region whose count is neither 0
    nor [INT_MAX], closing that view succeeds, leaves every region as it
    was before the request, and the heap of the region is not destroyed:
    the close is a bare decrement. *)
Theorem open_close_round_trip q k v k1 r u :
  open_session q k = Ret (Some v) k1 ->
  vm_private_data v = Some r -> load r k = Some u ->
  INT_MIN <= refcount u < INT_MAX -> refcount u <> 0 ->
  exists k2,
    umm_vmclose v k1 = Ret tt k2 /\
    (forall r', load r' k2 = load r' k) /\
    calls k2 = calls k1 ++ [ev_atomic_dec_and_test r false].
Proof.
  intros Hopen Hv Hl Hrange Hnz.
  destruct (open_session_effect _ _ _ _ Hopen)
    as (es & _ & _ & r0 & u0 & Hv0 & Hl0 & ->).
  assert (r0 = r) by congruence. subst r0.
  assert (u0 = u) by congruence. subst u0.
  assert (Hinc : int32 (refcount u + 1) = refcount u + 1).
  { apply int32_small. unfold INT_MIN, INT_MAX in *. lia. }
  rewrite Hinc.
  assert (Hl1 : load r (logs es (store r (set_refcount (refcount u + 1) u) k))
                = Some (set_refcount (refcount u + 1) u)).
  { rewrite load_logs. apply load_store_same. }
  unfold umm_vmclose. rewrite Hv.
  rewrite (steely_umm_destroy_eq _ _ _ Hl1). cbn [refcount set_refcount].
  replace (refcount u + 1 - 1) with (refcount u) by lia.
  rewrite (int32_small (refcount u))
    by (unfold INT_MIN, INT_MAX in *; lia).
  apply Z.eqb_neq in Hnz. rewrite Hnz.
  eexists. split; [reflexivity|]. split.
  - intros r'. rewrite load_logs, store_logs, load_logs, store_store.
    rewrite set_refcount_set_refcount, set_refcount_id.
    rewrite (store_load_id _ _ _ Hl). reflexivity.
  - rewrite calls_logs, calls_store. reflexivity.
Qed.

End Ledgers.

Lemma umm_mmap_isolation_witness :
  let k := live_kernel good_config 1 in
  let k' := final (umm_mmap (H:=good_host) (Some 7%nat) (Some private_fd)
                     one_page_vma k) in
  refcount_at (process_ppd_umm 7%nat) k' = Some 2 /\
  load kernel_ppd_umm k' = load kernel_ppd_umm k /\
  load (process_ppd_umm 8%nat) k' = load (process_ppd_umm 8%nat) k.
Proof.
  intros k k'.
  destruct (umm_mmap_isolation (H:=good_host) 7%nat private_fd one_page_vma k)
    as (Hother & Hshared & _).
  split; [reflexivity|]. split.
  - apply Hshared. reflexivity.
  - apply Hother. discriminate.
Defined.

Lemma open_close_round_trip_witness :
  let k := live_kernel good_config 1 in
  let v := bind_vma (H:=good_host) (Some kernel_ppd_umm) one_page_vma in
  exists k1 k2,
    open_session (H:=good_host)
      (open_mmap (Some 7%nat) (Some shared_fd) one_page_vma) k
      = Ret (Some v) k1 /\
    umm_vmclose v k1 = Ret tt k2 /\
    (forall r', load r' k2 = load r' k) /\
    refcount_at kernel_ppd_umm k1 = Some 2.
Proof.
  intros k v.
  destruct (open_session (H:=good_host)
              (open_mmap (Some 7%nat) (Some shared_fd) one_page_vma) k)
    as [[v1|] k1|] eqn:Hopen; try (vm_compute in Hopen; discriminate).
  assert (Hv : v1 = v) by (vm_compute in Hopen; injection Hopen as <- _;
                           reflexivity).
  subst v1.
  assert (Hc : refcount_at kernel_ppd_umm k1 = Some 2).
  { vm_compute in Hopen. injection Hopen as <-. reflexivity. }
  destruct (open_close_round_trip (H:=good_host) _ k v k1 kernel_ppd_umm
              (one_page_umm good_config 1) Hopen eq_refl eq_refl)
    as (k2 & Hclose & Hsame & _).
  - cbn. unfold INT_MIN, INT_MAX. lia.
  - cbn. discriminate.
  - exists k1, k2. split; [reflexivity|]. split; [exact Hclose|].
    split; [exact Hsame | exact Hc].
Defined.

(** *** Interleaved sessions and release order *)

Section Interleavings.

Context `{H : Host}.

Open Scope kernel_scope.

Lemma sessions_on_app r vs vs' :
  sessions_on r (vs ++ vs') = (sessions_on r vs + sessions_on r vs')%nat.
Proof.
  induction vs as [|v vs IH]; [reflexivity|].
  cbn [app sessions_on]. rewrite IH. lia.
Qed.

Lemma sessions_on_delete r vs :
  forall i v,
    vs !! i = Some v ->
    sessions_on r vs =
      ((if bound_to r v then 1 else 0) + sessions_on r (delete i vs))%nat.
Proof.
  induction vs as [|w vs IH]; intros i v Hi; [discriminate|].
  destruct i as [|i]; cbn in Hi.
  - injection Hi as ->. reflexivity.
  - change (delete (S i) (w :: vs)) with (w :: delete i vs).
    cbn [sessions_on]. rewrite (IH i v Hi). lia.
Qed.

Lemma refcount_at_heap_store r r0 u0 c es k :
  load r0 k = Some u0 ->
  (r0 = r ->
   refcount_at r (logs es (store r0 (set_refcount c u0) k)) = Some c) /\
  (r0 <> r ->
   refcount_at r (logs es (store r0 (set_refcount c u0) k))
     = refcount_at r k) /\
  heap <$> load r (logs es (store r0 (set_refcount c u0) k))
    = heap <$> load r k.
Proof.
  intros Hl. split; [|split].
  - intros <-. rewrite refcount_at_logs. apply refcount_at_store_same.
  - intros Hne. rewrite refcount_at_logs.
    apply refcount_at_store_other. exact Hne.
  - rewrite load_logs. destruct (umm_ref_eqb r0 r) eqn:He.
    + apply umm_ref_eqb_eq in He. subst r0.
      rewrite load_store_same, Hl. reflexivity.
    + apply umm_ref_eqb_neq in He. rewrite load_store_other by exact He.
      reflexivity.
Qed.

Ltac use_sessions_ih IH Hrun :=
  match type of Hrun with
  | run_sessions _ ?o ?k1 = Ret ?o' ?k' =>
      destruct (IH o k1 o' k') as (Hc' & Hd' & Hh')
  end.

Lemma run_sessions_invariant r ops :
  forall opened k opened' k',
    refcount_at r k = Some (1 + Z.of_nat (sessions_on r opened)) ->
    1 + Z.of_nat (sessions_on r opened) + Z.of_nat (length ops) <= INT_MAX ->
    run_sessions ops opened k = Ret opened' k' ->
    refcount_at r k' = Some (1 + Z.of_nat (sessions_on r opened')) /\
    destroy_calls r (calls k') = destroy_calls r (calls k) /\
    heap <$> load r k' = heap <$> load r k.
Proof.
  induction ops as [|op ops IH]; intros opened k opened' k' Hc Hbound Hrun.
  - cbn in Hrun. injection Hrun as <- <-. repeat split. exact Hc.
  - cbn [length] in Hbound. destruct op as [q | i]; cbn [run_sessions] in Hrun.
    + unfold bind in Hrun.
      destruct (open_session q k) as [v k1|] eqn:Hopen; [|discriminate].
      destruct (open_session_effect _ _ _ _ Hopen) as (es & Hd & _ & Hk1).
      destruct v as [v|].
      * destruct Hk1 as (r0 & u0 & Hv & Hl0 & ->).
        destruct (refcount_at_heap_store r r0 u0
                    (int32 (refcount u0 + 1)) es k Hl0)
          as (Hsame & Hother & Hheap).
        destruct (umm_ref_eqb r0 r) eqn:He.
        -- apply umm_ref_eqb_eq in He. subst r0.
           assert (Hb : bound_to r v = true) by (apply bound_to_eq; exact Hv).
           assert (Hu : refcount u0 = 1 + Z.of_nat (sessions_on r opened)).
           { unfold refcount_at in Hc. rewrite Hl0 in Hc. cbn in Hc.
             congruence. }
           use_sessions_ih IH Hrun.
           ++ rewrite (Hsame eq_refl), sessions_on_app. cbn [sessions_on].
              rewrite Hb, Hu, int32_small;
                [f_equal; lia | unfold INT_MIN, INT_MAX in *; lia].
           ++ rewrite sessions_on_app. cbn [sessions_on]. rewrite Hb. lia.
           ++ exact Hrun.
           ++ split; [exact Hc'|]. split.
              ** rewrite Hd', calls_logs, calls_store, destroy_calls_app, Hd.
                 lia.
              ** rewrite Hh'. exact Hheap.
        -- apply umm_ref_eqb_neq in He.
           assert (Hb : bound_to r v = false).
           { destruct (bound_to r v) eqn:Hb; [|reflexivity].
             apply bound_to_eq in Hb. congruence. }
           use_sessions_ih IH Hrun.
           ++ rewrite (Hother He), sessions_on_app. cbn [sessions_on].
              rewrite Hb, Hc. f_equal. lia.
           ++ rewrite sessions_on_app. cbn [sessions_on]. rewrite Hb. lia.
           ++ exact Hrun.
           ++ split; [exact Hc'|]. split.
              ** rewrite Hd', calls_logs, calls_store, destroy_calls_app, Hd.
                 lia.
              ** rewrite Hh'. exact Hheap.
      * subst k1.
        use_sessions_ih IH Hrun.
        -- rewrite refcount_at_logs. exact Hc.
        -- lia.
        -- exact Hrun.
        -- split; [exact Hc'|]. split.
           ++ rewrite Hd', calls_logs, destroy_calls_app, Hd. lia.
           ++ rewrite Hh', load_logs. reflexivity.
    + destruct (opened !! i) as [v|] eqn:Hi.
      * unfold bind in Hrun.
        destruct (umm_vmclose v k) as [[] k1|] eqn:Hclose; [|discriminate].
        destruct (umm_vmclose_effect _ _ _ Hclose)
          as (r0 & u0 & Hv & Hl0 & Hk1).
        pose proof (sessions_on_delete r opened i v Hi) as Hdel.
        destruct (umm_ref_eqb r0 r) eqn:He.
        -- apply umm_ref_eqb_eq in He. subst r0.
           assert (Hb : bound_to r v = true) by (apply bound_to_eq; exact Hv).
           rewrite Hb in Hdel.
           assert (Hu : refcount u0 = 1 + Z.of_nat (sessions_on r opened)).
           { unfold refcount_at in Hc. rewrite Hl0 in Hc. cbn in Hc.
             congruence. }
           assert (Hdec : int32 (refcount u0 - 1)
                          = 1 + Z.of_nat (sessions_on r (delete i opened))).
           { rewrite Hu, int32_small;
               unfold INT_MIN, INT_MAX in *; lia. }
           rewrite Hdec in Hk1.
           assert (Hnz : (1 + Z.of_nat (sessions_on r (delete i opened)) =? 0)
                         = false) by (apply Z.eqb_neq; lia).
           rewrite Hnz in Hk1. subst k1.
           destruct (refcount_at_heap_store r r u0
                       (1 + Z.of_nat (sessions_on r (delete i opened)))
                       [ev_atomic_dec_and_test r false] k Hl0)
             as (Hsame & _ & Hheap).
           use_sessions_ih IH Hrun.
           ++ exact (Hsame eq_refl).
           ++ lia.
           ++ exact Hrun.
           ++ split; [exact Hc'|]. split.
              ** rewrite Hd', calls_logs, calls_store, destroy_calls_app.
                 cbn. lia.
              ** rewrite Hh'. exact Hheap.
        -- assert (Hne : r0 <> r) by (apply umm_ref_eqb_neq; exact He).
           assert (Hb : bound_to r v = false).
           { destruct (bound_to r v) eqn:Hb; [|reflexivity].
             apply bound_to_eq in Hb. congruence. }
           rewrite Hb in Hdel.
           assert (Her : umm_ref_eqb r r0 = false).
           { apply umm_ref_eqb_neq. congruence. }
           assert (Hk1' : refcount_at r k1 = refcount_at r k /\
                          destroy_calls r (calls k1) = destroy_calls r (calls k) /\
                          heap <$> load r k1 = heap <$> load r k).
           { subst k1. destruct (int32 (refcount u0 - 1) =? 0).
             - split; [|split].
               + rewrite refcount_at_logs.
                 rewrite refcount_at_store_other by exact Hne.
                 apply refcount_at_drop_area.
               + rewrite calls_logs, calls_store, calls_drop_area,
                   destroy_calls_app.
                 cbn [destroy_calls app]. rewrite Her.
                 destruct (release u0); cbn; lia.
               + rewrite load_logs, load_store_other by exact Hne.
                 rewrite load_drop_area. reflexivity.
             - split; [|split].
               + rewrite refcount_at_logs.
                 apply refcount_at_store_other. exact Hne.
               + rewrite calls_logs, calls_store, destroy_calls_app.
                 cbn. lia.
               + rewrite load_logs, load_store_other by exact Hne.
                 reflexivity. }
           destruct Hk1' as (Hc1 & Hd1 & Hh1).
           use_sessions_ih IH Hrun.
           ++ rewrite Hc1, Hc. f_equal. lia.
           ++ lia.
           ++ exact Hrun.
           ++ split; [exact Hc'|]. split; congruence.
      * use_sessions_ih IH Hrun.
        -- exact Hc.
        -- lia.
        -- exact Hrun.
        -- repeat split; assumption.
Qed.

(** X7. While the registry holds its reference, sessions cannot destroy a
    region.  Start from a region whose count is 1 and run any interleaving
    of fewer than [INT_MAX] opens (mappings or duplicates, on this or any
    other region) and closes of open sessions: whenever the run returns,
    the count of the region is 1 plus the number of its sessions still
    open, its heap is the heap it had, and its heap was never destroyed. *)
Theorem sessions_keep_region_alive r ops k opened k' :
  refcount_at r k = Some 1 ->
  Z.of_nat (length ops) < INT_MAX ->
  run_sessions ops [] k = Ret opened k' ->
  refcount_at r k' = Some (1 + Z.of_nat (sessions_on r opened)) /\
  destroy_calls r (calls k') = destroy_calls r (calls k) /\
  heap <$> load r k' = heap <$> load r k.
Proof.
  intros Hc Hbound Hrun.
  apply (run_sessions_invariant r ops [] k opened k'); cbn [sessions_on].
  - exact Hc.
  - lia.
  - exact Hrun.
Qed.

(** A region that is dead stays dead under further releases: each one is a
    bare decrement. *)
Lemma destroy_times_dead r n :
  forall k u,
    load r k = Some u -> refcount u <= 0 ->
    INT_MIN <= refcount u - Z.of_nat n ->
    destroy_times n (Some r) k =
      Ret tt (logs (repeat (ev_atomic_dec_and_test r false) n)
                (store r (set_refcount (refcount u - Z.of_nat n) u) k)).
Proof.
  induction n as [|n IH]; intros k u Hl Hle Hlo.
  - cbn. unfold pure. rewrite Z.sub_0_r, set_refcount_id.
    rewrite (store_load_id _ _ _ Hl). reflexivity.
  - cbn [destroy_times].
    rewrite (bind_ret _ _ _ _ _ (steely_umm_destroy_eq _ _ _ Hl)).
    assert (Hdec : int32 (refcount u - 1) = refcount u - 1).
    { apply int32_small. unfold INT_MIN, INT_MAX in *. lia. }
    rewrite Hdec.
    assert (Hnz : (refcount u - 1 =? 0) = false) by (apply Z.eqb_neq; lia).
    rewrite Hnz.
    rewrite (IH _ (set_refcount (refcount u - 1) u)).
    + cbn [refcount set_refcount]. rewrite store_logs, store_store.
      rewrite set_refcount_set_refcount.
      replace (refcount u - 1 - Z.of_nat n) with (refcount u - Z.of_nat (S n))
        by lia.
      reflexivity.
    + rewrite load_logs. apply load_store_same.
    + cbn. lia.
    + cbn. lia.
Qed.

(** X8. The destructive path runs once, however often the region is
    released afterwards.  From a count of 1, [n + 1] releases in a row
    (with [n] at most [2^31 - 1]) all return; the first destroys the heap,
    hands the block back and calls the release handler if there is one;
    the [n] others only decrement, leaving the count at [- n]. *)
Theorem release_destroys_once r u n k :
  load r k = Some u -> refcount u = 1 -> Z.of_nat n <= INT_MAX ->
  exists k',
    destroy_times (S n) (Some r) k = Ret tt k' /\
    calls k' =
      calls k ++
      [ev_atomic_dec_and_test r true; ev_xnheap_destroy r;
       ev_vfree (xnheap_get_membase (xnheap_destroy (heap u)))] ++
      match release u with Some f => [ev_release f r] | None => [] end ++
      repeat (ev_atomic_dec_and_test r false) n /\
    destroy_calls r (calls k') = S (destroy_calls r (calls k)) /\
    blocks_held (calls k') = blocks_held (calls k) - 1 /\
    refcount_at r k' = Some (- Z.of_nat n).
Proof.
  intros Hl Hone Hn. cbn [destroy_times].
  rewrite (bind_ret _ _ _ _ _ (steely_umm_destroy_eq _ _ _ Hl)).
  rewrite Hone. change (int32 (1 - 1)) with 0. cbn [Z.eqb].
  set (es := [ev_atomic_dec_and_test r true; ev_xnheap_destroy r;
              ev_vfree (xnheap_get_membase (xnheap_destroy (heap u)))] ++
             match release u with Some f => [ev_release f r] | None => [] end).
  set (u1 := set_heap (xnheap_destroy (heap u)) (set_refcount 0 u)).
  rewrite (destroy_times_dead r n _ u1).
  - eexists. split; [reflexivity|].
    assert (Hno : forall m, destroy_calls r
                              (repeat (ev_atomic_dec_and_test r false) m)
                            = 0%nat /\
                            blocks_held
                              (repeat (ev_atomic_dec_and_test r false) m) = 0).
    { induction m as [|m [IH1 IH2]]; split; cbn; auto. }
    assert (Hes : destroy_calls r es = 1%nat /\ blocks_held es = -1).
    { subst es. cbn. rewrite umm_ref_eqb_refl.
      destruct (release u); split; reflexivity. }
    split; [|split; [|split]].
    + rewrite calls_logs, calls_store, calls_logs, calls_store.
      subst es. rewrite <- !app_assoc. reflexivity.
    + rewrite calls_logs, calls_store, calls_logs, calls_store.
      rewrite calls_drop_area.
      rewrite !destroy_calls_app. rewrite (proj1 Hes), (proj1 (Hno n)). lia.
    + rewrite calls_logs, calls_store, calls_logs, calls_store.
      rewrite calls_drop_area.
      rewrite !blocks_held_app. rewrite (proj2 Hes), (proj2 (Hno n)). lia.
    + rewrite refcount_at_logs, refcount_at_store_same. reflexivity.
  - rewrite load_logs. apply load_store_same.
  - cbn. lia.
  - cbn. unfold INT_MIN, INT_MAX in *. lia.
Qed.

(** The last of the sessions of a region that only sessions hold. *)
Lemma close_sessions_last r vs :
  forall k u,
    vs <> [] ->
    Forall (fun v => vm_private_data v = Some r) vs ->
    load r k = Some u ->
    refcount u = Z.of_nat (length vs) ->
    Z.of_nat (length vs) <= INT_MAX ->
    close_sessions vs k =
      Ret tt
        (logs (repeat (ev_atomic_dec_and_test r false) (length vs - 1) ++
               [ev_atomic_dec_and_test r true; ev_xnheap_destroy r;
                ev_vfree (xnheap_get_membase (xnheap_destroy (heap u)))] ++
               match release u with Some f => [ev_release f r] | None => [] end)
           (store r (set_heap (xnheap_destroy (heap u)) (set_refcount 0 u))
              (drop_area (xnheap_get_membase (xnheap_destroy (heap u))) k))).
Proof.
  induction vs as [|v vs IH]; intros k u Hne Hall Hl Hc Hmax;
    [contradiction|].
  inversion Hall as [|? ? Hv Hvs]; subst.
  cbn [close_sessions]. unfold umm_vmclose at 1. rewrite Hv.
  rewrite (bind_ret _ _ _ _ _ (steely_umm_destroy_eq _ _ _ Hl)).
  destruct vs as [|v2 vs].
  - cbn [length] in Hc. rewrite Hc. change (int32 (Z.of_nat 1 - 1)) with 0.
    cbn [Z.eqb close_sessions length Nat.sub repeat app]. reflexivity.
  - assert (Hdec : int32 (refcount u - 1) = Z.of_nat (length (v2 :: vs))).
    { rewrite Hc, int32_small; cbn [length] in *;
        unfold INT_MIN, INT_MAX in *; lia. }
    rewrite Hdec.
    assert (Hnz : (Z.of_nat (length (v2 :: vs)) =? 0) = false).
    { apply Z.eqb_neq. cbn [length]. lia. }
    rewrite Hnz.
    rewrite (IH _ (set_refcount (Z.of_nat (length (v2 :: vs))) u)).
    + cbn [heap release set_refcount].
      rewrite drop_area_logs, drop_area_store.
      rewrite store_logs, store_store. rewrite <- logs_app.
      cbn [length Nat.sub]. rewrite Nat.sub_0_r.
      reflexivity.
    + discriminate.
    + exact Hvs.
    + rewrite load_logs. apply load_store_same.
    + reflexivity.
    + cbn [length] in *. lia.
Qed.

(** X9. Once the registry has dropped its reference, the last session to
    close destroys the region, and only the last.  If the count of a
    region equals the number [N >= 1] of its open sessions, closing them
    all returns, the first [N - 1] closes only decrement, and the last one
    destroys the heap, hands the block back and calls the release handler
    if there is one; the count ends at 0. *)
Theorem last_close_destroys r vs k u :
  vs <> [] ->
  Forall (fun v => vm_private_data v = Some r) vs ->
  load r k = Some u ->
  refcount u = Z.of_nat (length vs) ->
  Z.of_nat (length vs) <= INT_MAX ->
  exists k',
    close_sessions vs k = Ret tt k' /\
    calls k' =
      calls k ++
      repeat (ev_atomic_dec_and_test r false) (length vs - 1) ++
      [ev_atomic_dec_and_test r true; ev_xnheap_destroy r;
       ev_vfree (xnheap_get_membase (xnheap_destroy (heap u)))] ++
      match release u with Some f => [ev_release f r] | None => [] end /\
    refcount_at r k' = Some 0.
Proof.
  intros Hne Hall Hl Hc Hmax.
  rewrite (close_sessions_last r vs k u Hne Hall Hl Hc Hmax).
  eexists. split; [reflexivity|]. split.
  - rewrite calls_logs, calls_store. reflexivity.
  - rewrite refcount_at_logs, refcount_at_store_same. reflexivity.
Qed.

End Interleavings.

Lemma sessions_keep_region_alive_witness :
  let k := live_kernel good_config 1 in
  exists opened k',
    (refcount_at (H:=good_host) kernel_ppd_umm k = Some 1 /\
     Z.of_nat (length interleaved_ops) < INT_MAX /\
     run_sessions (H:=good_host) interleaved_ops [] k = Ret opened k') /\
    opened = [bind_vma (H:=good_host) (Some (process_ppd_umm 7%nat))
                one_page_vma;
              bind_vma (H:=good_host) (Some kernel_ppd_umm) one_page_vma] /\
    refcount_at kernel_ppd_umm k' = Some 2 /\
    destroy_calls kernel_ppd_umm (calls k') = 0%nat.
Proof.
  intros k.
  destruct (run_sessions (H:=good_host) interleaved_ops [] k)
    as [opened k'|] eqn:Hrun; [|vm_compute in Hrun; discriminate].
  assert (Hopened : opened =
            [bind_vma (H:=good_host) (Some (process_ppd_umm 7%nat))
               one_page_vma;
             bind_vma (H:=good_host) (Some kernel_ppd_umm) one_page_vma]).
  { vm_compute in Hrun. injection Hrun as <- _. reflexivity. }
  assert (Hlen : Z.of_nat (length interleaved_ops) < INT_MAX)
    by (cbn; unfold INT_MAX; lia).
  destruct (sessions_keep_region_alive (H:=good_host) kernel_ppd_umm
              interleaved_ops k opened k' eq_refl Hlen Hrun)
    as (Hc & Hd & _).
  exists opened, k'. split; [repeat split; assumption|].
  split; [exact Hopened|]. split.
  - rewrite Hc, Hopened. reflexivity.
  - rewrite Hd. reflexivity.
Defined.

Lemma release_destroys_once_witness :
  let k := live_kernel good_config 1 in
  (load (H:=good_host) kernel_ppd_umm k = Some (one_page_umm good_config 1) /\
   refcount (one_page_umm good_config 1) = 1 /\ Z.of_nat 2 <= INT_MAX) /\
  exists k',
    destroy_times (H:=good_host) 3 (Some kernel_ppd_umm) k = Ret tt k' /\
    calls k' =
      [ev_atomic_dec_and_test kernel_ppd_umm true;
       ev_xnheap_destroy kernel_ppd_umm; ev_vfree 1048576;
       ev_atomic_dec_and_test kernel_ppd_umm false;
       ev_atomic_dec_and_test kernel_ppd_umm false] /\
    refcount_at kernel_ppd_umm k' = Some (-2).
Proof.
  intros k.
  assert (Hn : Z.of_nat 2 <= INT_MAX) by (cbn; unfold INT_MAX; lia).
  split; [repeat split; [exact Hn]|].
  destruct (release_destroys_once (H:=good_host) kernel_ppd_umm
              (one_page_umm good_config 1) 2 k eq_refl eq_refl Hn)
    as (k' & Hrun & Hcalls & _ & _ & Hc).
  exists k'. split; [exact Hrun|]. split; [exact Hcalls | exact Hc].
Defined.

Lemma last_close_destroys_witness :
  let k := live_kernel good_config 2 in
  let v := bind_vma (H:=good_host) (Some kernel_ppd_umm) one_page_vma in
  ([v; v] <> [] /\
   Forall (fun x => vm_private_data x = Some kernel_ppd_umm) [v; v] /\
   load (H:=good_host) kernel_ppd_umm k = Some (one_page_umm good_config 2) /\
   refcount (one_page_umm good_config 2) = Z.of_nat (length [v; v]) /\
   Z.of_nat (length [v; v]) <= INT_MAX) /\
  exists k',
    close_sessions (H:=good_host) [v; v] k = Ret tt k' /\
    calls k' =
      [ev_atomic_dec_and_test kernel_ppd_umm false;
       ev_atomic_dec_and_test kernel_ppd_umm true;
       ev_xnheap_destroy kernel_ppd_umm; ev_vfree 1048576] /\
    refcount_at kernel_ppd_umm k' = Some 0.
Proof.
  intros k v.
  assert (Hne : [v; v] <> []) by discriminate.
  assert (Hall : Forall (fun x => vm_private_data x = Some kernel_ppd_umm)
                   [v; v]) by (repeat constructor).
  assert (Hmax : Z.of_nat (length [v; v]) <= INT_MAX)
    by (cbn; unfold INT_MAX; lia).
  split; [repeat split; assumption|].
  destruct (last_close_destroys (H:=good_host) kernel_ppd_umm [v; v] k
              (one_page_umm good_config 2) Hne Hall eq_refl eq_refl Hmax)
    as (k' & Hrun & Hcalls & Hc).
  exists k'. split; [exact Hrun|]. split; [exact Hcalls | exact Hc].
Defined.

(** *** Blocks and devices over start-up and tear-down *)

Section Ledger_of_startup.

Context `{H : Host}.

Open Scope kernel_scope.

(** X10. Creating a region and dropping its only reference is a round
    trip on the host's blocks.  When the host hands out a block and the
    heap accepts it, [steely_umm_init] followed by [steely_umm_destroy]
    returns, hands back one block for the one it obtained (the very block,
    if the heap reports as its base the block it was set up over), calls
    the handler given at creation if there is one, and leaves the count at
    0. *)
Theorem create_destroy_round_trip r u size rel k :
  load r k = Some u ->
  let sz := u32 (PAGE_ALIGN size) in
  let base := __vmalloc sz umm_prot in
  let a := xnheap_init (heap u) base sz in
  base <> 0 -> fst a = 0 ->
  exists k1 k2,
    steely_umm_init (Some r) size rel k = Ret 0 k1 /\
    steely_umm_destroy (Some r) k1 = Ret tt k2 /\
    calls k2 =
      calls k ++
      [ev_vmalloc sz true umm_prot base; ev_xnheap_init r base sz 0;
       ev_atomic_set r 1; ev_smp_mb;
       ev_atomic_dec_and_test r true; ev_xnheap_destroy r;
       ev_vfree (xnheap_get_membase (xnheap_destroy (snd a)))] ++
      match rel with Some f => [ev_release f r] | None => [] end /\
    blocks_held (calls k2) = blocks_held (calls k) /\
    refcount_at r k2 = Some 0 /\
    (xnheap_get_membase (xnheap_destroy (snd a)) = base ->
     In (ev_vfree base) (calls k2)).
Proof.
  intros Hl sz base a Hbase Hok.
  pose proof (steely_umm_init_eq r u size rel k Hl) as Hinit.
  cbv zeta in Hinit. fold sz in Hinit. fold base in Hinit. fold a in Hinit.
  apply Z.eqb_neq in Hbase. rewrite Hbase, Hok in Hinit.
  cbn [negb Z.eqb] in Hinit.
  set (u1 := {| heap := snd a; refcount := 1; release := rel |}) in *.
  set (k1 := logs _ (store r u1 (add_area base sz k))) in *.
  assert (Hl1 : load r k1 = Some u1).
  { subst k1. rewrite load_logs. apply load_store_same. }
  pose proof (steely_umm_destroy_eq r u1 k1 Hl1) as Hdes.
  cbn [refcount heap release u1] in Hdes.
  change (int32 (1 - 1)) with 0 in Hdes. cbn [Z.eqb] in Hdes.
  exists k1. eexists. split; [exact Hinit|]. split; [exact Hdes|].
  assert (Hcalls :
    calls (logs ([ev_atomic_dec_and_test r true; ev_xnheap_destroy r;
                  ev_vfree (xnheap_get_membase (xnheap_destroy (snd a)))] ++
                 match rel with Some f => [ev_release f r] | None => [] end)
             (store r (set_heap (xnheap_destroy (snd a)) (set_refcount 0 u1))
                (drop_area (xnheap_get_membase (xnheap_destroy (snd a)))
                   k1))) =
    calls k ++
    [ev_vmalloc sz true umm_prot base; ev_xnheap_init r base sz 0;
     ev_atomic_set r 1; ev_smp_mb;
     ev_atomic_dec_and_test r true; ev_xnheap_destroy r;
     ev_vfree (xnheap_get_membase (xnheap_destroy (snd a)))] ++
    match rel with Some f => [ev_release f r] | None => [] end).
  { rewrite calls_logs, calls_store, calls_drop_area. subst k1.
    rewrite calls_logs, calls_store, calls_add_area, <- app_assoc.
    reflexivity. }
  split; [exact Hcalls|]. split; [|split].
  - rewrite Hcalls, blocks_held_app. cbn [blocks_held app].
    rewrite Hbase. destruct rel; cbn [blocks_held app]; lia.
  - rewrite refcount_at_logs, refcount_at_store_same. reflexivity.
  - intros Hmem. rewrite Hcalls, Hmem. apply in_or_app. right.
    cbn. tauto.
Qed.

End Ledger_of_startup.

Section Books_of_startup.

Context `{H : Host}.

Open Scope kernel_scope.

(** The words left when a block goes back to the host were there before. *)
Lemma words_drop_area base k : words (drop_area base k) ⊆ words k.
Proof.
  unfold drop_area. cbn [words with_memory].
  destruct (vm_areas k !! base); [apply map_filter_subseteq | reflexivity].
Qed.

(** A word that is not there does not come back with the block. *)
Lemma words_drop_area_None base a k :
  words k !! a = None -> words (drop_area base k) !! a = None.
Proof.
  intros Ha. unfold drop_area. cbn [words with_memory].
  destruct (vm_areas k !! base); [|exact Ha].
  apply map_lookup_filter_None_2. left. exact Ha.
Qed.

(** Storing a word into a record and handing the record back leaves no
    new word. *)
Lemma words_unpublished base p v k :
  words (drop_area base (drop_word p (put_word p v k))) ⊆ words k.
Proof.
  etransitivity; [apply words_drop_area|].
  cbn [words drop_word put_word with_memory vm_areas].
  rewrite delete_insert_eq. apply delete_subseteq.
Qed.

(** A block obtained and handed back at its own address leaves the blocks
    as they were, when the host had handed out an address that was free. *)
Lemma vm_areas_round_trip base sz k k0 :
  vm_areas k !! base = None ->
  vm_areas k0 = <[base := sz]> (vm_areas k) ->
  vm_areas (drop_area base k0) = vm_areas k.
Proof.
  intros Hfresh Hk0. unfold drop_area. cbn [vm_areas with_memory].
  rewrite Hk0. apply delete_insert_id. exact Hfresh.
Qed.

Ltac use_tests :=
  repeat match goal with
         | Heq : (?x =? 0) = _ |- context [?x =? 0] => rewrite Heq
         end.

(** X11. Start-up leaves either the whole system or nothing.  It always
    returns.  On 0 the calls are those of the five steps; the shared region
    is live with count 1 and no release handler over the block the host
    handed out, which is now held; [nkvdso] is the address the shared heap
    answered to the allocation of the record, it is not NULL, and the word
    stored there is [XNVDSO_FEATURES]; the three devices are registered.
    On any other value no device is registered and no word is left that
    was not there before; the shared region was either never made live
    (count, release handler and [nkvdso] untouched, and the block, if one
    was obtained, handed back at its own address) or it was made and then
    destroyed, with count 0, and the block is handed back at the address
    the heap reports as its base: the very block, leaving the host's
    blocks as they were, if that is the address the heap was set up over.
    Private regions and the system heap are never touched. *)
Theorem steely_memdev_init_all_or_nothing k :
  exists ret k' n,
    steely_memdev_init k = Ret ret k' /\
    calls k' = calls k ++ startup_calls k n ret /\
    sys_ppd k' = sys_ppd k /\ steely_heap k' = steely_heap k /\
    ((ret = 0 /\ n = 5%nat /\ shared_base <> 0 /\
      steely_kernel_ppd k' = live_shared (snd (vdso_alloc k)) /\
      vm_areas k' = <[shared_base := shared_size]> (vm_areas k) /\
      nkvdso k' = fst (vdso_alloc k) /\ nkvdso k' <> 0 /\
      In (ev_xnheap_alloc kernel_ppd_umm sizeof_xnvdso (nkvdso k'))
        (startup_calls k n ret) /\
      words k' = <[nkvdso k' := XNVDSO_FEATURES]> (words k) /\
      registered [] (startup_calls k n ret)
        = [sysmem_device; umm_device_shared; umm_device_private]) \/
     (ret <> 0 /\
      registered [] (startup_calls k n ret) = [] /\
      words k' ⊆ words k /\
      ((n = 0%nat /\
        refcount (steely_kernel_ppd k') = refcount (steely_kernel_ppd k) /\
        release (steely_kernel_ppd k') = release (steely_kernel_ppd k) /\
        nkvdso k' = nkvdso k /\
        (vm_areas k !! shared_base = None -> vm_areas k' = vm_areas k)) \/
       ((1 <= n < 5)%nat /\
        steely_kernel_ppd k' = dead_shared (unwound_heap k n) /\
        vm_areas k' =
          delete (xnheap_get_membase (xnheap_destroy (unwound_heap k n)))
            (<[shared_base := shared_size]> (vm_areas k)) /\
        (xnheap_get_membase (xnheap_destroy (unwound_heap k n)) = shared_base ->
         vm_areas k !! shared_base = None -> vm_areas k' = vm_areas k))))).
Proof.
  assert (Hback : forall m,
            m = shared_base -> vm_areas k !! shared_base = None ->
            delete m (<[shared_base := shared_size]> (vm_areas k))
              = vm_areas k).
  { intros m -> Hfresh. apply delete_insert_id. exact Hfresh. }
  rewrite steely_memdev_init_eq. cbv zeta.
  unfold startup_calls, calls_failed.
  destruct (shared_base =? 0) eqn:Hb.
  { exists (- ENOMEM), (logs [ev_vmalloc shared_size true umm_prot 0] k),
      0%nat.
    split; [reflexivity|]. unfold startup_calls, calls_failed. use_tests.
    split; [apply calls_logs|].
    destruct (logs_frame [ev_vmalloc shared_size true umm_prot 0] k)
      as (Hu & Hs & Hh & Hn & Ha & Hw).
    split; [exact Hs|]. split; [exact Hh|].
    right. split; [discriminate|]. split; [reflexivity|].
    split; [rewrite Hw; reflexivity|].
    left. split; [reflexivity|]. rewrite Hu, Hn, Ha. repeat split. }
  destruct (fst (shared_init k) =? 0) eqn:Ha; cbn [negb].
  2:{ eexists (fst (shared_init k)), _, 0%nat.
      split; [reflexivity|]. unfold startup_calls, calls_failed. use_tests.
      split; [rewrite calls_logs; reflexivity|].
      match goal with
      | |- context [logs ?es ?k0] =>
          destruct (logs_frame es k0) as (Hu & Hs & Hh & Hn & Hv & Hw)
      end.
      rewrite Hu, Hs, Hh, Hn, Hv, Hw.
      split; [reflexivity|]. split; [reflexivity|].
      right. split; [apply Z.eqb_neq; exact Ha|]. split; [reflexivity|].
      split.
      { exact (words_drop_area shared_base
                 (add_area shared_base shared_size k)). }
      left. split; [reflexivity|]. repeat split.
      intros Hfresh.
      exact (vm_areas_round_trip shared_base shared_size k
               (add_area shared_base shared_size k) Hfresh eq_refl). }
  destruct (fst (vdso_alloc k) =? 0) eqn:Hp.
  { eexists (- ENOMEM), _, 1%nat.
    split; [reflexivity|]. unfold startup_calls, calls_failed. use_tests.
      split; [rewrite calls_logs; reflexivity|].
    match goal with
    | |- context [logs ?es ?k0] =>
        destruct (logs_frame es k0) as (Hu & Hs & Hh & Hn & Hv & Hw)
    end.
    rewrite Hu, Hs, Hh, Hv, Hw.
    split; [reflexivity|]. split; [reflexivity|].
    right. split; [discriminate|]. split; [reflexivity|].
    split.
    { exact (words_drop_area
               (xnheap_get_membase (xnheap_destroy (unwound_heap k 1)))
               (set_nkvdso (fst (vdso_alloc k))
                  (add_area shared_base shared_size k))). }
    right. split; [lia|]. split; [reflexivity|]. split; [reflexivity|].
    apply Hback. }
  destruct (rtdm_dev_register umm_device_private =? 0) eqn:Hr1; cbn [negb].
  2:{ eexists _, _, 2%nat.
      split; [reflexivity|]. unfold startup_calls, calls_failed. use_tests.
      split; [rewrite calls_logs; reflexivity|].
      match goal with
      | |- context [logs ?es ?k0] =>
          destruct (logs_frame es k0) as (Hu & Hs & Hh & Hn & Hv & Hw)
      end.
      rewrite Hu, Hs, Hh, Hv, Hw.
      split; [reflexivity|]. split; [reflexivity|].
      right. split; [apply Z.eqb_neq; exact Hr1|].
      split; [cbn; rewrite Hr1; reflexivity|].
      split.
      { exact (words_unpublished _ (fst (vdso_alloc k)) XNVDSO_FEATURES
                 (set_nkvdso (fst (vdso_alloc k))
                    (add_area shared_base shared_size k))). }
      right. split; [lia|]. split; [reflexivity|]. split; [reflexivity|].
      apply Hback. }
  destruct (rtdm_dev_register umm_device_shared =? 0) eqn:Hr2; cbn [negb].
  2:{ eexists _, _, 3%nat.
      split; [reflexivity|]. unfold startup_calls, calls_failed. use_tests.
      split; [rewrite calls_logs; reflexivity|].
      match goal with
      | |- context [logs ?es ?k0] =>
          destruct (logs_frame es k0) as (Hu & Hs & Hh & Hn & Hv & Hw)
      end.
      rewrite Hu, Hs, Hh, Hv, Hw.
      split; [reflexivity|]. split; [reflexivity|].
      right. split; [apply Z.eqb_neq; exact Hr2|].
      split; [cbn; rewrite Hr2; reflexivity|].
      split.
      { exact (words_unpublished _ (fst (vdso_alloc k)) XNVDSO_FEATURES
                 (set_nkvdso (fst (vdso_alloc k))
                    (add_area shared_base shared_size k))). }
      right. split; [lia|]. split; [reflexivity|]. split; [reflexivity|].
      apply Hback. }
  destruct (rtdm_dev_register sysmem_device =? 0) eqn:Hr3; cbn [negb].
  2:{ eexists _, _, 4%nat.
      split; [reflexivity|]. unfold startup_calls, calls_failed. use_tests.
      split; [rewrite calls_logs; reflexivity|].
      match goal with
      | |- context [logs ?es ?k0] =>
          destruct (logs_frame es k0) as (Hu & Hs & Hh & Hn & Hv & Hw)
      end.
      rewrite Hu, Hs, Hh, Hv, Hw.
      split; [reflexivity|]. split; [reflexivity|].
      right. split; [apply Z.eqb_neq; exact Hr3|].
      split; [cbn; rewrite Hr3; reflexivity|].
      split.
      { exact (words_unpublished _ (fst (vdso_alloc k)) XNVDSO_FEATURES
                 (set_nkvdso (fst (vdso_alloc k))
                    (add_area shared_base shared_size k))). }
      right. split; [lia|]. split; [reflexivity|]. split; [reflexivity|].
      apply Hback. }
  eexists 0, _, 5%nat.
  split; [reflexivity|]. unfold startup_calls, calls_failed. use_tests.
      split; [rewrite calls_logs; reflexivity|].
  match goal with
  | |- context [logs ?es ?k0] =>
      destruct (logs_frame es k0) as (Hu & Hs & Hh & Hn & Hv & Hw)
  end.
  rewrite Hu, Hs, Hh, Hn, Hv, Hw.
  split; [reflexivity|]. split; [reflexivity|].
  left. split; [reflexivity|]. split; [reflexivity|].
  split; [apply Z.eqb_neq; exact Hb|]. split; [reflexivity|].
  split; [reflexivity|]. split; [reflexivity|].
  split; [apply Z.eqb_neq; exact Hp|].
  split; [cbn; tauto|]. split; reflexivity.
Qed.

(** X12. Start-up followed by tear-down is a round trip on the host.  Let
    start-up return 0 and tear-down run before any session is opened, on a
    host that had handed out a block at a free address and whose heap,
    once destroyed, reports as its base the block it was set up over.
    Then tear-down returns; the calls of the two are the five steps
    followed by the five steps taken back, latest first; the block is
    handed back at its own address and the host's blocks are as they were
    before start-up; no word is left that was not there, and none where
    [nkvdso] points; no device is left registered; the shared region is
    destroyed, with count 0; private regions are untouched. *)
Theorem startup_teardown_round_trip k k1 :
  steely_memdev_init k = Ret 0 k1 ->
  vm_areas k !! shared_base = None ->
  xnheap_get_membase (xnheap_destroy (unwound_heap k 5)) = shared_base ->
  exists k2,
    steely_memdev_cleanup k1 = Ret tt k2 /\
    calls k2 = calls k ++ startup_calls k 5 0 ++ teardown_calls k /\
    In (ev_vfree shared_base) (teardown_calls k) /\
    vm_areas k1 = <[shared_base := shared_size]> (vm_areas k) /\
    vm_areas k2 = vm_areas k /\
    words k2 ⊆ words k /\ words k2 !! nkvdso k2 = None /\
    registered [] (startup_calls k 5 0)
      = [sysmem_device; umm_device_shared; umm_device_private] /\
    registered [] (startup_calls k 5 0 ++ teardown_calls k) = [] /\
    steely_kernel_ppd k2 = dead_shared (unwound_heap k 5) /\
    sys_ppd k2 = sys_ppd k.
Proof.
  intros Hinit Hfresh Hbase.
  destruct (steely_memdev_init_ok k k1 Hinit) as (_ & _ & ->).
  set (k0 := store kernel_ppd_umm (live_shared (snd (vdso_alloc k)))
               (put_word (fst (vdso_alloc k)) XNVDSO_FEATURES
                  (set_nkvdso (fst (vdso_alloc k))
                     (add_area shared_base shared_size k)))).
  destruct (logs_frame (startup_calls k 5 0) k0)
    as (Hu & Hs & Hh & Hn & Hv & Hw).
  set (k1 := logs (startup_calls k 5 0) k0) in *.
  assert (Hc1 : calls k1 = calls k ++ startup_calls k 5 0).
  { subst k1. rewrite calls_logs. reflexivity. }
  assert (Hu1 : steely_kernel_ppd k1 = live_shared (snd (vdso_alloc k)))
    by (rewrite Hu; reflexivity).
  assert (Hn1 : nkvdso k1 = fst (vdso_alloc k)) by (rewrite Hn; reflexivity).
  assert (Hv1 : vm_areas k1 = <[shared_base := shared_size]> (vm_areas k))
    by (rewrite Hv; reflexivity).
  assert (Hw1 : words k1
                = <[fst (vdso_alloc k) := XNVDSO_FEATURES]> (words k))
    by (rewrite Hw; reflexivity).
  assert (Hs1 : sys_ppd k1 = sys_ppd k) by (rewrite Hs; reflexivity).
  clearbody k1. clear Hu Hs Hh Hn Hv Hw k0.
  rewrite (steely_memdev_cleanup_live _ _ Hu1), Hn1.
  change (xnheap_free (snd (vdso_alloc k)) (fst (vdso_alloc k)))
    with (unwound_heap k 5).
  rewrite Hbase.
  eexists. split; [reflexivity|].
  match goal with
  | |- context [logs ?es ?k0] =>
      destruct (logs_frame es k0) as (Hu & Hs & Hh & Hn & Hv & Hw)
  end.
  rewrite Hu, Hs, Hn, Hv, Hw.
  split.
  { rewrite calls_logs. cbn [calls store]. rewrite calls_drop_area.
    cbn [calls drop_word with_memory]. rewrite Hc1, <- app_assoc.
    unfold teardown_calls. cbn [rev startup_steps app map concat calls_undone].
    rewrite Hbase. reflexivity. }
  split.
  { unfold teardown_calls.
    cbn [rev startup_steps app map concat calls_undone].
    rewrite Hbase. cbn. tauto. }
  split; [exact Hv1|].
  split.
  { cbn [vm_areas store].
    apply (vm_areas_round_trip shared_base shared_size k); [exact Hfresh|].
    exact Hv1. }
  split.
  { cbn [words store]. etransitivity; [apply words_drop_area|].
    cbn [words drop_word with_memory]. rewrite Hw1, delete_insert_eq.
    apply delete_subseteq. }
  split.
  { cbn [words store nkvdso]. apply words_drop_area_None.
    cbn [words drop_word drop_area with_memory nkvdso]. rewrite Hn1.
    apply lookup_delete_eq. }
  split; [reflexivity|]. split; [reflexivity|].
  split; [reflexivity|].
  cbn [sys_ppd store]. exact Hs1.
Qed.

(** What tear-down does under open sessions, in one equation. *)
Lemma steely_memdev_cleanup_eq k :
  1 < refcount (steely_kernel_ppd k) <= INT_MAX ->
  steely_memdev_cleanup k =
    Ret tt
      (logs [ev_dev_unregister sysmem_device;
             ev_dev_unregister umm_device_shared;
             ev_dev_unregister umm_device_private;
             ev_xnheap_free kernel_ppd_umm (nkvdso k);
             ev_atomic_dec_and_test kernel_ppd_umm false]
         (store kernel_ppd_umm
            (set_refcount (refcount (steely_kernel_ppd k) - 1)
               (set_heap (xnheap_free (heap (steely_kernel_ppd k)) (nkvdso k))
                  (steely_kernel_ppd k)))
            (drop_word (nkvdso k) k))).
Proof.
  intros Hc.
  unfold steely_memdev_cleanup, rtdm_dev_unregister.
  do 3 (unfold bind at 1, emit at 1). unfold bind at 1.
  set (k3 := log _ (log _ (log _ k))).
  erewrite bind_ret by (apply steely_umm_free_eq; reflexivity).
  rewrite (steely_umm_destroy_eq kernel_ppd_umm _ _ eq_refl).
  cbn [steely_kernel_ppd log store k3 refcount set_heap nkvdso heap].
  assert (Hdec : int32 (refcount (steely_kernel_ppd k) - 1)
                 = refcount (steely_kernel_ppd k) - 1).
  { apply int32_small. unfold INT_MIN, INT_MAX in *. lia. }
  rewrite Hdec.
  assert (Hnz : (refcount (steely_kernel_ppd k) - 1 =? 0) = false)
    by (apply Z.eqb_neq; lia).
  rewrite Hnz. reflexivity.
Qed.

(** X13. Tear-down under open sessions does not pull the block away.  If
    the count of the shared region is above 1 when tear-down runs, it
    unregisters the three devices, frees the vDSO record and drops the
    registry's reference, and that is all: the heap is not destroyed and
    no block is handed back. *)
Theorem steely_memdev_cleanup_defers k :
  1 < refcount (steely_kernel_ppd k) <= INT_MAX ->
  exists k',
    steely_memdev_cleanup k = Ret tt k' /\
    calls k' =
      calls k ++
      [ev_dev_unregister sysmem_device; ev_dev_unregister umm_device_shared;
       ev_dev_unregister umm_device_private;
       ev_xnheap_free kernel_ppd_umm (nkvdso k);
       ev_atomic_dec_and_test kernel_ppd_umm false] /\
    refcount (steely_kernel_ppd k') = refcount (steely_kernel_ppd k) - 1 /\
    heap (steely_kernel_ppd k') =
      xnheap_free (heap (steely_kernel_ppd k)) (nkvdso k) /\
    sys_ppd k' = sys_ppd k.
Proof.
  intros Hc. rewrite (steely_memdev_cleanup_eq k Hc).
  eexists. split; [reflexivity|]. split.
  - rewrite calls_logs, calls_store. reflexivity.
  - repeat split.
Qed.

(** X14. The block outlives tear-down until the last view is closed.  If
    [N >= 1] sessions are open on the shared region when tear-down runs
    (count [N + 1]), tear-down followed by the close of all [N] returns,
    and the heap is destroyed and the block handed back by the last close,
    after every other step; the count ends at 0. *)
Theorem teardown_then_last_close vs k :
  vs <> [] ->
  Forall (fun v => vm_private_data v = Some kernel_ppd_umm) vs ->
  refcount (steely_kernel_ppd k) = Z.of_nat (length vs) + 1 ->
  Z.of_nat (length vs) + 1 <= INT_MAX ->
  exists k1 k2,
    steely_memdev_cleanup k = Ret tt k1 /\
    close_sessions vs k1 = Ret tt k2 /\
    calls k2 =
      calls k ++
      [ev_dev_unregister sysmem_device; ev_dev_unregister umm_device_shared;
       ev_dev_unregister umm_device_private;
       ev_xnheap_free kernel_ppd_umm (nkvdso k)] ++
      repeat (ev_atomic_dec_and_test kernel_ppd_umm false) (length vs) ++
      [ev_atomic_dec_and_test kernel_ppd_umm true;
       ev_xnheap_destroy kernel_ppd_umm;
       ev_vfree
         (xnheap_get_membase
            (xnheap_destroy
               (xnheap_free (heap (steely_kernel_ppd k)) (nkvdso k))))] ++
      match release (steely_kernel_ppd k) with
      | Some f => [ev_release f kernel_ppd_umm]
      | None => []
      end /\
    refcount (steely_kernel_ppd k2) = 0.
Proof.
  intros Hne Hall Hc Hmax.
  assert (Hlen : (0 < length vs)%nat).
  { destruct vs; [contradiction | cbn; lia]. }
  assert (Hc1 : 1 < refcount (steely_kernel_ppd k) <= INT_MAX) by lia.
  rewrite (steely_memdev_cleanup_eq k Hc1).
  set (u1 := set_refcount (refcount (steely_kernel_ppd k) - 1)
               (set_heap (xnheap_free (heap (steely_kernel_ppd k)) (nkvdso k))
                  (steely_kernel_ppd k))).
  set (k1 := logs _ (store kernel_ppd_umm u1 (drop_word (nkvdso k) k))).
  assert (Hl1 : load kernel_ppd_umm k1 = Some u1) by reflexivity.
  assert (Hu1 : refcount u1 = Z.of_nat (length vs)) by (cbn; lia).
  assert (Hmax1 : Z.of_nat (length vs) <= INT_MAX) by lia.
  pose proof (close_sessions_last kernel_ppd_umm vs k1 u1 Hne Hall Hl1 Hu1
                Hmax1) as Hclose.
  exists k1. eexists. split; [reflexivity|]. split; [exact Hclose|].
  split.
  - assert (Hrep : repeat (ev_atomic_dec_and_test kernel_ppd_umm false)
                      (length vs)
                    = ev_atomic_dec_and_test kernel_ppd_umm false ::
                      repeat (ev_atomic_dec_and_test kernel_ppd_umm false)
                        (length vs - 1)).
    { destruct (length vs); [lia|]. cbn. rewrite Nat.sub_0_r. reflexivity. }
    rewrite Hrep, calls_logs, calls_store, calls_drop_area. subst k1.
    rewrite calls_logs, calls_store, calls_drop_word.
    cbn [heap release u1 set_refcount set_heap].
    rewrite <- !app_assoc. reflexivity.
  - match goal with
    | |- refcount (steely_kernel_ppd (logs ?es ?k0)) = 0 =>
        rewrite (proj1 (logs_frame es k0))
    end.
    reflexivity.
Qed.

(** X15. Tear-down frees the vDSO record and leaves the exported pointer
    dangling.  In every state tear-down returns; after the three
    unregistrations it hands the record at the address [nkvdso] holds back
    to the shared heap; [nkvdso] still holds that address afterwards, and
    the word that was stored there is gone with the record: nothing resets
    the pointer. *)
Theorem steely_memdev_cleanup_leaves_nkvdso k :
  exists k' es,
    steely_memdev_cleanup k = Ret tt k' /\
    calls k' =
      calls k ++
      [ev_dev_unregister sysmem_device; ev_dev_unregister umm_device_shared;
       ev_dev_unregister umm_device_private;
       ev_xnheap_free kernel_ppd_umm (nkvdso k)] ++ es /\
    nkvdso k' = nkvdso k /\
    words k' !! nkvdso k' = None /\
    words k' ⊆ words k.
Proof.
  unfold steely_memdev_cleanup, rtdm_dev_unregister.
  do 3 (unfold bind at 1, emit at 1). unfold bind at 1.
  set (k3 := log _ (log _ (log _ k))).
  erewrite bind_ret by (apply steely_umm_free_eq; reflexivity).
  rewrite (steely_umm_destroy_eq kernel_ppd_umm _ _ eq_refl).
  set (k4 := log (ev_xnheap_free kernel_ppd_umm (nkvdso k3)) _).
  assert (Hk4 : calls k4 =
                  calls k ++ [ev_dev_unregister sysmem_device;
                              ev_dev_unregister umm_device_shared;
                              ev_dev_unregister umm_device_private;
                              ev_xnheap_free kernel_ppd_umm (nkvdso k)]).
  { subst k4 k3. cbn [calls log store nkvdso drop_word with_memory].
    rewrite <- !app_assoc. reflexivity. }
  assert (Hn4 : nkvdso k4 = nkvdso k) by reflexivity.
  assert (Hw4 : words k4 = delete (nkvdso k) (words k)) by reflexivity.
  clearbody k4.
  match goal with
  | |- context [if ?c then logs ?es1 ?ka else logs ?es2 ?kb] =>
      destruct c;
      [exists (logs es1 ka), es1;
       destruct (logs_frame es1 ka) as (_ & _ & _ & Hn & _ & Hw)
      |exists (logs es2 kb), es2;
       destruct (logs_frame es2 kb) as (_ & _ & _ & Hn & _ & Hw)]
  end.
  - split; [reflexivity|].
    split; [rewrite calls_logs, calls_store, calls_drop_area, Hk4,
              <- app_assoc; reflexivity|].
    rewrite Hn, Hw. cbn [nkvdso words store].
    change (nkvdso (drop_area ?b k4)) with (nkvdso k4). rewrite Hn4.
    split; [reflexivity|]. split.
    + apply words_drop_area_None. rewrite Hw4. apply lookup_delete_eq.
    + etransitivity; [apply words_drop_area|].
      rewrite Hw4. apply delete_subseteq.
  - split; [reflexivity|].
    split; [rewrite calls_logs, calls_store, Hk4, <- app_assoc;
            reflexivity|].
    rewrite Hn, Hw. cbn [nkvdso words store]. rewrite Hn4, Hw4.
    split; [reflexivity|]. split.
    + apply lookup_delete_eq.
    + apply delete_subseteq.
Qed.

End Books_of_startup.

Lemma create_destroy_round_trip_witness :
  let k := boot_kernel good_config in
  (load (H:=good_host) kernel_ppd_umm k = Some (steely_kernel_ppd k) /\
   __vmalloc (Host:=good_host) 8192 0 <> 0) /\
  exists k1 k2,
    steely_umm_init (H:=good_host) (Some kernel_ppd_umm) 5000 (Some 3%nat) k
      = Ret 0 k1 /\
    steely_umm_destroy (Some kernel_ppd_umm) k1 = Ret tt k2 /\
    calls k2 =
      [ev_vmalloc 8192 true 0 1048576;
       ev_xnheap_init kernel_ppd_umm 1048576 8192 0;
       ev_atomic_set kernel_ppd_umm 1; ev_smp_mb;
       ev_atomic_dec_and_test kernel_ppd_umm true;
       ev_xnheap_destroy kernel_ppd_umm; ev_vfree 1048576;
       ev_release 3%nat kernel_ppd_umm] /\
    refcount_at kernel_ppd_umm k2 = Some 0.
Proof.
  intros k.
  assert (Hbase : __vmalloc (Host:=good_host) 8192 0 <> 0)
    by (vm_compute; discriminate).
  split; [split; [reflexivity | exact Hbase]|].
  destruct (create_destroy_round_trip (H:=good_host) kernel_ppd_umm
              (steely_kernel_ppd k) 5000 (Some 3%nat) k eq_refl Hbase eq_refl)
    as (k1 & k2 & Hinit & Hdes & Hcalls & _ & Hc & _).
  exists k1, k2. split; [exact Hinit|]. split; [exact Hdes|].
  split; [exact Hcalls | exact Hc].
Defined.

(** Start-up on a host that refuses the shared device leaves nothing: the
    host's blocks are as they were and no word is left. *)
Lemma steely_memdev_init_all_or_nothing_witness :
  let k := boot_kernel no_shared_device_config in
  exists k',
    steely_memdev_init (H:=no_shared_device_host) k = Ret (-16) k' /\
    registered [] (calls k') = [] /\
    vm_areas k' = vm_areas k /\
    words k' ⊆ words k.
Proof.
  intros k.
  destruct (steely_memdev_init_all_or_nothing (H:=no_shared_device_host) k)
    as (ret & k' & n & Hrun & Hcalls & _ & _ & Hcase).
  assert (Hret : ret = -16).
  { pose proof Hrun as Hc. vm_compute in Hc. apply Ret_eq in Hc.
    destruct Hc as [Hc _]. symmetry. exact Hc. }
  subst ret. exists k'. split; [exact Hrun|].
  destruct Hcase as [(Hz & _) | (_ & Hreg & Hw & Hblocks)]; [discriminate|].
  split; [rewrite Hcalls; exact Hreg|].
  split; [|exact Hw].
  destruct Hblocks as [(_ & _ & _ & _ & Hv) | (_ & _ & _ & Hv)].
  - apply Hv. reflexivity.
  - apply Hv; [|reflexivity].
    unfold unwound_heap. destruct (2 <=? n)%nat; reflexivity.
Defined.

Lemma startup_teardown_round_trip_witness :
  let k := boot_kernel good_config in
  (vm_areas k !! shared_base (H:=good_host) = None /\
   xnheap_get_membase (xnheap_destroy (unwound_heap (H:=good_host) k 5))
     = shared_base (H:=good_host)) /\
  exists k1 k2,
    steely_memdev_init (H:=good_host) k = Ret 0 k1 /\
    steely_memdev_cleanup k1 = Ret tt k2 /\
    vm_areas k1 = <[1048576 := 262144]> (vm_areas k) /\
    vm_areas k2 = vm_areas k /\
    words k2 !! nkvdso k2 = None /\
    refcount (steely_kernel_ppd k2) = 0.
Proof.
  intros k.
  assert (Hfresh : vm_areas k !! shared_base (H:=good_host) = None)
    by reflexivity.
  assert (Hbase : xnheap_get_membase
                    (xnheap_destroy (unwound_heap (H:=good_host) k 5))
                  = shared_base (H:=good_host)) by reflexivity.
  split; [split; assumption|].
  destruct (steely_memdev_init (H:=good_host) k)
    as [ret k1|] eqn:Hinit; [|vm_compute in Hinit; discriminate].
  assert (Hret : ret = 0) by (vm_compute in Hinit; congruence).
  subst ret.
  destruct (startup_teardown_round_trip (H:=good_host) k k1 Hinit Hfresh Hbase)
    as (k2 & Hrun & _ & _ & Hv1 & Hv2 & _ & Hw & _ & _ & Hdead & _).
  exists k1, k2. split; [reflexivity|]. split; [exact Hrun|].
  split; [exact Hv1|]. split; [exact Hv2|]. split; [exact Hw|].
  rewrite Hdead. reflexivity.
Defined.

Lemma steely_memdev_cleanup_defers_witness :
  let k := live_kernel good_config 3 in
  1 < refcount (steely_kernel_ppd k) <= INT_MAX /\
  exists k',
    steely_memdev_cleanup (H:=good_host) k = Ret tt k' /\
    calls k' =
      [ev_dev_unregister sysmem_device; ev_dev_unregister umm_device_shared;
       ev_dev_unregister umm_device_private;
       ev_xnheap_free kernel_ppd_umm 0;
       ev_atomic_dec_and_test kernel_ppd_umm false] /\
    refcount (steely_kernel_ppd k') = 2.
Proof.
  intros k.
  assert (Hc : 1 < refcount (steely_kernel_ppd k) <= INT_MAX)
    by (cbn; unfold INT_MAX; lia).
  split; [exact Hc|].
  destruct (steely_memdev_cleanup_defers (H:=good_host) k Hc)
    as (k' & Hrun & Hcalls & Hcount & _).
  exists k'. split; [exact Hrun|]. split; [exact Hcalls | exact Hcount].
Defined.

Lemma teardown_then_last_close_witness :
  let k := live_kernel good_config 3 in
  let v := bind_vma (H:=good_host) (Some kernel_ppd_umm) one_page_vma in
  ([v; v] <> [] /\
   Forall (fun x => vm_private_data x = Some kernel_ppd_umm) [v; v] /\
   refcount (steely_kernel_ppd k) = Z.of_nat (length [v; v]) + 1 /\
   Z.of_nat (length [v; v]) + 1 <= INT_MAX) /\
  exists k1 k2,
    steely_memdev_cleanup (H:=good_host) k = Ret tt k1 /\
    close_sessions [v; v] k1 = Ret tt k2 /\
    calls k2 =
      [ev_dev_unregister sysmem_device; ev_dev_unregister umm_device_shared;
       ev_dev_unregister umm_device_private;
       ev_xnheap_free kernel_ppd_umm 0;
       ev_atomic_dec_and_test kernel_ppd_umm false;
       ev_atomic_dec_and_test kernel_ppd_umm false;
       ev_atomic_dec_and_test kernel_ppd_umm true;
       ev_xnheap_destroy kernel_ppd_umm; ev_vfree 1048576] /\
    refcount (steely_kernel_ppd k2) = 0.
Proof.
  intros k v.
  assert (Hne : [v; v] <> []) by discriminate.
  assert (Hall : Forall (fun x => vm_private_data x = Some kernel_ppd_umm)
                   [v; v]) by (repeat constructor).
  assert (Hc : refcount (steely_kernel_ppd k) = Z.of_nat (length [v; v]) + 1)
    by reflexivity.
  assert (Hmax : Z.of_nat (length [v; v]) + 1 <= INT_MAX)
    by (cbn; unfold INT_MAX; lia).
  split; [repeat split; assumption|].
  destruct (teardown_then_last_close (H:=good_host) [v; v] k Hne Hall Hc Hmax)
    as (k1 & k2 & Hrun & Hclose & Hcalls & Hcount).
  exists k1, k2. split; [exact Hrun|]. split; [exact Hclose|].
  split; [exact Hcalls | exact Hcount].
Defined.
